(** * PuLP, [pulp/apis/gurobi_api.py]: the two Gurobi adapters

    A shallow embedding of the in-process adapter [GUROBI] and of the
    command-line adapter [GUROBI_CMD], and the properties of the
    adapter contract proved (or refuted) on it.

    Conventions.
    - A Python [str] is a [string]; its characters are the code points
      0..255.  A text file is the [string] Python reads from it in text
      mode (universal newlines already applied).
    - A Python [dict] with string keys is a [gmap string _]; [d[k] = v]
      is [<[k:=v]> d].
    - Python numbers are kept abstract (class [PyNum]): the adapters only
      move them around, print them with [format] and read them back with
      [float].
    - A raised exception is the [Raise] case of [result]. *)

From Stdlib Require Import ZArith Ascii String List DecimalString.
From stdpp Require Import base option list strings gmap.

Local Open Scope string_scope.
Local Open Scope Z_scope.

(** ** Python values and exceptions *)

Inductive PyError : Type :=
  | StopIteration
  | IndexError
  | ValueError
  | AttributeError
  | OSError
  | TypeError
  | KeyError
  | PulpSolverError (msg : string).

Inductive result (A : Type) : Type :=
  | Ok (a : A)
  | Raise (e : PyError).
Arguments Ok {A} a.
Arguments Raise {A} e.

(** The numbers the adapters handle: [float(s)] ([None] when Python
    raises [ValueError]), ['{}'.format(x)], the literal [0.0], unary
    minus and truthiness. *)
Class PyNum (F : Type) : Type := {
  float : string -> option F;
  format_num : F -> string;
  num_zero : F;
  num_neg : F -> F;
  num_truthy : F -> bool
}.

(** ** Strings: [str.split()], file iteration, [str.join] *)

(** [c.isspace()] on the code points 0..255. *)
Definition isspace (c : ascii) : bool :=
  let n := nat_of_ascii c in
  ((9 <=? n) && (n <=? 13) || (28 <=? n) && (n <=? 32)
   || (n =? 133) || (n =? 160))%nat.

Definition is_newline (c : ascii) : bool := (nat_of_ascii c =? 10)%nat.

Definition snoc (s : string) (c : ascii) : string := s +:+ String c "".

Definition is_empty (s : string) : bool :=
  match s with "" => true | String _ _ => false end.

(** [tok] is the token being read; whitespace closes it. *)
Fixpoint split_from (tok : string) (s : string) : list string :=
  match s with
  | "" => if is_empty tok then [] else [tok]
  | String c s' =>
      if isspace c
      then (if is_empty tok then split_from "" s' else tok :: split_from "" s')
      else split_from (snoc tok c) s'
  end.

(** [s.split()] with no separator: the maximal runs of non-whitespace. *)
Definition str_split (s : string) : list string := split_from "" s.

(** [cur] is the line being read; a newline closes it and stays on it. *)
Fixpoint lines_from (cur : string) (s : string) : list string :=
  match s with
  | "" => if is_empty cur then [] else [cur]
  | String c s' =>
      if is_newline c
      then snoc cur c :: lines_from "" s'
      else lines_from (snoc cur c) s'
  end.

(** The lines [for line in my_file] yields, each with its newline. *)
Definition file_lines (text : string) : list string := lines_from "" text.

(** [sep.join(rows)] *)
Fixpoint str_join (sep : string) (rows : list string) : string :=
  match rows with
  | [] => ""
  | [r] => r
  | r :: rs => r +:+ sep +:+ str_join sep rs
  end.

Definition newline : string := String (ascii_of_nat 10) "".

(** ** The modelling layer *)

(** Modelled from the spec: [constants.LpStatus*] of [pulp/constants.py],
    the five outcomes of section 3. *)
Inductive LpStatus : Type :=
  | LpStatusOptimal
  | LpStatusInfeasible
  | LpStatusUnbounded
  | LpStatusNotSolved
  | LpStatusUndefined.

Global Instance LpStatus_eq_dec : EqDecision LpStatus.
Proof. solve_decision. Defined.

(** Modelled from the spec: the category of a variable,
    [constants.LpContinuous] and [constants.LpInteger]. *)
Inductive LpCategory : Type := LpContinuous | LpInteger.

Global Instance LpCategory_eq_dec : EqDecision LpCategory.
Proof. solve_decision. Defined.

(** ** [GUROBI_CMD.readsol] and [GUROBI_CMD.writesol] *)

Section SolutionFile.
Context {F : Type} `{PyNum F}.

(** One turn of the loop of [readsol]:
    [if line[0] != '#': name, value = line.split(); values[name] = float(value)] *)
Definition readsol_line (values : gmap string F) (line : string)
  : result (gmap string F) :=
  match line with
  | "" => Raise IndexError
  | String c _ =>
      if negb (Ascii.eqb c "#")
      then match str_split line with
           | [name; value] =>
               match float value with
               | Some x => Ok (<[name := x]> values)
               | None => Raise ValueError
               end
           | _ => Raise ValueError
           end
      else Ok values
  end.

Fixpoint readsol_loop (values : gmap string F) (lines : list string)
  : result (gmap string F) :=
  match lines with
  | [] => Ok values
  | line :: rest =>
      match readsol_line values line with
      | Ok values' => readsol_loop values' rest
      | Raise e => Raise e
      end
  end.

(** [readsol(filename)], on the text of the file: status, values,
    reducedCosts, shadowPrices, slacks. *)
Definition readsol (text : string)
  : result (LpStatus * gmap string F * gmap string F
            * gmap string F * gmap string F) :=
  match file_lines text with
  | [] => Ok (LpStatusNotSolved, ∅, ∅, ∅, ∅)
  | _ :: rest =>
      let status := LpStatusOptimal in
      let shadowPrices : gmap string F := ∅ in
      let slacks : gmap string F := ∅ in
      let reducedCosts : gmap string F := ∅ in
      match readsol_loop ∅ rest with
      | Ok values => Ok (status, values, reducedCosts, shadowPrices, slacks)
      | Raise e => Raise e
      end
  end.

(** [values = [(v.name, v.value()) for v in vs if v.value() is not None]]
    on the (name, value) view of the variables. *)
Definition defined_values (vs : list (string * option F)) : list (string * F) :=
  omap (fun nv => match snd nv with
                  | Some x => Some (fst nv, x)
                  | None => None
                  end) vs.

Definition sol_row (nv : string * F) : string :=
  fst nv +:+ " " +:+ format_num (snd nv).

(** The text [writesol] writes to [filename]. *)
Definition writesol_text (vs : list (string * option F)) : string :=
  str_join newline (map sol_row (defined_values vs)).
End SolutionFile.

(** ** The problem the adapters read and annotate *)

(** Modelled from the spec: [constants.LpMinimize] and
    [constants.LpMaximize], the sense of a problem. *)
Inductive LpSense : Type := LpMinimize | LpMaximize.

Global Instance LpSense_eq_dec : EqDecision LpSense.
Proof. solve_decision. Defined.

(** Modelled from the spec: the relational sense of a constraint,
    [constants.LpConstraintLE], [LpConstraintGE], [LpConstraintEQ]; any
    other value is [LpConstraintOther]. *)
Inductive LpConstraintSense : Type :=
  | LpConstraintLE
  | LpConstraintGE
  | LpConstraintEQ
  | LpConstraintOther (code : Z).

(** The kinds and relation codes of gurobipy ([GRB.CONTINUOUS], ...). *)
Inductive GRB_vtype : Type := CONTINUOUS | INTEGER.
Inductive GRB_relation : Type := LESS_EQUAL | GREATER_EQUAL | EQUAL.

Global Instance GRB_vtype_eq_dec : EqDecision GRB_vtype.
Proof. solve_decision. Defined.

Inductive PyVal (F : Type) : Type :=
  | PyNumber (x : F)
  | PyString (s : string).
Arguments PyNumber {F} x.
Arguments PyString {F} s.

Section Model.
Context {F : Type}.

(** A native variable, as [Model.addVar] made it; [gv_index] is its
    column in the native model. *)
Record GVar : Type := {
  gv_index : nat;
  gv_lb : F;
  gv_ub : F;
  gv_vtype : GRB_vtype;
  gv_obj : F;
  gv_name : string
}.

(** A native constraint, as [Model.addConstr] made it. *)
Record GConstr : Type := {
  gc_index : nat;
  gc_expr : list (F * GVar);
  gc_relation : GRB_relation;
  gc_rhs : F;
  gc_name : string
}.

(** The native model: what the adapter put into it, and the attributes
    the engine answers with ([X], [RC] by column, [Slack], [Pi] by row). *)
Record GModel : Type := {
  m_name : string;
  ModelSense : Z;
  m_params : list (string * PyVal F);
  gvars : list GVar;
  gconstrs : list GConstr;
  Status : Z;
  IsMIP : Z;
  X : nat -> F;
  RC : nat -> F;
  Slack : nat -> F;
  Pi : nat -> F
}.

Record LpVariable : Type := {
  name : string;
  lowBound : option F;
  upBound : option F;
  cat : LpCategory;
  varValue : option F;
  dj : option F;
  isModified : bool;
  modified : bool;
  solverVar : option GVar
}.

(** A constraint is a mapping from variables (by name) to coefficients,
    with a sense and a constant. *)
Record LpConstraint : Type := {
  coefficients : list (string * F);
  sense : LpConstraintSense;
  constant : F;
  slack : option F;
  pi : option F;
  cmodified : bool;
  solverConstraint : option GConstr
}.

Record LpProblem : Type := {
  lp_name : string;
  lp_sense : LpSense;
  variables : list LpVariable;
  constraints : list (string * LpConstraint);
  objective : gmap string F;
  status : option LpStatus;
  resolveOK : bool;
  solverModel : option GModel
}.

(** Attribute writes. *)
Definition set_isModified (b : bool) (v : LpVariable) : LpVariable :=
  {| name := name v; lowBound := lowBound v; upBound := upBound v;
     cat := cat v; varValue := varValue v; dj := dj v;
     isModified := b; modified := modified v; solverVar := solverVar v |}.

Definition set_varValue (v : LpVariable) (x : F) : LpVariable :=
  {| name := name v; lowBound := lowBound v; upBound := upBound v;
     cat := cat v; varValue := Some x; dj := dj v;
     isModified := isModified v; modified := modified v;
     solverVar := solverVar v |}.

Definition set_dj (v : LpVariable) (x : F) : LpVariable :=
  {| name := name v; lowBound := lowBound v; upBound := upBound v;
     cat := cat v; varValue := varValue v; dj := Some x;
     isModified := isModified v; modified := modified v;
     solverVar := solverVar v |}.

Definition set_solverVar (v : LpVariable) (g : GVar) : LpVariable :=
  {| name := name v; lowBound := lowBound v; upBound := upBound v;
     cat := cat v; varValue := varValue v; dj := dj v;
     isModified := isModified v; modified := modified v;
     solverVar := Some g |}.

Definition set_slack (c : LpConstraint) (x : F) : LpConstraint :=
  {| coefficients := coefficients c; sense := sense c;
     constant := constant c; slack := Some x; pi := pi c;
     cmodified := cmodified c; solverConstraint := solverConstraint c |}.

Definition set_pi (c : LpConstraint) (x : F) : LpConstraint :=
  {| coefficients := coefficients c; sense := sense c;
     constant := constant c; slack := slack c; pi := Some x;
     cmodified := cmodified c; solverConstraint := solverConstraint c |}.

Definition set_solverConstraint (c : LpConstraint) (g : GConstr)
  : LpConstraint :=
  {| coefficients := coefficients c; sense := sense c;
     constant := constant c; slack := slack c; pi := pi c;
     cmodified := cmodified c; solverConstraint := Some g |}.

Definition set_variables (vs : list LpVariable) (lp : LpProblem) : LpProblem :=
  {| lp_name := lp_name lp; lp_sense := lp_sense lp; variables := vs;
     constraints := constraints lp; objective := objective lp;
     status := status lp; resolveOK := resolveOK lp;
     solverModel := solverModel lp |}.

Definition set_constraints (cs : list (string * LpConstraint))
    (lp : LpProblem) : LpProblem :=
  {| lp_name := lp_name lp; lp_sense := lp_sense lp;
     variables := variables lp; constraints := cs;
     objective := objective lp; status := status lp;
     resolveOK := resolveOK lp; solverModel := solverModel lp |}.

Definition set_resolveOK (b : bool) (lp : LpProblem) : LpProblem :=
  {| lp_name := lp_name lp; lp_sense := lp_sense lp;
     variables := variables lp; constraints := constraints lp;
     objective := objective lp; status := status lp; resolveOK := b;
     solverModel := solverModel lp |}.

Definition set_solverModel (m : GModel) (lp : LpProblem) : LpProblem :=
  {| lp_name := lp_name lp; lp_sense := lp_sense lp;
     variables := variables lp; constraints := constraints lp;
     objective := objective lp; status := status lp;
     resolveOK := resolveOK lp; solverModel := Some m |}.

(** Modelled from the spec: [LpProblem.assignStatus] of [pulp/pulp.py],
    which assigns the outcome of the solve onto the problem. *)
Definition assignStatus (st : LpStatus) (lp : LpProblem) : LpProblem :=
  {| lp_name := lp_name lp; lp_sense := lp_sense lp;
     variables := variables lp; constraints := constraints lp;
     objective := objective lp; status := Some st;
     resolveOK := resolveOK lp; solverModel := solverModel lp |}.

(** Modelled from the spec: [LpProblem.isMIP] of [pulp/pulp.py], true
    when some variable is integer. *)
Definition isMIP (lp : LpProblem) : bool :=
  existsb (fun v => bool_decide (cat v = LpInteger)) (variables lp).

(** [for obj, value in zip(objs, values): obj.attr = value]: the
    objects beyond the shorter list are not reached. *)
Fixpoint assign_zip {A : Type} (write : A -> F -> A)
    (objs : list A) (values : list F) : list A :=
  match objs, values with
  | o :: objs', x :: values' => write o x :: assign_zip write objs' values'
  | _, _ => objs
  end.

(** [model.getAttr(attr, model.getVars())] and the same for rows. *)
Definition getAttr_vars (attr : nat -> F) (m : GModel) : list F :=
  map (fun g => attr (gv_index g)) (gvars m).

Definition getAttr_constrs (attr : nat -> F) (m : GModel) : list F :=
  map (fun g => attr (gc_index g)) (gconstrs m).

Definition on_snd {K A : Type} (write : A -> F -> A) (kc : K * A) (x : F)
  : K * A := (fst kc, write (snd kc) x).
End Model.

Arguments GVar F : clear implicits.
Arguments GConstr F : clear implicits.
Arguments GModel F : clear implicits.
Arguments LpVariable F : clear implicits.
Arguments LpConstraint F : clear implicits.
Arguments LpProblem F : clear implicits.

(** The names the adapter uses of the gurobipy module: the termination
    codes and the infinity of [GRB], and the constructor [Model]. *)
Record Gurobipy (F : Type) : Type := {
  OPTIMAL : Z;
  INFEASIBLE : Z;
  INF_OR_UNBD : Z;
  UNBOUNDED : Z;
  ITERATION_LIMIT : Z;
  NODE_LIMIT : Z;
  TIME_LIMIT : Z;
  SOLUTION_LIMIT : Z;
  INTERRUPTED : Z;
  NUMERIC : Z;
  INFINITY : F;
  Model : string -> GModel F
}.
Arguments OPTIMAL {F} _.
Arguments INFEASIBLE {F} _.
Arguments INF_OR_UNBD {F} _.
Arguments UNBOUNDED {F} _.
Arguments ITERATION_LIMIT {F} _.
Arguments NODE_LIMIT {F} _.
Arguments TIME_LIMIT {F} _.
Arguments SOLUTION_LIMIT {F} _.
Arguments INTERRUPTED {F} _.
Arguments NUMERIC {F} _.
Arguments INFINITY {F} _.
Arguments Model {F} _ _.

(** A dict display [{k1: v1, k2: v2, ...}]: a later key replaces an
    equal earlier one. *)
Definition dict_of {V : Type} (items : list (Z * V)) : gmap Z V :=
  fold_left (fun d kv => <[fst kv := snd kv]> d) items ∅.

(** ** The in-process adapter, class [GUROBI] *)

Module GUROBI.
Section Adapter.
Context {F : Type} `{PyNum F}.
Variable gurobipy : Gurobipy F.

(** The fields of the solver object the methods read. *)
Record self : Type := {
  mip : bool;
  msg : bool;
  timeLimit : option F;
  optionsDict : gmap string (PyVal F)
}.

(** What a method leaves behind: the value returned or the exception
    raised, the problem as annotated so far, and what was printed. *)
Record Outcome (A : Type) : Type := {
  returned : result A;
  problem : LpProblem F;
  printed : list (string * Z)
}.
Arguments returned {A} _.
Arguments problem {A} _.
Arguments printed {A} _.

Definition gurobiLpStatus : gmap Z LpStatus :=
  dict_of [ (OPTIMAL gurobipy, LpStatusOptimal);
            (INFEASIBLE gurobipy, LpStatusInfeasible);
            (INF_OR_UNBD gurobipy, LpStatusInfeasible);
            (UNBOUNDED gurobipy, LpStatusUnbounded);
            (ITERATION_LIMIT gurobipy, LpStatusNotSolved);
            (NODE_LIMIT gurobipy, LpStatusNotSolved);
            (TIME_LIMIT gurobipy, LpStatusNotSolved);
            (SOLUTION_LIMIT gurobipy, LpStatusNotSolved);
            (INTERRUPTED gurobipy, LpStatusNotSolved);
            (NUMERIC gurobipy, LpStatusNotSolved) ].

(** [gurobiLpStatus.get(solutionStatus, constants.LpStatusUndefined)] *)
Definition lookup_status (solutionStatus : Z) : LpStatus :=
  default LpStatusUndefined (gurobiLpStatus !! solutionStatus).

(** The part of [findSolutionValues] after the status test. *)
Definition populate (model : GModel F) (lp : LpProblem F) : LpProblem F :=
  let lp1 :=
    set_variables
      (assign_zip set_varValue (variables lp) (getAttr_vars (X model) model)) lp in
  let lp2 :=
    set_constraints
      (assign_zip (on_snd set_slack) (constraints lp1)
         (getAttr_constrs (Slack model) model)) lp1 in
  if (IsMIP model =? 0)%Z
  then
    let lp3 :=
      set_variables
        (assign_zip set_dj (variables lp2) (getAttr_vars (RC model) model)) lp2 in
    set_constraints
      (assign_zip (on_snd set_pi) (constraints lp3)
         (getAttr_constrs (Pi model) model)) lp3
  else lp2.

Definition findSolutionValues (s : self) (lp : LpProblem F) : Outcome LpStatus :=
  match solverModel lp with
  | None => {| returned := Raise AttributeError; problem := lp; printed := [] |}
  | Some model =>
      let solutionStatus := Status model in
      let out := if msg s then [("Gurobi status=", solutionStatus)] else [] in
      let lp1 := set_resolveOK true lp in
      let lp2 := set_variables (map (set_isModified false) (variables lp1)) lp1 in
      let status := lookup_status solutionStatus in
      let lp3 := assignStatus status lp2 in
      if bool_decide (status <> LpStatusOptimal)
      then {| returned := Ok status; problem := lp3; printed := out |}
      else {| returned := Ok status; problem := populate model lp3;
              printed := out |}
  end.

(** The calls on the native model ([update] makes pending additions
    visible and changes nothing here). *)
Definition setAttr_ModelSense (z : Z) (m : GModel F) : GModel F :=
  {| m_name := m_name m; ModelSense := z; m_params := m_params m;
     gvars := gvars m; gconstrs := gconstrs m; Status := Status m;
     IsMIP := IsMIP m; X := X m; RC := RC m; Slack := Slack m; Pi := Pi m |}.

Definition setParam (key : string) (value : PyVal F) (m : GModel F) : GModel F :=
  {| m_name := m_name m; ModelSense := ModelSense m;
     m_params := m_params m ++ [(key, value)];
     gvars := gvars m; gconstrs := gconstrs m; Status := Status m;
     IsMIP := IsMIP m; X := X m; RC := RC m; Slack := Slack m; Pi := Pi m |}.

Definition addVar (lb ub : F) (vtype : GRB_vtype) (obj : F) (nm : string)
    (m : GModel F) : GVar F * GModel F :=
  let g := {| gv_index := length (gvars m); gv_lb := lb; gv_ub := ub;
              gv_vtype := vtype; gv_obj := obj; gv_name := nm |} in
  (g, {| m_name := m_name m; ModelSense := ModelSense m;
         m_params := m_params m; gvars := gvars m ++ [g];
         gconstrs := gconstrs m; Status := Status m; IsMIP := IsMIP m;
         X := X m; RC := RC m; Slack := Slack m; Pi := Pi m |}).

Definition addConstr (expr : list (F * GVar F)) (relation : GRB_relation)
    (rhs : F) (nm : string) (m : GModel F) : GConstr F * GModel F :=
  let g := {| gc_index := length (gconstrs m); gc_expr := expr;
              gc_relation := relation; gc_rhs := rhs; gc_name := nm |} in
  (g, {| m_name := m_name m; ModelSense := ModelSense m;
         m_params := m_params m; gvars := gvars m;
         gconstrs := gconstrs m ++ [g]; Status := Status m; IsMIP := IsMIP m;
         X := X m; RC := RC m; Slack := Slack m; Pi := Pi m |}).

Definition truthy (v : PyVal F) : bool :=
  match v with
  | PyNumber x => num_truthy x
  | PyString s => negb (is_empty s)
  end.

(** The native variable made for [var]: the arguments of [addVar]. *)
Definition var_lowBound (var : LpVariable F) : F :=
  match lowBound var with
  | None => num_neg (INFINITY gurobipy)
  | Some b => b
  end.

Definition var_upBound (var : LpVariable F) : F :=
  match upBound var with
  | None => INFINITY gurobipy
  | Some b => b
  end.

Definition var_obj (lp : LpProblem F) (var : LpVariable F) : F :=
  default num_zero (objective lp !! name var).

Definition var_varType (s : self) (var : LpVariable F) : GRB_vtype :=
  if bool_decide (cat var = LpInteger) && mip s then INTEGER else CONTINUOUS.

(** [for var in lp.variables(): ... var.solverVar = lp.solverModel.addVar(...)] *)
Fixpoint addVariables (s : self) (lp : LpProblem F)
    (vars : list (LpVariable F)) (m : GModel F)
  : list (LpVariable F) * GModel F :=
  match vars with
  | [] => ([], m)
  | var :: rest =>
      let lowBound := var_lowBound var in
      let upBound := var_upBound var in
      let obj := var_obj lp var in
      let varType := var_varType s var in
      let '(g, m1) := addVar lowBound upBound varType obj (name var) m in
      let '(rest', m2) := addVariables s lp rest m1 in
      (set_solverVar var g :: rest', m2)
  end.

(** [[v.solverVar for v in constraint.keys()]] paired with
    [constraint.values()]; the keys are the variables of the problem. *)
Fixpoint linExpr (vars : list (LpVariable F)) (coefs : list (string * F))
  : result (list (F * GVar F)) :=
  match coefs with
  | [] => Ok []
  | (vname, coef) :: rest =>
      match List.find (fun v => String.eqb (name v) vname) vars with
      | Some v =>
          match solverVar v with
          | Some g =>
              match linExpr vars rest with
              | Ok e => Ok ((coef, g) :: e)
              | Raise err => Raise err
              end
          | None => Raise AttributeError
          end
      | None => Raise AttributeError
      end
  end.

(** [for name, constraint in lp.constraints.items(): ...] *)
Fixpoint addConstraints (vars : list (LpVariable F))
    (cs : list (string * LpConstraint F)) (m : GModel F)
  : result unit * list (string * LpConstraint F) * GModel F :=
  match cs with
  | [] => (Ok tt, [], m)
  | (nm, constraint) :: rest =>
      match linExpr vars (coefficients constraint) with
      | Raise err => (Raise err, cs, m)
      | Ok expr =>
          let relation :=
            match sense constraint with
            | LpConstraintLE => Ok LESS_EQUAL
            | LpConstraintGE => Ok GREATER_EQUAL
            | LpConstraintEQ => Ok EQUAL
            | LpConstraintOther _ =>
                Raise (PulpSolverError "Detected an invalid constraint type")
            end in
          match relation with
          | Raise err => (Raise err, cs, m)
          | Ok rel =>
              let '(g, m1) :=
                addConstr expr rel (num_neg (constant constraint)) nm m in
              let '(r, rest', m2) := addConstraints vars rest m1 in
              (r, (nm, set_solverConstraint constraint g) :: rest', m2)
          end
      end
  end.

(** The native model before the variables are added. *)
Definition configured_model (s : self) (lp : LpProblem F) : GModel F :=
  let m0 := Model gurobipy (lp_name lp) in
  let m1 := if bool_decide (lp_sense lp = LpMaximize)
            then setAttr_ModelSense (-1) m0 else m0 in
  let m2 := match timeLimit s with
            | Some t => if num_truthy t
                        then setParam "TimeLimit" (PyNumber t) m1 else m1
            | None => m1
            end in
  let gapRel := optionsDict s !! "gapRel" in
  let logPath := optionsDict s !! "logPath" in
  let m3 := match gapRel with
            | Some v => if truthy v then setParam "MIPGap" v m2 else m2
            | None => m2
            end in
  match logPath with
  | Some v => if truthy v then setParam "LogFile" v m3 else m3
  | None => m3
  end.

Definition buildSolverModel (s : self) (lp : LpProblem F) : Outcome unit :=
  let m := configured_model s lp in
  let '(vars, m1) := addVariables s lp (variables lp) m in
  let lp1 := set_variables vars lp in
  let '(r, cs, m2) := addConstraints vars (constraints lp1) m1 in
  {| returned := r;
     problem := set_solverModel m2 (set_constraints cs lp1);
     printed := [] |}.
End Adapter.
Arguments self F : clear implicits.
Arguments Outcome F A : clear implicits.
Arguments returned {F A} _.
Arguments problem {F A} _.
Arguments printed {F A} _.
End GUROBI.

(** ** The command-line adapter, class [GUROBI_CMD] *)

Module GUROBI_CMD.
Section Adapter.
Context {F : Type} `{PyNum F}.

Record self : Type := {
  path : string;
  options : list (string * PyVal F);
  optionsDict : gmap string (PyVal F);
  warmStart : bool;
  mip : bool;
  msg : bool
}.

(** What the method does to the outside, in order: the calls on the
    modelling layer, on the operating system and on the base class.
    [SubprocessCall] is a finished call, with the exit code it gave. *)
Inductive Event : Type :=
  | WriteLP (filename : string)
  | Remove (filename : string)
  | WriteSol (filename : string)
  | Warn (message : string)
  | OpenDevnull
  | SubprocessCall (argv : list string) (silenced : bool) (return_code : Z)
  | ClosePipe
  | ReadSol (filename : string)
  | DeleteTmpFiles (filenames : list string)
  | AssignVarsVals (values : option (gmap string F))
  | AssignVarsDj (values : option (gmap string F))
  | AssignConsPi (values : option (gmap string F))
  | AssignConsSlack (values : option (gmap string F))
  | AssignStatus (st : LpStatus).

(** The exceptions an assign* method of the modelling layer
    ([pulp/pulp.py]) can end in: [TypeError], which Python raises when
    [None] is iterated over as a mapping, and [KeyError], which the
    lookup of a name the problem lacks raises. *)
Inductive AssignError : Type :=
  | NotAMapping
  | UnknownName.

Definition raised (f : AssignError) : PyError :=
  match f with
  | NotAMapping => TypeError
  | UnknownName => KeyError
  end.

(** The files on disk (name to text), the handles opened on the null
    device and not closed yet, and the events so far (oldest first). *)
Record World : Type := {
  files : gmap string string;
  open_pipes : nat;
  trace : list Event
}.

(** What the adapter relies on and does not define:
    [LpSolver_CMD.executable] and [create_tmp_files] of
    [pulp/apis/core.py], the LP text [lp.writeLP] produces, and the
    external executable run by [subprocess.call] (its exit code and the
    files it leaves), and the methods [assignVarsVals], [assignVarsDj],
    [assignConsPi], [assignConsSlack] and [assignStatus] of the problem
    in [pulp/pulp.py]: whether such a call on the problem returns
    ([None]) or raises. *)
Record System : Type := {
  executable : string -> bool;
  create_tmp_files : string -> string * string * string;
  lp_text : LpProblem F -> string;
  run : list string -> gmap string string -> Z * gmap string string;
  assign_raises : LpProblem F -> Event -> option AssignError
}.

Variable sys : System.

(** State and exceptions: an exception keeps the world it was raised in. *)
Definition M (A : Type) : Type := World -> result A * World.

Definition ret {A : Type} (a : A) : M A := fun w => (Ok a, w).

Definition raise {A : Type} (e : PyError) : M A := fun w => (Raise e, w).

Definition bind {A B : Type} (c : M A) (k : A -> M B) : M B :=
  fun w => match c w with
           | (Ok a, w') => k a w'
           | (Raise e, w') => (Raise e, w')
           end.

Local Instance M_ret : MRet M := @ret.
Local Instance M_bind : MBind M := fun A B k c => bind c k.

Definition emit (e : Event) : M unit :=
  fun w => (Ok tt, {| files := files w; open_pipes := open_pipes w;
                      trace := trace w ++ [e] |}).

Definition with_files (f : gmap string string -> gmap string string) : M unit :=
  fun w => (Ok tt, {| files := f (files w); open_pipes := open_pipes w;
                      trace := trace w |}).

Definition with_pipes (f : nat -> nat) : M unit :=
  fun w => (Ok tt, {| files := files w; open_pipes := f (open_pipes w);
                      trace := trace w |}).

Definition get_files : M (gmap string string) := fun w => (Ok (files w), w).

Definition when (b : bool) (c : M unit) : M unit := if b then c else ret tt.

(** Modelled from the spec: [lp.writeLP(tmpLp, writeSOS = 1)] of
    [pulp/pulp.py] serializes the problem at the path and returns the
    ordered list of the variables written. *)
Definition writeLP (lp : LpProblem F) (filename : string) : M (list (LpVariable F)) :=
  emit (WriteLP filename);;
  with_files (insert filename (lp_text sys lp));;
  ret (variables lp).

(** [try: os.remove(tmpSol) except: pass] *)
Definition remove_quietly (filename : string) : M unit :=
  emit (Remove filename);; with_files (delete filename).

(** Modelled from the spec: [LpSolver_CMD.delete_tmp_files] of
    [pulp/apis/core.py] deletes the files named, the missing ones
    silently. *)
Definition delete_tmp_files (filenames : list string) : M unit :=
  emit (DeleteTmpFiles filenames);;
  with_files (fun fs => fold_left (fun fs f => delete f fs) filenames fs).

Definition str_of (v : PyVal F) : string :=
  match v with
  | PyNumber x => format_num x
  | PyString s => s
  end.

Definition params_eq : list (string * string) :=
  [ ("logPath", "LogFile"); ("timeLimit", "TimeLimit"); ("gapRel", "MIPGap");
    ("gapAbs", "MIPGapAbs"); ("threads", "Threads") ].

(** [[(v, self.optionsDict[k]) for k, v in params_eq.items()
      if k in self.optionsDict]] *)
Definition getOptions (s : self) : list (string * PyVal F) :=
  omap (fun kv => match optionsDict s !! fst kv with
                  | Some x => Some (snd kv, x)
                  | None => None
                  end) params_eq.

Definition writesol (filename : string) (vs : list (LpVariable F)) : M bool :=
  emit (WriteSol filename);;
  with_files (insert filename
                (writesol_text (map (fun v => (name v, varValue v)) vs)));;
  ret true.

(** [self.readsol(tmpSol)]: the file is opened and its text parsed. *)
Definition readsol_file (filename : string)
  : M (LpStatus * gmap string F * gmap string F
       * gmap string F * gmap string F) :=
  emit (ReadSol filename);;
  fs ← get_files;
  match fs !! filename with
  | None => raise OSError
  | Some text =>
      match readsol text with
      | Ok r => ret r
      | Raise e => raise e
      end
  end.

(** [subprocess.call(cmd.split(), stdout = pipe, stderr = pipe)] *)
Definition subprocess_call (argv : list string) (silenced : bool) : M Z :=
  fs ← get_files;
  let '(code, fs') := run sys argv fs in
  with_files (fun _ => fs');;
  emit (SubprocessCall argv silenced code);;
  ret code.

Definition option_text (kv : string * PyVal F) : string :=
  fst kv +:+ "=" +:+ str_of (snd kv).

(** A call of an assign* method on the problem: the call is made, then
    it returns or its exception escapes. *)
Definition assign (lp : LpProblem F) (e : Event) : M unit :=
  emit e;;
  match assign_raises sys lp e with
  | Some f => raise (raised f)
  | None => ret tt
  end.

Definition actualSolve (s : self) (lp : LpProblem F) : M LpStatus :=
  if negb (executable sys (path s))
  then raise (PulpSolverError ("PuLP: cannot execute " +:+ path s))
  else
    let '(tmpLp, tmpSol, tmpMst) := create_tmp_files sys (lp_name lp) in
    vs ← writeLP lp tmpLp;
    remove_quietly tmpSol;;
    let cmd := path s in
    let opts := (options s ++ getOptions s)%list in
    let cmd := cmd +:+ " " +:+ str_join " " (map option_text opts) in
    let cmd := cmd +:+ " ResultFile=" +:+ tmpSol in
    cmd ← (if warmStart s
            then writesol tmpMst vs;; ret (cmd +:+ " InputFile=" +:+ tmpMst)
            else ret cmd);
    when (isMIP lp)
      (when (negb (mip s))
         (emit (Warn "GUROBI_CMD does not allow a problem to be relaxed")));;
    let cmd := cmd +:+ " " +:+ tmpLp in
    let silenced := negb (msg s) in
    when silenced (emit OpenDevnull;; with_pipes S);;
    return_code ← subprocess_call (str_split cmd) silenced;
    when silenced (emit ClosePipe;; with_pipes pred);;
    if negb (return_code =? 0)%Z
    then raise (PulpSolverError
                  ("PuLP: Error while trying to execute " +:+ path s))
    else
      fs ← get_files;
      r ← (if negb (bool_decide (is_Some (fs !! tmpSol)))
            then ret (LpStatusNotSolved, None, None, None, None)
            else
              r ← readsol_file tmpSol;
              let '(status, values, reducedCosts, shadowPrices, slacks) := r in
              ret (status, Some values, Some reducedCosts,
                   Some shadowPrices, Some slacks));
      let '(status, values, reducedCosts, shadowPrices, slacks) := r in
      delete_tmp_files [tmpLp; tmpMst; tmpSol; "gurobi.log"];;
      when (bool_decide (status <> LpStatusInfeasible))
        (assign lp (AssignVarsVals values);;
         assign lp (AssignVarsDj reducedCosts);;
         assign lp (AssignConsPi shadowPrices);;
         assign lp (AssignConsSlack slacks));;
      assign lp (AssignStatus status);;
      ret status.

(** The world before the adapter has done anything. *)
Definition initial (fs : gmap string string) : World :=
  {| files := fs; open_pipes := 0; trace := [] |}.

Definition is_assign (e : Event) : bool :=
  match e with
  | AssignVarsVals _ | AssignVarsDj _ | AssignConsPi _
  | AssignConsSlack _ | AssignStatus _ => true
  | _ => false
  end.

Definition is_read (e : Event) : bool :=
  match e with ReadSol _ => true | _ => false end.

Definition is_delete (e : Event) : bool :=
  match e with DeleteTmpFiles _ => true | _ => false end.
End Adapter.
Arguments self F : clear implicits.
Arguments Event F : clear implicits.
Arguments World F : clear implicits.
Arguments System F : clear implicits.
End GUROBI_CMD.

(** ** Concrete instances, for the examples *)

Module Examples.
(** Whole numbers written in decimal, as one instance of [PyNum]. *)
Definition whole_float (s : string) : option Z :=
  Z.of_int <$> DecimalString.NilZero.int_of_string s.

Definition whole_format (z : Z) : string :=
  DecimalString.NilZero.string_of_int (Z.to_int z).

Global Instance whole_numbers : PyNum Z := {|
  float := whole_float;
  format_num := whole_format;
  num_zero := 0;
  num_neg := Z.opp;
  num_truthy := fun z => negb (z =? 0)
|}.

(** A native model nothing was added to. *)
Definition empty_model (nm : string) : GModel Z :=
  {| m_name := nm; ModelSense := 1; m_params := []; gvars := [];
     gconstrs := []; Status := 1; IsMIP := 0;
     X := fun _ => 0; RC := fun _ => 0; Slack := fun _ => 0;
     Pi := fun _ => 0 |}.

(** The termination codes of the Gurobi reference manual. *)
Definition gurobipy : Gurobipy Z :=
  {| OPTIMAL := 2; INFEASIBLE := 3; INF_OR_UNBD := 4; UNBOUNDED := 5;
     ITERATION_LIMIT := 7; NODE_LIMIT := 8; TIME_LIMIT := 9;
     SOLUTION_LIMIT := 10; INTERRUPTED := 11; NUMERIC := 12;
     INFINITY := 10 ^ 100; Model := empty_model |}.

Definition var (nm : string) (lb ub : option Z) (c : LpCategory)
  : LpVariable Z :=
  {| name := nm; lowBound := lb; upBound := ub; cat := c;
     varValue := None; dj := None; isModified := true; modified := true;
     solverVar := None |}.

Definition constr (coefs : list (string * Z)) (sn : LpConstraintSense)
    (k : Z) : LpConstraint Z :=
  {| coefficients := coefs; sense := sn; constant := k; slack := None;
     pi := None; cmodified := true; solverConstraint := None |}.

(** maximize 3 x + 2 y  subject to  c1: x + y <= 4,  x integer in
    [0, inf), y continuous and free. *)
Definition lp0 : LpProblem Z :=
  {| lp_name := "demo"; lp_sense := LpMaximize;
     variables := [ var "x" (Some 0) None LpInteger;
                    var "y" None None LpContinuous ];
     constraints := [ ("c1", constr [("x", 1); ("y", 1)] LpConstraintLE (-4)) ];
     objective := {[ "x" := 3 ]};
     status := None; resolveOK := false; solverModel := None |}.

Definition solver (relax : bool) : GUROBI.self Z :=
  {| GUROBI.mip := negb relax; GUROBI.msg := false;
     GUROBI.timeLimit := None; GUROBI.optionsDict := ∅ |}.

(** [lp0] after [buildSolverModel]. *)
Definition lp0_built : LpProblem Z :=
  GUROBI.problem (GUROBI.buildSolverModel gurobipy (solver false) lp0).

(** The engine's answer: a termination code, the MIP flag, and the
    same numbers at every column and row. *)
Definition answered (code mipflag : Z) (lp : LpProblem Z) : LpProblem Z :=
  match solverModel lp with
  | None => lp
  | Some m =>
      set_solverModel
        {| m_name := m_name m; ModelSense := ModelSense m;
           m_params := m_params m; gvars := gvars m;
           gconstrs := gconstrs m; Status := code; IsMIP := mipflag;
           X := fun i => Z.of_nat i + 1; RC := fun _ => 7;
           Slack := fun _ => 5; Pi := fun _ => 9 |} lp
  end.

(** Some name of the mapping is no variable of the problem. *)
Definition names_unknown (lp : LpProblem Z) (m : gmap string Z) : bool :=
  negb (forallb (fun nv => bool_decide (fst nv ∈ map name (variables lp)))
                (map_to_list m)).

(** A modelling layer whose assign* methods raise [TypeError] when
    handed [None] and whose [assignVarsVals] and [assignVarsDj] raise
    [KeyError] on a name that is no variable of the problem. *)
Definition modelling_layer (lp : LpProblem Z) (e : GUROBI_CMD.Event Z)
  : option GUROBI_CMD.AssignError :=
  match e with
  | GUROBI_CMD.AssignVarsVals None | GUROBI_CMD.AssignVarsDj None
  | GUROBI_CMD.AssignConsPi None | GUROBI_CMD.AssignConsSlack None =>
      Some GUROBI_CMD.NotAMapping
  | GUROBI_CMD.AssignVarsVals (Some m) | GUROBI_CMD.AssignVarsDj (Some m) =>
      if names_unknown lp m then Some GUROBI_CMD.UnknownName else None
  | _ => None
  end.

(** A machine where the executable exists, the temporary names derive
    from the problem name, and the executable exits with [code]; it
    writes [out], when given, as the file named by its [ResultFile]
    argument, here the solution file of [lp0]. *)
Definition machine (code : Z) (out : option string) : GUROBI_CMD.System Z :=
  {| GUROBI_CMD.executable := fun _ => true;
     GUROBI_CMD.create_tmp_files := fun nm =>
       (nm +:+ "-pulp.lp", nm +:+ "-pulp.sol", nm +:+ "-pulp.mst");
     GUROBI_CMD.lp_text := fun _ : LpProblem Z => "\* demo *\";
     GUROBI_CMD.run := fun _ fs =>
       (code, match out with
              | Some text => <["demo-pulp.sol" := text]> fs
              | None => fs
              end);
     GUROBI_CMD.assign_raises := modelling_layer |}.

(** The built problem with the engine's answer: infeasible; optimal
    on the relaxation; optimal on the MIP. *)
Definition lp0_infeasible : LpProblem Z := answered 3 1 lp0_built.
Definition lp0_relaxed : LpProblem Z := answered 2 0 lp0_built.
Definition lp0_integer : LpProblem Z := answered 2 1 lp0_built.

Definition model_of (lp : LpProblem Z) : GModel Z :=
  default (empty_model "") (solverModel lp).

(** A solution file, and one whose last line lacks its value. *)
Definition sol_text : string :=
  "# Objective value = 11" +:+ newline +:+ "x 3" +:+ newline
  +:+ "# y is free" +:+ newline +:+ "y 1" +:+ newline.

Definition bad_text : string :=
  "# Objective value = 11" +:+ newline +:+ "x 3" +:+ newline
  +:+ "y" +:+ newline.

Definition argv0 : list string :=
  ["gurobi_cl"; "ResultFile=demo-pulp.sol"; "demo-pulp.lp"].

Definition gurobi_cl : GUROBI_CMD.self Z :=
  {| GUROBI_CMD.path := "gurobi_cl"; GUROBI_CMD.options := [];
     GUROBI_CMD.optionsDict := ∅; GUROBI_CMD.warmStart := false;
     GUROBI_CMD.mip := true; GUROBI_CMD.msg := false |}.
End Examples.

(** ** The vocabulary of the statements *)

Section Vocabulary.
Context {F : Type} `{PyNum F}.

Fixpoint str_all (p : ascii -> bool) (s : string) : bool :=
  match s with
  | "" => true
  | String c s' => p c && str_all p s'
  end.

(** A non-empty string without whitespace: one token of [str.split]. *)
Definition is_token (s : string) : bool :=
  negb (is_empty s) && str_all (fun c => negb (isspace c)) s.

(** A line beginning with ['#']. *)
Definition is_comment (line : string) : bool :=
  match line with
  | "" => false
  | String c _ => Ascii.eqb c "#"
  end.

(** A line of exactly two tokens, the second one a number. *)
Definition is_entry (line : string) : Prop :=
  exists (n v : string) (x : F), str_split line = [n; v] /\ float v = Some x.

Definition line_ok (line : string) : Prop :=
  is_comment line = false -> is_entry line.

(** Every line after the first is a comment or an entry. *)
Definition well_formed (text : string) : Prop :=
  Forall line_ok (tail (file_lines text)).

(** The first token of a line and its second token read as a number. *)
Definition entry_of (line : string) : option (string * F) :=
  match str_split line with
  | [n; v] => match float v with Some x => Some (n, x) | None => None end
  | _ => None
  end.

(** [well_formed], decided. *)
Definition well_formedb (text : string) : bool :=
  forallb (fun line => is_comment line || bool_decide (is_Some (entry_of line)))
          (tail (file_lines text)).

(** The entries of the lines after the first that are not comments. *)
Definition entries (text : string) : list (string * F) :=
  omap entry_of
    (List.filter (fun line => negb (is_comment line)) (tail (file_lines text))).

(** The mapping a list of pairs builds, a later pair replacing an
    earlier one of the same name. *)
Definition dict_of_pairs (ps : list (string * F)) : gmap string F :=
  fold_left (fun d nv => <[fst nv := snd nv]> d) ps ∅.

(** A pair [writesol] and [readsol] agree on: the name is a token not
    beginning with ['#'], the value prints as a token and reads back. *)
Definition portable (nv : string * F) : Prop :=
  is_token (fst nv) = true /\ is_comment (fst nv) = false
  /\ is_token (format_num (snd nv)) = true
  /\ float (format_num (snd nv)) = Some (snd nv).

Definition all_defined (ps : list (string * F)) : list (string * option F) :=
  map (fun nv => (fst nv, Some (snd nv))) ps.

(** The termination codes [findSolutionValues] lists. *)
Definition limit_codes (gurobipy : Gurobipy F) : list Z :=
  [ ITERATION_LIMIT gurobipy; NODE_LIMIT gurobipy; TIME_LIMIT gurobipy;
    SOLUTION_LIMIT gurobipy; INTERRUPTED gurobipy; NUMERIC gurobipy ].

Definition listed_codes (gurobipy : Gurobipy F) : list Z :=
  [ OPTIMAL gurobipy; INFEASIBLE gurobipy; INF_OR_UNBD gurobipy;
    UNBOUNDED gurobipy ] ++ limit_codes gurobipy.

(** The native variable [buildSolverModel] makes for [var] at column [k]. *)
Definition native_var (gurobipy : Gurobipy F) (s : GUROBI.self F)
    (lp : LpProblem F) (k : nat) (var : LpVariable F) : GVar F :=
  {| gv_index := k;
     gv_lb := GUROBI.var_lowBound gurobipy var;
     gv_ub := GUROBI.var_upBound gurobipy var;
     gv_vtype := GUROBI.var_varType s var;
     gv_obj := GUROBI.var_obj lp var;
     gv_name := name var |}.

Definition slack_of (kc : string * LpConstraint F) : option F := slack (snd kc).
Definition pi_of (kc : string * LpConstraint F) : option F := pi (snd kc).
(** Two variables that differ at most in the native variable they
    carry. *)
Definition same_but_solverVar (v v' : LpVariable F) : Prop :=
  name v' = name v /\ lowBound v' = lowBound v /\ upBound v' = upBound v
  /\ cat v' = cat v /\ varValue v' = varValue v /\ dj v' = dj v
  /\ isModified v' = isModified v /\ modified v' = modified v.
End Vocabulary.

(** ** The solve cycle of the in-process adapter *)

Section Flags.
Context {F : Type}.

Definition set_modified (b : bool) (v : LpVariable F) : LpVariable F :=
  {| name := name v; lowBound := lowBound v; upBound := upBound v;
     cat := cat v; varValue := varValue v; dj := dj v;
     isModified := isModified v; modified := b; solverVar := solverVar v |}.

Definition set_cmodified (b : bool) (c : LpConstraint F) : LpConstraint F :=
  {| coefficients := coefficients c; sense := sense c;
     constant := constant c; slack := slack c; pi := pi c;
     cmodified := b; solverConstraint := solverConstraint c |}.

(** [for var in lp.variables(): var.modified = False] and
    [for constraint in lp.constraints.values(): constraint.modified = False] *)
Definition clear_modified (lp : LpProblem F) : LpProblem F :=
  set_constraints
    (map (fun kc => (fst kc, set_cmodified false (snd kc))) (constraints lp))
    (set_variables (map (set_modified false) (variables lp)) lp).

(** [constr.setAttr(GRB.Attr.RHS, rhs)] on a native constraint. *)
Definition setAttr_RHS (rhs : F) (g : GConstr F) : GConstr F :=
  {| gc_index := gc_index g; gc_expr := gc_expr g;
     gc_relation := gc_relation g; gc_rhs := rhs; gc_name := gc_name g |}.

Definition set_gconstrs (rows : list (GConstr F)) (m : GModel F) : GModel F :=
  {| m_name := m_name m; ModelSense := ModelSense m; m_params := m_params m;
     gvars := gvars m; gconstrs := rows; Status := Status m;
     IsMIP := IsMIP m; X := X m; RC := RC m; Slack := Slack m; Pi := Pi m |}.
End Flags.

Module GUROBI_cycle.
Section Cycle.
Context {F : Type} `{PyNum F}.
Variable gurobipy : Gurobipy F.

(** What [Model.optimize] leaves in the attributes of the model. *)
Record Answer : Type := {
  ans_Status : Z;
  ans_IsMIP : Z;
  ans_X : nat -> F;
  ans_RC : nat -> F;
  ans_Slack : nat -> F;
  ans_Pi : nat -> F
}.

(** The engine: the answer [optimize] gives on a native model.  The
    callback goes to the engine and the wall-clock [solveTime] is not
    part of the problem; neither is modelled. *)
Variable optimize : GModel F -> Answer.

Definition answered (a : Answer) (m : GModel F) : GModel F :=
  {| m_name := m_name m; ModelSense := ModelSense m; m_params := m_params m;
     gvars := gvars m; gconstrs := gconstrs m; Status := ans_Status a;
     IsMIP := ans_IsMIP a; X := ans_X a; RC := ans_RC a;
     Slack := ans_Slack a; Pi := ans_Pi a |}.

(** [lp.solverModel.optimize(callback = callback)] *)
Definition callSolver (lp : LpProblem F) : GUROBI.Outcome F unit :=
  match solverModel lp with
  | None => {| GUROBI.returned := Raise AttributeError;
               GUROBI.problem := lp; GUROBI.printed := [] |}
  | Some m => {| GUROBI.returned := Ok tt;
                 GUROBI.problem := set_solverModel (answered (optimize m) m) lp;
                 GUROBI.printed := [] |}
  end.

(** One statement after another: an exception ends the method. *)
Definition andThen {A B : Type} (o : GUROBI.Outcome F A)
    (k : A -> LpProblem F -> GUROBI.Outcome F B) : GUROBI.Outcome F B :=
  match GUROBI.returned o with
  | Raise e => {| GUROBI.returned := Raise e;
                  GUROBI.problem := GUROBI.problem o;
                  GUROBI.printed := GUROBI.printed o |}
  | Ok a =>
      let o' := k a (GUROBI.problem o) in
      {| GUROBI.returned := GUROBI.returned o';
         GUROBI.problem := GUROBI.problem o';
         GUROBI.printed := (GUROBI.printed o ++ GUROBI.printed o')%list |}
  end.

(** The end of [actualSolve] and of [actualResolve]. *)
Definition solve_and_extract (s : GUROBI.self F) (lp : LpProblem F)
  : GUROBI.Outcome F LpStatus :=
  andThen (callSolver lp) (fun _ lp1 =>
  andThen (GUROBI.findSolutionValues gurobipy s lp1) (fun solutionStatus lp2 =>
  {| GUROBI.returned := Ok solutionStatus;
     GUROBI.problem := clear_modified lp2;
     GUROBI.printed := [] |})).

Definition actualSolve (s : GUROBI.self F) (lp : LpProblem F)
  : GUROBI.Outcome F LpStatus :=
  andThen (GUROBI.buildSolverModel gurobipy s lp) (fun _ lp1 =>
  solve_and_extract s lp1).

(** The row of the native model a handle stands for is the one at its
    index: the handles are those [buildSolverModel] attached. *)
Definition push_row (g : GConstr F) (rhs : F) (m : GModel F) : GModel F :=
  set_gconstrs (alter (setAttr_RHS rhs) (gc_index g) (gconstrs m)) m.

(** [for constraint in lp.constraints.values():
       if constraint.modified:
         constraint.solverConstraint.setAttr(GRB.Attr.RHS, -constraint.constant)] *)
Fixpoint push_modified (cs : list (string * LpConstraint F))
    (m : option (GModel F))
  : result unit * list (string * LpConstraint F) * option (GModel F) :=
  match cs with
  | [] => (Ok tt, [], m)
  | (nm, constraint) :: rest =>
      if cmodified constraint
      then match solverConstraint constraint with
           | None => (Raise AttributeError, cs, m)
           | Some g =>
               let rhs := num_neg (constant constraint) in
               let '(r, rest', m') :=
                 push_modified rest (push_row g rhs <$> m) in
               (r, (nm, set_solverConstraint constraint (setAttr_RHS rhs g))
                     :: rest', m')
           end
      else
        let '(r, rest', m') := push_modified rest m in
        (r, (nm, constraint) :: rest', m')
  end.

Definition set_solverModel_opt (m : option (GModel F)) (lp : LpProblem F)
  : LpProblem F :=
  match m with
  | Some m' => set_solverModel m' lp
  | None => lp
  end.

Definition actualResolve (s : GUROBI.self F) (lp : LpProblem F)
  : GUROBI.Outcome F LpStatus :=
  let '(r, cs, m) := push_modified (constraints lp) (solverModel lp) in
  let lp1 := set_solverModel_opt m (set_constraints cs lp) in
  match r with
  | Raise e => {| GUROBI.returned := Raise e; GUROBI.problem := lp1;
                  GUROBI.printed := [] |}
  | Ok _ =>
      match solverModel lp1 with
      | None => {| GUROBI.returned := Raise AttributeError;
                   GUROBI.problem := lp1; GUROBI.printed := [] |}
      | Some _ => solve_and_extract s lp1
      end
  end.
End Cycle.
Arguments Answer F : clear implicits.
End GUROBI_cycle.

(** ** More vocabulary *)

Section Vocabulary2.
Context {F : Type} `{PyNum F}.

(** [GUROBI_CMD.available]: [self.executable(self.path)]. *)
Definition available (sys : GUROBI_CMD.System F) (s : GUROBI_CMD.self F) : bool :=
  GUROBI_CMD.executable sys (GUROBI_CMD.path s).

(** The argument vector of the documented invocation
    [<exe> [param=value]... ResultFile=<path> [InputFile=<path>] <problem>]. *)
Definition command_line (s : GUROBI_CMD.self F) (tmpLp tmpSol tmpMst : string)
  : list string :=
  ([GUROBI_CMD.path s]
   ++ map GUROBI_CMD.option_text (GUROBI_CMD.options s ++ GUROBI_CMD.getOptions s)
   ++ ["ResultFile=" +:+ tmpSol]
   ++ (if GUROBI_CMD.warmStart s then ["InputFile=" +:+ tmpMst] else [])
   ++ [tmpLp])%list.

Definition no_space (t : string) : bool :=
  str_all (fun c => negb (isspace c)) t.

(** The native relation of a sense, when it has one. *)
Definition relation_of (sn : LpConstraintSense) : option GRB_relation :=
  match sn with
  | LpConstraintLE => Some LESS_EQUAL
  | LpConstraintGE => Some GREATER_EQUAL
  | LpConstraintEQ => Some EQUAL
  | LpConstraintOther _ => None
  end.

(** Every variable a constraint mentions is a variable of the problem. *)
Definition known_variables (lp : LpProblem F) : Prop :=
  Forall (fun kc : string * LpConstraint F =>
            Forall (fun nc : string * F => fst nc ∈ map name (variables lp))
                   (coefficients (snd kc)))
         (constraints lp).

(** The handle of the constraint at each position is the row of the
    native model at that position. *)
Definition rows_attached (lp : LpProblem F) (m : GModel F) : Prop :=
  length (gconstrs m) = length (constraints lp)
  /\ forall i kc, constraints lp !! i = Some kc ->
       exists g, solverConstraint (snd kc) = Some g /\ gc_index g = i
                 /\ gconstrs m !! i = Some g.

Definition rhs_of (kc : string * LpConstraint F) : option F :=
  gc_rhs <$> solverConstraint (snd kc).

(** The rows a warm-start file is to hold: for each variable that has
    a value, in order, its name and its printed value. *)
Fixpoint written_rows (vs : list (string * option F)) : list (list string) :=
  match vs with
  | [] => []
  | (n, Some x) :: rest => [n; format_num x] :: written_rows rest
  | (_, None) :: rest => written_rows rest
  end.

(** The name and the printed value of every variable that has a value
    are tokens: [str.split] leaves them whole. *)
Definition printable (vs : list (string * option F)) : Prop :=
  Forall (fun nv => forall x, snd nv = Some x ->
                      is_token (fst nv) = true
                      /\ is_token (format_num x) = true) vs.
End Vocabulary2.

(** ** The vocabulary of the command-line run *)

Section Vocabulary3.
Context {F : Type} `{PyNum F}.

(** The events of [actualSolve] before the executable is called. *)
Definition prelude (s : GUROBI_CMD.self F) (lp : LpProblem F)
    (tmpLp tmpSol tmpMst : string) : list (GUROBI_CMD.Event F) :=
  ([GUROBI_CMD.WriteLP tmpLp; GUROBI_CMD.Remove tmpSol]
   ++ (if GUROBI_CMD.warmStart s then [GUROBI_CMD.WriteSol tmpMst] else [])
   ++ (if isMIP lp && negb (GUROBI_CMD.mip s)
       then [GUROBI_CMD.Warn "GUROBI_CMD does not allow a problem to be relaxed"]
       else [])
   ++ (if GUROBI_CMD.msg s then [] else [GUROBI_CMD.OpenDevnull]))%list.

(** The events of [actualSolve] from [delete_tmp_files] on. *)
Definition epilogue (tmpLp tmpSol tmpMst : string) (st : LpStatus)
    (values rc sp sl : option (gmap string F)) : list (GUROBI_CMD.Event F) :=
  [ GUROBI_CMD.DeleteTmpFiles [tmpLp; tmpMst; tmpSol; "gurobi.log"];
    GUROBI_CMD.AssignVarsVals values; GUROBI_CMD.AssignVarsDj rc;
    GUROBI_CMD.AssignConsPi sp; GUROBI_CMD.AssignConsSlack sl;
    GUROBI_CMD.AssignStatus st ].

Definition cannot_execute (s : GUROBI_CMD.self F) : PyError :=
  PulpSolverError ("PuLP: cannot execute " +:+ GUROBI_CMD.path s).

Definition execution_failed (s : GUROBI_CMD.self F) : PyError :=
  PulpSolverError ("PuLP: Error while trying to execute " +:+ GUROBI_CMD.path s).
End Vocabulary3.

Section Vocabulary4.
Context {F : Type}.

Definition is_pipe_open (e : GUROBI_CMD.Event F) : bool :=
  match e with GUROBI_CMD.OpenDevnull => true | _ => false end.

Definition is_pipe_close (e : GUROBI_CMD.Event F) : bool :=
  match e with GUROBI_CMD.ClosePipe => true | _ => false end.

(** The last [n] events of a trace, and the ones before them. *)
Definition last_events (n : nat) (tr : list (GUROBI_CMD.Event F))
  : list (GUROBI_CMD.Event F) := drop (length tr - n) tr.

Definition events_before_last (n : nat) (tr : list (GUROBI_CMD.Event F))
  : list (GUROBI_CMD.Event F) := take (length tr - n) tr.
End Vocabulary4.

(** The paths of [GUROBI_CMD.actualSolve] from a fresh world, written
    out: what the run leaves at each point where it may end. *)
Section Paths.
Context {F : Type} `{PyNum F}.
Variable sys : GUROBI_CMD.System F.

(** The command string, lines 259 to 271. *)
Definition command_text (s : GUROBI_CMD.self F) (tmpLp tmpSol tmpMst : string)
  : string :=
  let cmd1 :=
    (GUROBI_CMD.path s +:+ " "
       +:+ str_join " " (map GUROBI_CMD.option_text
                           (GUROBI_CMD.options s ++ GUROBI_CMD.getOptions s)))
    +:+ " ResultFile=" +:+ tmpSol in
  (if GUROBI_CMD.warmStart s then cmd1 +:+ " InputFile=" +:+ tmpMst else cmd1)
  +:+ " " +:+ tmpLp.

(** The files on disk when the executable is called. *)
Definition files_at_call (s : GUROBI_CMD.self F) (lp : LpProblem F)
    (fs : gmap string string) (tmpLp tmpSol tmpMst : string)
  : gmap string string :=
  let fs1 := delete tmpSol (<[tmpLp := GUROBI_CMD.lp_text sys lp]> fs) in
  if GUROBI_CMD.warmStart s
  then <[tmpMst := writesol_text (map (fun v => (name v, varValue v))
                                      (variables lp))]> fs1
  else fs1.

(** The world when the call of the executable is over and the handle
    on the null device closed. *)
Definition world_after_call (s : GUROBI_CMD.self F) (lp : LpProblem F)
    (tmpLp tmpSol tmpMst : string) (argv : list string) (code : Z)
    (fs' : gmap string string) : GUROBI_CMD.World F :=
  {| GUROBI_CMD.files := fs'; GUROBI_CMD.open_pipes := 0;
     GUROBI_CMD.trace :=
       (prelude s lp tmpLp tmpSol tmpMst
        ++ GUROBI_CMD.SubprocessCall argv (negb (GUROBI_CMD.msg s)) code
           :: (if GUROBI_CMD.msg s then [] else [GUROBI_CMD.ClosePipe]))%list |}.

Definition logged (e : GUROBI_CMD.Event F) (w : GUROBI_CMD.World F)
  : GUROBI_CMD.World F :=
  {| GUROBI_CMD.files := GUROBI_CMD.files w;
     GUROBI_CMD.open_pipes := GUROBI_CMD.open_pipes w;
     GUROBI_CMD.trace := (GUROBI_CMD.trace w ++ [e])%list |}.

(** Assign* calls one after another, up to the first that raises. *)
Fixpoint assign_calls (lp : LpProblem F) (calls : list (GUROBI_CMD.Event F))
    (w : GUROBI_CMD.World F) : result unit * GUROBI_CMD.World F :=
  match calls with
  | [] => (Ok tt, w)
  | e :: rest =>
      match GUROBI_CMD.assign_raises sys lp e with
      | Some f => (Raise (GUROBI_CMD.raised f), logged e w)
      | None => assign_calls lp rest (logged e w)
      end
  end.

(** The assign* calls of lines 293 to 298 for a status. *)
Definition calls_for (st : LpStatus) (values rc sp sl : option (gmap string F))
  : list (GUROBI_CMD.Event F) :=
  ((if bool_decide (st <> LpStatusInfeasible)
    then [ GUROBI_CMD.AssignVarsVals values; GUROBI_CMD.AssignVarsDj rc;
           GUROBI_CMD.AssignConsPi sp; GUROBI_CMD.AssignConsSlack sl ]
    else [])
   ++ [GUROBI_CMD.AssignStatus st])%list.

(** Lines 292 to 299, from the world [w]. *)
Definition finished (lp : LpProblem F) (tmpLp tmpSol tmpMst : string)
    (st : LpStatus) (values rc sp sl : option (gmap string F))
    (w : GUROBI_CMD.World F) : result LpStatus * GUROBI_CMD.World F :=
  let names := [tmpLp; tmpMst; tmpSol; "gurobi.log"] in
  let w0 :=
    {| GUROBI_CMD.files :=
         fold_left (fun fs f => delete f fs) names (GUROBI_CMD.files w);
       GUROBI_CMD.open_pipes := GUROBI_CMD.open_pipes w;
       GUROBI_CMD.trace :=
         (GUROBI_CMD.trace w ++ [GUROBI_CMD.DeleteTmpFiles names])%list |} in
  match assign_calls lp (calls_for st values rc sp sl) w0 with
  | (Ok _, w') => (Ok st, w')
  | (Raise e, w') => (Raise e, w')
  end.

Definition solve_paths (s : GUROBI_CMD.self F) (lp : LpProblem F)
    (fs : gmap string string) : result LpStatus * GUROBI_CMD.World F :=
  if GUROBI_CMD.executable sys (GUROBI_CMD.path s)
  then
    let '(tmpLp, tmpSol, tmpMst) :=
      GUROBI_CMD.create_tmp_files sys (lp_name lp) in
    let argv := str_split (command_text s tmpLp tmpSol tmpMst) in
    let '(code, fs') :=
      GUROBI_CMD.run sys argv (files_at_call s lp fs tmpLp tmpSol tmpMst) in
    let w1 := world_after_call s lp tmpLp tmpSol tmpMst argv code fs' in
    if (code =? 0)%Z
    then
      match fs' !! tmpSol with
      | None =>
          finished lp tmpLp tmpSol tmpMst LpStatusNotSolved
            None None None None w1
      | Some text =>
          match readsol text with
          | Ok (st, values, rc, sp, sl) =>
              finished lp tmpLp tmpSol tmpMst st
                (Some values) (Some rc) (Some sp) (Some sl)
                (logged (GUROBI_CMD.ReadSol tmpSol) w1)
          | Raise e => (Raise e, logged (GUROBI_CMD.ReadSol tmpSol) w1)
          end
      end
    else (Raise (execution_failed s), w1)
  else (Raise (cannot_execute s), GUROBI_CMD.initial fs).
End Paths.
Arguments finished : simpl never.

Section Vocabulary5.
Context {F : Type}.

(** A variable that carries a native variable of its own name. *)
Definition attached_var (v : LpVariable F) : Prop :=
  exists g, solverVar v = Some g /\ gv_name g = name v.

(** Two constraints that differ at most in the native constraint they
    carry. *)
Definition same_but_solverConstraint (c c' : LpConstraint F) : Prop :=
  coefficients c' = coefficients c /\ sense c' = sense c
  /\ constant c' = constant c /\ slack c' = slack c /\ pi c' = pi c
  /\ cmodified c' = cmodified c.

(** Every constraint has one of the three senses. *)
Definition senses_known (cs : list (string * LpConstraint F)) : bool :=
  forallb (fun kc : string * LpConstraint F =>
             bool_decide (is_Some (relation_of (sense (snd kc))))) cs.
End Vocabulary5.

Section Vocabulary6.
Context {F : Type}.

(** All the flags of a finished solve. *)
Definition flags_cleared (lp : LpProblem F) : Prop :=
  Forall (fun v => modified v = false /\ isModified v = false) (variables lp)
  /\ Forall (fun kc : string * LpConstraint F => cmodified (snd kc) = false)
            (constraints lp)
  /\ resolveOK lp = true.
End Vocabulary6.

Section Vocabulary7.
Context {F : Type} `{PyNum F}.

(** The row a constraint stands for after the loop of [actualResolve]:
    its right-hand side is minus the constant when the constraint was
    modified; the rest of the row is as it was. *)
Definition resolved_row (kc : string * LpConstraint F) (g : GConstr F)
  : GConstr F :=
  {| gc_index := gc_index g; gc_expr := gc_expr g;
     gc_relation := gc_relation g;
     gc_rhs := if cmodified (snd kc) then num_neg (constant (snd kc))
               else gc_rhs g;
     gc_name := gc_name g |}.

(** The native model [actualResolve] has the engine solve: the model
    [m] of the problem with, row by row, the right-hand sides of the
    modified constraints; name, sense, parameters, columns and the
    attributes of the last answer are those of [m]. *)
Definition resolved_model (lp : LpProblem F) (m : GModel F) : GModel F :=
  {| m_name := m_name m; ModelSense := ModelSense m; m_params := m_params m;
     gvars := gvars m;
     gconstrs := zip_with resolved_row (constraints lp) (gconstrs m);
     Status := Status m; IsMIP := IsMIP m; X := X m; RC := RC m;
     Slack := Slack m; Pi := Pi m |}.
End Vocabulary7.

(** ** More concrete instances *)

Module Scenarios.
Import Examples.

(** An engine that answers every model alike. *)
Definition engine (code mipflag : Z) (_ : GModel Z) : GUROBI_cycle.Answer Z :=
  {| GUROBI_cycle.ans_Status := code; GUROBI_cycle.ans_IsMIP := mipflag;
     GUROBI_cycle.ans_X := fun i => Z.of_nat i + 1;
     GUROBI_cycle.ans_RC := fun _ => 7;
     GUROBI_cycle.ans_Slack := fun _ => 5;
     GUROBI_cycle.ans_Pi := fun _ => 9 |}.

(** [lp0] with a second constraint of no known sense. *)
Definition lp_bad : LpProblem Z :=
  set_constraints
    (constraints lp0 ++ [("c2", constr [("y", 2)] (LpConstraintOther 7) 1)]) lp0.

(** [lp0] built, then the constant of [c1] changed to [-6] and flagged. *)
Definition lp0_changed : LpProblem Z :=
  set_constraints
    (map (fun kc => (fst kc,
            set_cmodified true
              {| coefficients := coefficients (snd kc); sense := sense (snd kc);
                 constant := -6; slack := slack (snd kc); pi := pi (snd kc);
                 cmodified := cmodified (snd kc);
                 solverConstraint := solverConstraint (snd kc) |}))
         (constraints lp0_built))
    lp0_built.

(** A command-line solver with options and a warm start. *)
Definition gurobi_cl_warm : GUROBI_CMD.self Z :=
  {| GUROBI_CMD.path := "gurobi_cl";
     GUROBI_CMD.options := [("Presolve", PyNumber 2)];
     GUROBI_CMD.optionsDict :=
       {[ "threads" := PyNumber 4; "logPath" := PyString "g.log";
          "keepFiles" := PyNumber 1 ]};
     GUROBI_CMD.warmStart := true; GUROBI_CMD.mip := true;
     GUROBI_CMD.msg := false |}.

Definition argv_warm : list string :=
  ["gurobi_cl"; "Presolve=2"; "LogFile=g.log"; "Threads=4";
   "ResultFile=demo-pulp.sol"; "InputFile=demo-pulp.mst"; "demo-pulp.lp"].

(** A machine without the executable. *)
Definition no_machine : GUROBI_CMD.System Z :=
  {| GUROBI_CMD.executable := fun _ => false;
     GUROBI_CMD.create_tmp_files := GUROBI_CMD.create_tmp_files (machine 0 None);
     GUROBI_CMD.lp_text := GUROBI_CMD.lp_text (machine 0 None);
     GUROBI_CMD.run := GUROBI_CMD.run (machine 0 None);
     GUROBI_CMD.assign_raises := modelling_layer |}.

(** [lp0] solved on the relaxation, then given a variable the native
    model has no column for. *)
Definition lp0_grown : LpProblem Z :=
  set_variables (variables lp0_relaxed ++ [var "z" None None LpContinuous])
    lp0_relaxed.

(** A solution file naming [x] twice. *)
Definition twice_text : string :=
  "# Objective value = 11" +:+ newline +:+ "x 3" +:+ newline
  +:+ "y 1" +:+ newline +:+ "x 4" +:+ newline.
End Scenarios.

(** ** Strings *)

Lemma app_empty_l (s : string) : "" +:+ s = s.
Proof. reflexivity. Qed.

Lemma app_cons (c : ascii) (s t : string) : String c s +:+ t = String c (s +:+ t).
Proof. reflexivity. Qed.

Lemma app_empty_r (s : string) : s +:+ "" = s.
Proof.
  induction s as [|c s IH]; [reflexivity | now rewrite app_cons, IH].
Qed.

Lemma app_assoc (s t u : string) : (s +:+ t) +:+ u = s +:+ (t +:+ u).
Proof.
  induction s as [|c s IH]; [reflexivity | now rewrite !app_cons, IH].
Qed.

Lemma snoc_app (s : string) (c : ascii) (t : string) :
  snoc s c +:+ t = s +:+ String c t.
Proof. unfold snoc. now rewrite app_assoc. Qed.

Lemma snoc_not_empty (s : string) (c : ascii) : is_empty (snoc s c) = false.
Proof. destruct s; reflexivity. Qed.

Lemma is_empty_true (s : string) : is_empty s = true <-> s = "".
Proof. destruct s; simpl; split; congruence. Qed.

Lemma newline_isspace (c : ascii) : is_newline c = true -> isspace c = true.
Proof.
  unfold is_newline, isspace. intros E%Nat.eqb_eq. now rewrite E.
Qed.

(** A run of non-whitespace goes to the token being read. *)
Lemma split_from_token (t tok rest : string) :
  str_all (fun c => negb (isspace c)) t = true ->
  split_from tok (t +:+ rest) = split_from (tok +:+ t) rest.
Proof.
  revert tok. induction t as [|c t IH]; intros tok Ht; simpl in Ht.
  - now rewrite app_empty_l, app_empty_r.
  - apply andb_true_iff in Ht as [Hc Ht].
    apply negb_true_iff in Hc. rewrite app_cons. simpl.
    rewrite Hc, IH by assumption. now rewrite snoc_app.
Qed.

(** A run without newline goes to the line being read. *)
Lemma lines_from_run (t cur rest : string) :
  str_all (fun c => negb (is_newline c)) t = true ->
  lines_from cur (t +:+ rest) = lines_from (cur +:+ t) rest.
Proof.
  revert cur. induction t as [|c t IH]; intros cur Ht; simpl in Ht.
  - now rewrite app_empty_l, app_empty_r.
  - apply andb_true_iff in Ht as [Hc Ht].
    apply negb_true_iff in Hc. rewrite app_cons. simpl.
    rewrite Hc, IH by assumption. now rewrite snoc_app.
Qed.

Lemma lines_from_not_empty (cur s : string) :
  Forall (fun line => line <> "") (lines_from cur s).
Proof.
  revert cur. induction s as [|c s IH]; intros cur; simpl.
  - destruct (is_empty cur) eqn:E; constructor; [|constructor].
    intros ->. discriminate.
  - destruct (is_newline c).
    + constructor; [|apply IH].
      intros E. pose proof (snoc_not_empty cur c) as N. now rewrite E in N.
    + apply IH.
Qed.

Lemma file_lines_not_empty (text : string) :
  Forall (fun line => line <> "") (file_lines text).
Proof. apply lines_from_not_empty. Qed.

Lemma lines_from_nil (cur s : string) :
  lines_from cur s = [] <-> cur = "" /\ s = "".
Proof.
  split.
  - destruct s as [|c s]; simpl.
    + destruct cur; simpl; [tauto | discriminate].
    + destruct (is_newline c); [discriminate|].
      intros E. exfalso. revert E. generalize (snoc cur c) (snoc_not_empty cur c).
      induction s as [|d s IH]; intros cur' N; simpl.
      * now rewrite N.
      * destruct (is_newline d); [discriminate|].
        apply IH, snoc_not_empty.
  - intros [-> ->]. reflexivity.
Qed.

Lemma file_lines_nil (text : string) : file_lines text = [] <-> text = "".
Proof. unfold file_lines. rewrite lines_from_nil. tauto. Qed.

(** ** Dictionaries built by successive assignment *)

Section Dicts.
Context {K : Type} `{Countable K} {V : Type}.

Lemma fold_insert_lookup (ps : list (K * V)) (acc : gmap K V) (n : K) (v : V) :
  NoDup (map fst ps) ->
  fold_left (fun d nv => <[fst nv := snd nv]> d) ps acc !! n = Some v
  <-> ((n, v) ∈ ps) \/ ((n ∉ map fst ps) /\ acc !! n = Some v).
Proof.
  revert acc. induction ps as [|[m x] ps IH]; intros acc Hnd.
  - simpl. split; [intros E; right; split; [apply not_elem_of_nil | exact E]|].
    intros [Hin%elem_of_nil | [_ E]]; [contradiction | exact E].
  - change (map fst ((m, x) :: ps)) with (m :: map fst ps) in *.
    apply NoDup_cons in Hnd as [Hm Hnd].
    change (fold_left (fun d nv => <[fst nv := snd nv]> d) ((m, x) :: ps) acc)
      with (fold_left (fun d nv => <[fst nv := snd nv]> d) ps (<[m := x]> acc)).
    rewrite IH by assumption.
    rewrite elem_of_cons, not_elem_of_cons. split.
    + intros [Hin | [Hnot Hl]]; [left; right; exact Hin|].
      destruct (decide (m = n)) as [->|Hne].
      * rewrite lookup_insert_eq in Hl. injection Hl as ->. left. now left.
      * rewrite lookup_insert_ne in Hl by assumption.
        right. repeat split; [congruence | assumption | assumption].
    + intros [[E | Hin] | [[Hne Hnot] Hl]].
      * injection E as -> ->. right. split; [assumption | apply lookup_insert_eq].
      * left. exact Hin.
      * right. split; [assumption|].
        rewrite lookup_insert_ne by congruence. assumption.
Qed.

Lemma fold_insert_lookup_None (ps : list (K * V)) (acc : gmap K V) (n : K) :
  n ∉ map fst ps ->
  fold_left (fun d nv => <[fst nv := snd nv]> d) ps acc !! n = acc !! n.
Proof.
  revert acc. induction ps as [|[m x] ps IH]; intros acc Hn; [reflexivity|].
  change (map fst ((m, x) :: ps)) with (m :: map fst ps) in Hn.
  apply not_elem_of_cons in Hn as [Hne Hn].
  simpl. rewrite IH by assumption. apply lookup_insert_ne. congruence.
Qed.
End Dicts.

(** ** The solution file parser *)

Section ReadsolFacts.
Context {F : Type} `{PyNum F}.

Lemma is_entry_entry_of (line : string) :
  is_entry line <-> is_Some (entry_of line).
Proof.
  unfold is_entry, entry_of. split.
  - intros (n & v & x & -> & ->). eauto.
  - destruct (str_split line) as [|n [|v [|? ?]]];
      [intros [? ?]; discriminate .. | | intros [? ?]; discriminate].
    destruct (float v) as [num|] eqn:E; [|intros [? ?]; discriminate].
    intros _. now exists n, v, num.
Qed.

(** One turn of the loop, on a line as the file yields it. *)
Lemma readsol_line_unfold (values : gmap string F) (line : string) :
  line <> "" ->
  readsol_line values line =
    if is_comment line then Ok values
    else match entry_of line with
         | Some nv => Ok (<[fst nv := snd nv]> values)
         | None => Raise ValueError
         end.
Proof.
  destruct line as [|c line]; [congruence|]. intros _.
  unfold readsol_line, is_comment, entry_of.
  destruct (Ascii.eqb c "#"); simpl; [reflexivity|].
  destruct (str_split (String c line)) as [|n [|v [|? ?]]]; try reflexivity.
  now destruct (float v).
Qed.

Lemma readsol_loop_ok (lines : list string) (values : gmap string F) :
  Forall (fun line => line <> "") lines ->
  Forall line_ok lines ->
  readsol_loop values lines =
    Ok (fold_left (fun d nv => <[fst nv := snd nv]> d)
          (omap entry_of (List.filter (fun l => negb (is_comment l)) lines))
          values).
Proof.
  intros Hne. revert values.
  induction Hne as [|line lines Hl _ IH]; intros values Hok; [reflexivity|].
  apply Forall_cons in Hok as [Hline Hok]. simpl.
  rewrite readsol_line_unfold by assumption.
  destruct (is_comment line) eqn:E; simpl; [now apply IH|].
  destruct (proj1 (is_entry_entry_of line) (Hline E)) as [nv Hnv].
  rewrite Hnv. simpl. now apply IH.
Qed.

Lemma readsol_loop_inv (lines : list string) (values values' : gmap string F) :
  Forall (fun line => line <> "") lines ->
  readsol_loop values lines = Ok values' ->
  Forall line_ok lines.
Proof.
  intros Hne. revert values.
  induction Hne as [|line lines Hl _ IH]; intros values Hrun; [constructor|].
  simpl in Hrun. rewrite readsol_line_unfold in Hrun by assumption.
  destruct (is_comment line) eqn:E.
  - constructor; [unfold line_ok; congruence | eauto].
  - destruct (entry_of line) as [nv|] eqn:Hnv; [|discriminate].
    constructor; [|eauto].
    intros _. apply is_entry_entry_of. rewrite Hnv. eauto.
Qed.

(** The only exception of the loop is [ValueError]. *)
Lemma readsol_loop_raise (lines : list string) (values : gmap string F)
    (e : PyError) :
  Forall (fun line => line <> "") lines ->
  readsol_loop values lines = Raise e -> e = ValueError.
Proof.
  intros Hne. revert values.
  induction Hne as [|line lines Hl _ IH]; intros values Hrun; [discriminate|].
  simpl in Hrun. rewrite readsol_line_unfold in Hrun by assumption.
  destruct (is_comment line); [eauto|].
  destruct (entry_of line); [eauto | congruence].
Qed.

Lemma tail_not_empty (text : string) :
  Forall (fun line => line <> "") (tail (file_lines text)).
Proof.
  pose proof (file_lines_not_empty text) as N.
  destruct (file_lines text); [constructor | now apply Forall_cons in N as [_ N]].
Qed.

Lemma readsol_well_formed (text : string) :
  text <> "" -> well_formed text ->
  readsol text = Ok (LpStatusOptimal, dict_of_pairs (entries text), ∅, ∅, ∅).
Proof.
  intros Hne Hwf. unfold readsol, well_formed, entries, dict_of_pairs in *.
  pose proof (tail_not_empty text) as N.
  destruct (file_lines text) as [|first rest] eqn:E.
  - now apply file_lines_nil in E.
  - simpl in *. now rewrite readsol_loop_ok.
Qed.

Lemma readsol_ok_well_formed (text : string) r :
  readsol text = Ok r -> well_formed text.
Proof.
  unfold readsol, well_formed. pose proof (tail_not_empty text) as N.
  destruct (file_lines text) as [|first rest]; [constructor|]. simpl in *.
  destruct (readsol_loop ∅ rest) eqn:E; [|discriminate].
  intros _. eapply readsol_loop_inv; eauto.
Qed.

Lemma readsol_raise (text : string) (e : PyError) :
  readsol text = Raise e -> e = ValueError.
Proof.
  unfold readsol. pose proof (tail_not_empty text) as N.
  destruct (file_lines text) as [|first rest]; [discriminate|]. simpl in *.
  destruct (readsol_loop ∅ rest) eqn:E; [discriminate|].
  intros [= <-]. eapply readsol_loop_raise; eauto.
Qed.

(** Whatever the file, the three other mappings come back empty. *)
Lemma readsol_other_mappings (text : string) st values rc sp sl :
  readsol text = Ok (st, values, rc, sp, sl) ->
  rc = ∅ /\ sp = ∅ /\ sl = ∅.
Proof.
  unfold readsol. destruct (file_lines text) as [|first rest].
  - intros [= <- <- <- <- <-]. auto.
  - simpl. destruct (readsol_loop ∅ rest); [|discriminate].
    intros [= <- <- <- <- <-]. auto.
Qed.

Lemma well_formedb_spec (text : string) :
  well_formedb text = true <-> well_formed text.
Proof.
  unfold well_formedb, well_formed.
  induction (tail (file_lines text)) as [|line lines IH]; simpl.
  - split; [constructor | reflexivity].
  - rewrite andb_true_iff, IH, Forall_cons. apply and_iff_compat_r.
    unfold line_ok. rewrite is_entry_entry_of.
    destruct (is_comment line); simpl.
    + split; [discriminate | reflexivity].
    + rewrite bool_decide_eq_true. tauto.
Qed.

(** C10: [readsol] returns normally exactly on the texts in which
    every line after the first either begins with ['#'] or splits
    into exactly two tokens, the second of which [float] accepts; on
    any other text, which is then non-empty, [ValueError] escapes. *)
Theorem readsol_returns_iff_well_formed (text : string) :
  ((exists r, readsol text = Ok r) <-> well_formed text)
  /\ (~ well_formed text -> text <> "" /\ readsol text = Raise ValueError).
Proof.
  split; [split|].
  - intros [r Hr]. eapply readsol_ok_well_formed; eauto.
  - intros Hwf. destruct (decide (text = "")) as [->|Hne].
    + eexists. reflexivity.
    + eexists. now apply readsol_well_formed.
  - intros Hnwf. split.
    + intros ->. apply Hnwf. constructor.
    + destruct (readsol text) as [r|e] eqn:E.
      * exfalso. eapply Hnwf, readsol_ok_well_formed; eauto.
      * f_equal. eapply readsol_raise; eauto.
Qed.

(** C5, amended: the empty file gives [NotSolved] and four empty
    mappings; a non-empty file in which every line after the first is
    a comment or a two-token entry with a number gives [Optimal], the
    values of its entries (first token to second token read by
    [float]), and three empty mappings. *)
Theorem readsol_empty_or_entries (text : string) :
  (text = "" -> readsol text = Ok (LpStatusNotSolved, ∅, ∅, ∅, ∅))
  /\ (text <> "" -> well_formed text ->
      readsol text = Ok (LpStatusOptimal, dict_of_pairs (entries text), ∅, ∅, ∅)).
Proof.
  split; [intros ->; reflexivity | apply readsol_well_formed].
Qed.
End ReadsolFacts.

(** ** Writing a file and reading it back *)

Section RoundTrip.
Context {F : Type} `{PyNum F}.

Lemma str_all_app (p : ascii -> bool) (s t : string) :
  str_all p (s +:+ t) = str_all p s && str_all p t.
Proof.
  induction s as [|c s IH]; [reflexivity|].
  rewrite app_cons. simpl. now rewrite IH, andb_assoc.
Qed.

Lemma str_all_impl (p q : ascii -> bool) (s : string) :
  (forall c, p c = true -> q c = true) ->
  str_all p s = true -> str_all q s = true.
Proof.
  intros Hpq. induction s as [|c s IH]; simpl; [reflexivity|].
  intros [Hc Hs]%andb_true_iff. apply andb_true_iff. auto.
Qed.

Lemma token_no_newline (s : string) :
  is_token s = true -> str_all (fun c => negb (is_newline c)) s = true.
Proof.
  intros [_ Hs]%andb_true_iff. revert Hs. apply str_all_impl.
  intros c Hc. destruct (is_newline c) eqn:E; [|reflexivity].
  apply newline_isspace in E. now rewrite E in Hc.
Qed.

Lemma token_not_empty (s : string) : is_token s = true -> is_empty s = false.
Proof. now intros [Hs%negb_true_iff _]%andb_true_iff. Qed.

Lemma token_no_space (s : string) :
  is_token s = true -> str_all (fun c => negb (isspace c)) s = true.
Proof. now intros [_ Hs]%andb_true_iff. Qed.

Lemma defined_values_all_defined (ps : list (string * F)) :
  defined_values (all_defined ps) = ps.
Proof.
  induction ps as [|[n x] ps IH]; [reflexivity|].
  unfold defined_values, all_defined in *. simpl. f_equal. exact IH.
Qed.

(** A written row, alone or closed by a newline, is one entry. *)
Lemma split_row (nv : string * F) (closing : string) :
  portable nv -> closing = "" \/ closing = newline ->
  str_split (sol_row nv +:+ closing) = [fst nv; format_num (snd nv)].
Proof.
  intros (Hn & _ & Hv & _) Hclosing. unfold str_split, sol_row.
  rewrite !app_assoc, split_from_token by now apply token_no_space.
  rewrite app_empty_l, app_cons. simpl.
  rewrite (token_not_empty _ Hn), app_empty_l.
  rewrite split_from_token, app_empty_l by now apply token_no_space.
  destruct Hclosing as [-> | ->]; simpl; now rewrite (token_not_empty _ Hv).
Qed.

Lemma row_not_comment (nv : string * F) (closing : string) :
  portable nv -> is_comment (sol_row nv +:+ closing) = false.
Proof.
  intros (Hn & Hc & _). unfold sol_row.
  apply token_not_empty in Hn. destruct (fst nv); [discriminate|].
  now rewrite !app_cons.
Qed.

Lemma row_not_empty (nv : string * F) (closing : string) :
  portable nv -> sol_row nv +:+ closing <> "".
Proof.
  intros (Hn & _). unfold sol_row.
  apply token_not_empty in Hn. destruct (fst nv); [discriminate|].
  now rewrite !app_cons.
Qed.

Lemma readsol_line_row (values : gmap string F) (nv : string * F)
    (closing : string) :
  portable nv -> closing = "" \/ closing = newline ->
  readsol_line values (sol_row nv +:+ closing) = Ok (<[fst nv := snd nv]> values).
Proof.
  intros Hp Hclosing.
  rewrite readsol_line_unfold by now apply row_not_empty.
  rewrite row_not_comment by assumption.
  unfold entry_of. rewrite split_row by assumption.
  destruct Hp as (_ & _ & _ & ->). reflexivity.
Qed.

Lemma row_no_newline (nv : string * F) :
  portable nv -> str_all (fun c => negb (is_newline c)) (sol_row nv) = true.
Proof.
  intros (Hn & _ & Hv & _). unfold sol_row.
  rewrite !str_all_app, (token_no_newline _ Hn), (token_no_newline _ Hv).
  reflexivity.
Qed.

(** The lines of the written text: one per row, in order. *)
Lemma file_lines_last (nv : string * F) :
  portable nv -> file_lines (sol_row nv) = [sol_row nv].
Proof.
  intros Hp. unfold file_lines.
  rewrite <- (app_empty_r (sol_row nv)) at 1.
  rewrite lines_from_run, app_empty_l by now apply row_no_newline.
  simpl. pose proof (row_not_empty nv "" Hp) as N.
  rewrite app_empty_r in N. destruct (sol_row nv); [congruence | reflexivity].
Qed.

Lemma file_lines_more (nv : string * F) (rest : string) :
  portable nv ->
  file_lines (sol_row nv +:+ newline +:+ rest)
  = (sol_row nv +:+ newline) :: file_lines rest.
Proof.
  intros Hp. unfold file_lines.
  rewrite lines_from_run, app_empty_l by now apply row_no_newline.
  reflexivity.
Qed.

Lemma file_lines_rows (nv : string * F) (ps : list (string * F)) :
  portable nv ->
  tail (file_lines (str_join newline (map sol_row (nv :: ps))))
  = file_lines (str_join newline (map sol_row ps)).
Proof.
  intros Hp. destruct ps as [|nv' ps].
  - simpl. now rewrite file_lines_last.
  - change (str_join newline (map sol_row (nv :: nv' :: ps)))
      with (sol_row nv +:+ newline +:+ str_join newline (map sol_row (nv' :: ps))).
    now rewrite file_lines_more.
Qed.

Lemma readsol_loop_rows (ps : list (string * F)) (values : gmap string F) :
  Forall portable ps ->
  readsol_loop values (file_lines (str_join newline (map sol_row ps)))
  = Ok (fold_left (fun d nv => <[fst nv := snd nv]> d) ps values).
Proof.
  intros Hps. revert values.
  induction Hps as [|nv ps Hp Hps IH]; intros values; [reflexivity|].
  destruct ps as [|nv' ps].
  - simpl str_join. simpl map. rewrite file_lines_last by assumption.
    simpl. rewrite <- (app_empty_r (sol_row nv)).
    rewrite readsol_line_row by auto. reflexivity.
  - change (str_join newline (map sol_row (nv :: nv' :: ps)))
      with (sol_row nv +:+ newline +:+ str_join newline (map sol_row (nv' :: ps))).
    rewrite file_lines_more by assumption.
    simpl readsol_loop. rewrite readsol_line_row by auto. apply IH.
Qed.

(** C4, amended: for pairs whose names and printed values are tokens
    that [float] reads back, reading what [writesol] wrote returns
    all the pairs but the first one, whose line [readsol] skips as the
    objective line; the other three mappings are empty. *)
Theorem writesol_readsol_tail (ps : list (string * F)) :
  Forall portable ps ->
  exists st values,
    readsol (writesol_text (all_defined ps)) = Ok (st, values, ∅, ∅, ∅)
    /\ values = dict_of_pairs (tail ps)
    /\ (NoDup (map fst (tail ps)) ->
        forall n v, values !! n = Some v <-> (n, v) ∈ tail ps).
Proof.
  intros Hps. unfold writesol_text. rewrite defined_values_all_defined.
  assert (forall qs : list (string * F), NoDup (map fst qs) ->
          forall n v, dict_of_pairs qs !! n = Some v <-> (n, v) ∈ qs) as Hlook.
  { intros qs Hnd n v. unfold dict_of_pairs.
    rewrite fold_insert_lookup by assumption. rewrite lookup_empty.
    split; [intros [?|[_ [=]]]; assumption | auto]. }
  destruct ps as [|nv ps].
  - exists LpStatusNotSolved, ∅.
    split; [reflexivity|]. split; [reflexivity | exact (Hlook [])].
  - apply Forall_cons in Hps as [Hp Hps].
    exists LpStatusOptimal, (dict_of_pairs ps).
    split; [|split; [reflexivity | exact (Hlook ps)]].
    unfold readsol. pose proof (file_lines_rows nv ps Hp) as Htail.
    destruct (file_lines (str_join newline (map sol_row (nv :: ps))))
      as [|first rest] eqn:E.
    + exfalso. apply file_lines_nil in E.
      destruct ps as [|nv' ps]; simpl in E.
      * apply (row_not_empty nv "" Hp). now rewrite app_empty_r.
      * exact (row_not_empty nv _ Hp E).
    + simpl in Htail. rewrite Htail, readsol_loop_rows by assumption.
      reflexivity.
Qed.
End RoundTrip.

(** ** The in-process adapter: reading the solution *)

Section FindSolutionValues.
Context {F : Type}.
Variable gurobipy : Gurobipy F.

Lemma lookup_status_listed (code : Z) (st : LpStatus) :
  NoDup (listed_codes gurobipy) ->
  (code, st) ∈ [ (OPTIMAL gurobipy, LpStatusOptimal);
                 (INFEASIBLE gurobipy, LpStatusInfeasible);
                 (INF_OR_UNBD gurobipy, LpStatusInfeasible);
                 (UNBOUNDED gurobipy, LpStatusUnbounded);
                 (ITERATION_LIMIT gurobipy, LpStatusNotSolved);
                 (NODE_LIMIT gurobipy, LpStatusNotSolved);
                 (TIME_LIMIT gurobipy, LpStatusNotSolved);
                 (SOLUTION_LIMIT gurobipy, LpStatusNotSolved);
                 (INTERRUPTED gurobipy, LpStatusNotSolved);
                 (NUMERIC gurobipy, LpStatusNotSolved) ] ->
  GUROBI.lookup_status gurobipy code = st.
Proof.
  intros Hnd Hin. unfold GUROBI.lookup_status, GUROBI.gurobiLpStatus, dict_of.
  match goal with
  | |- default _ (fold_left _ ?items _ !! _) = _ =>
      rewrite (proj2 (fold_insert_lookup items ∅ code st Hnd)); [reflexivity|]
  end.
  left. exact Hin.
Qed.

Lemma lookup_status_other (code : Z) :
  code ∉ listed_codes gurobipy ->
  GUROBI.lookup_status gurobipy code = LpStatusUndefined.
Proof.
  intros Hout. unfold GUROBI.lookup_status, GUROBI.gurobiLpStatus, dict_of.
  rewrite fold_insert_lookup_None by exact Hout.
  now rewrite lookup_empty.
Qed.

Lemma findSolutionValues_returned (s : GUROBI.self F) (lp : LpProblem F)
    (model : GModel F) :
  solverModel lp = Some model ->
  GUROBI.returned (GUROBI.findSolutionValues gurobipy s lp)
    = Ok (GUROBI.lookup_status gurobipy (Status model))
  /\ status (GUROBI.problem (GUROBI.findSolutionValues gurobipy s lp))
    = Some (GUROBI.lookup_status gurobipy (Status model)).
Proof.
  intros Hm. unfold GUROBI.findSolutionValues. rewrite Hm.
  destruct (bool_decide _); simpl; [auto|].
  unfold GUROBI.populate. destruct (IsMIP model =? 0); auto.
Qed.

(** C1: whatever the native termination code, [findSolutionValues]
    returns and assigns a status: [Optimal] for [OPTIMAL], [Infeasible]
    for [INFEASIBLE] and [INF_OR_UNBD], [Unbounded] for [UNBOUNDED],
    [NotSolved] for the four limits, [INTERRUPTED] and [NUMERIC], and
    [Undefined] for every other code. *)
Theorem findSolutionValues_status_table (s : GUROBI.self F)
    (lp : LpProblem F) (model : GModel F) :
  NoDup (listed_codes gurobipy) ->
  solverModel lp = Some model ->
  exists st : LpStatus,
    GUROBI.returned (GUROBI.findSolutionValues gurobipy s lp) = Ok st
    /\ status (GUROBI.problem (GUROBI.findSolutionValues gurobipy s lp)) = Some st
    /\ (Status model = OPTIMAL gurobipy -> st = LpStatusOptimal)
    /\ (Status model = INFEASIBLE gurobipy \/ Status model = INF_OR_UNBD gurobipy
        -> st = LpStatusInfeasible)
    /\ (Status model = UNBOUNDED gurobipy -> st = LpStatusUnbounded)
    /\ (Status model ∈ limit_codes gurobipy -> st = LpStatusNotSolved)
    /\ (Status model ∉ listed_codes gurobipy -> st = LpStatusUndefined).
Proof.
  intros Hnd Hm. exists (GUROBI.lookup_status gurobipy (Status model)).
  destruct (findSolutionValues_returned s lp model Hm) as [Hr Hs].
  split; [exact Hr|]. split; [exact Hs|].
  repeat split.
  - intros ->. apply lookup_status_listed; [assumption | set_solver].
  - intros [-> | ->]; (apply lookup_status_listed; [assumption | set_solver]).
  - intros ->. apply lookup_status_listed; [assumption | set_solver].
  - unfold limit_codes. intros Hin.
    apply lookup_status_listed; [assumption|].
    repeat (apply elem_of_cons in Hin as [-> | Hin]; [set_solver|]).
    now apply elem_of_nil in Hin.
  - apply lookup_status_other.
Qed.

Lemma map_clear_flag {A : Type} (get : LpVariable F -> A) (vs : list (LpVariable F)) :
  (forall v, get (set_isModified false v) = get v) ->
  map get (map (set_isModified false) vs) = map get vs.
Proof.
  intros Hget. rewrite map_map. apply map_ext. exact Hget.
Qed.

(** C2: when the native status does not map to [Optimal],
    [findSolutionValues] clears [isModified] on every variable,
    assigns the mapped status and returns it; every variable keeps its
    value and reduced cost and the constraints, with their slacks and
    duals, are the ones it was given. *)
Theorem findSolutionValues_not_optimal (s : GUROBI.self F)
    (lp : LpProblem F) (model : GModel F) :
  solverModel lp = Some model ->
  GUROBI.lookup_status gurobipy (Status model) <> LpStatusOptimal ->
  let o := GUROBI.findSolutionValues gurobipy s lp in
  GUROBI.returned o = Ok (GUROBI.lookup_status gurobipy (Status model))
  /\ status (GUROBI.problem o)
     = Some (GUROBI.lookup_status gurobipy (Status model))
  /\ variables (GUROBI.problem o) = map (set_isModified false) (variables lp)
  /\ Forall (fun v => isModified v = false) (variables (GUROBI.problem o))
  /\ map varValue (variables (GUROBI.problem o)) = map varValue (variables lp)
  /\ map dj (variables (GUROBI.problem o)) = map dj (variables lp)
  /\ constraints (GUROBI.problem o) = constraints lp.
Proof.
  intros Hm Hst. unfold GUROBI.findSolutionValues. rewrite Hm.
  rewrite bool_decide_true by exact Hst. simpl.
  repeat split.
  - induction (variables lp); constructor; [reflexivity | assumption].
  - now apply map_clear_flag.
  - now apply map_clear_flag.
Qed.

Lemma assign_zip_length {A : Type} (write : A -> F -> A)
    (objs : list A) (values : list F) :
  length (assign_zip write objs values) = length objs.
Proof.
  revert values. induction objs as [|o objs IH]; intros [|x values];
    simpl; auto.
Qed.

Lemma assign_zip_written {A : Type} (write : A -> F -> A) (get : A -> option F)
    (objs : list A) (values : list F) :
  (forall o x, get (write o x) = Some x) ->
  length values = length objs ->
  map get (assign_zip write objs values) = map Some values.
Proof.
  intros Hget. revert values.
  induction objs as [|o objs IH]; intros [|x values] Hlen;
    try discriminate; [reflexivity|].
  simpl. rewrite Hget. f_equal. apply IH. now injection Hlen.
Qed.

Lemma assign_zip_kept {A B : Type} (write : A -> F -> A) (get : A -> B)
    (objs : list A) (values : list F) :
  (forall o x, get (write o x) = get o) ->
  map get (assign_zip write objs values) = map get objs.
Proof.
  intros Hget. revert values.
  induction objs as [|o objs IH]; intros [|x values]; try reflexivity.
  simpl. now rewrite Hget, IH.
Qed.

Lemma getAttr_vars_length (attr : nat -> F) (m : GModel F) :
  length (getAttr_vars attr m) = length (gvars m).
Proof. apply length_map. Qed.

Lemma getAttr_constrs_length (attr : nat -> F) (m : GModel F) :
  length (getAttr_constrs attr m) = length (gconstrs m).
Proof. apply length_map. Qed.

(** C3: with an [Optimal] status, on a native model that has one
    column per variable and one row per constraint,
    [findSolutionValues] writes the value of every variable and the
    slack of every constraint; it writes every reduced cost and every
    dual when the model is not a MIP, and leaves them all as they were
    when it is. *)
Theorem findSolutionValues_optimal (s : GUROBI.self F)
    (lp : LpProblem F) (model : GModel F) :
  solverModel lp = Some model ->
  GUROBI.lookup_status gurobipy (Status model) = LpStatusOptimal ->
  length (gvars model) = length (variables lp) ->
  length (gconstrs model) = length (constraints lp) ->
  let lp' := GUROBI.problem (GUROBI.findSolutionValues gurobipy s lp) in
  map varValue (variables lp') = map Some (getAttr_vars (X model) model)
  /\ map slack_of (constraints lp') = map Some (getAttr_constrs (Slack model) model)
  /\ (IsMIP model = 0 ->
      map dj (variables lp') = map Some (getAttr_vars (RC model) model)
      /\ map pi_of (constraints lp') = map Some (getAttr_constrs (Pi model) model))
  /\ (IsMIP model <> 0 ->
      map dj (variables lp') = map dj (variables lp)
      /\ map pi_of (constraints lp') = map pi_of (constraints lp)).
Proof.
  intros Hm Hst Hvars Hconstrs. unfold GUROBI.findSolutionValues.
  rewrite Hm, Hst. simpl. unfold GUROBI.populate.
  assert (length (getAttr_vars (X model) model)
          = length (map (set_isModified false) (variables lp))) as HX
    by now rewrite getAttr_vars_length, length_map.
  assert (length (getAttr_vars (RC model) model)
          = length (map (set_isModified false) (variables lp))) as HRC
    by now rewrite getAttr_vars_length, length_map.
  pose proof (getAttr_constrs_length (Slack model) model) as HS.
  pose proof (getAttr_constrs_length (Pi model) model) as HP.
  rewrite Hconstrs in HS, HP.
  destruct (IsMIP model =? 0) eqn:E; simpl.
  - apply Z.eqb_eq in E. split; [|split; [|split]].
    + rewrite (assign_zip_kept set_dj varValue) by reflexivity.
      now apply (assign_zip_written set_varValue varValue).
    + rewrite (assign_zip_kept (on_snd set_pi) slack_of) by reflexivity.
      now apply (assign_zip_written (on_snd set_slack) slack_of).
    + intros _. split.
      * apply (assign_zip_written set_dj dj); [reflexivity|].
        now rewrite assign_zip_length.
      * apply (assign_zip_written (on_snd set_pi) pi_of); [reflexivity|].
        now rewrite assign_zip_length.
    + intros Hmip. contradiction.
  - apply Z.eqb_neq in E. split; [|split; [|split]].
    + now apply (assign_zip_written set_varValue varValue).
    + now apply (assign_zip_written (on_snd set_slack) slack_of).
    + intros Hlp. contradiction.
    + intros _. split.
      * rewrite (assign_zip_kept set_varValue dj) by reflexivity.
        now apply map_clear_flag.
      * now apply (assign_zip_kept (on_snd set_slack) pi_of).
Qed.
End FindSolutionValues.

(** ** The in-process adapter: building the native model *)

Section BuildSolverModel.
Context {F : Type} `{PyNum F}.
Variable gurobipy : Gurobipy F.
Variable s : GUROBI.self F.
Variable lp : LpProblem F.

Lemma addVariables_gvars_incl (vars : list (LpVariable F)) (m : GModel F)
    (g : GVar F) :
  g ∈ gvars m -> g ∈ gvars (snd (GUROBI.addVariables gurobipy s lp vars m)).
Proof.
  revert m. induction vars as [|var vars IH]; intros m Hg; [exact Hg|].
  simpl.
  destruct (GUROBI.addVariables gurobipy s lp vars _) as [rest' m2] eqn:E.
  simpl. change m2 with (snd (rest', m2)). rewrite <- E. apply IH.
  simpl. apply elem_of_app. now left.
Qed.

(** The variable at position [i] gets the native variable made for it,
    and the native model holds it. *)
Lemma addVariables_lookup (vars : list (LpVariable F)) (m : GModel F)
    (i : nat) (var : LpVariable F) :
  vars !! i = Some var ->
  let g := native_var gurobipy s lp (length (gvars m) + i) var in
  fst (GUROBI.addVariables gurobipy s lp vars m) !! i
    = Some (set_solverVar var g)
  /\ g ∈ gvars (snd (GUROBI.addVariables gurobipy s lp vars m)).
Proof.
  revert m i. induction vars as [|v vars IH]; intros m i Hi; [discriminate|].
  simpl.
  destruct (GUROBI.addVariables gurobipy s lp vars _) as [rest' m2] eqn:E.
  destruct i as [|i]; simpl in *.
  - injection Hi as ->. rewrite Nat.add_0_r. split; [reflexivity|].
    change m2 with (snd (rest', m2)). rewrite <- E.
    apply addVariables_gvars_incl. simpl. apply elem_of_app. right.
    apply elem_of_cons. now left.
  - match type of E with
    | GUROBI.addVariables _ _ _ _ ?m1 = _ => specialize (IH m1 i Hi)
    end.
    rewrite E in IH. simpl in IH.
    rewrite length_app in IH. simpl in IH.
    replace (length (gvars m) + 1 + i)%nat with (length (gvars m) + S i)%nat
      in IH by lia.
    exact IH.
Qed.

Lemma addConstraints_gvars (vars : list (LpVariable F))
    (cs : list (string * LpConstraint F)) (m : GModel F) :
  gvars (snd (GUROBI.addConstraints vars cs m)) = gvars m.
Proof.
  revert m. induction cs as [|[nm c] cs IH]; intros m; [reflexivity|].
  simpl. destruct (GUROBI.linExpr vars (coefficients c)); [|reflexivity].
  destruct (sense c); try reflexivity;
    (destruct (GUROBI.addConstraints vars cs _) as [[r rest'] m2] eqn:E;
     simpl; change m2 with (snd (r, rest', m2)); rewrite <- E, IH;
     reflexivity).
Qed.

Lemma buildSolverModel_problem :
  variables (GUROBI.problem (GUROBI.buildSolverModel gurobipy s lp))
    = fst (GUROBI.addVariables gurobipy s lp (variables lp)
             (GUROBI.configured_model gurobipy s lp))
  /\ exists m,
      solverModel (GUROBI.problem (GUROBI.buildSolverModel gurobipy s lp))
        = Some m
      /\ gvars m
         = gvars (snd (GUROBI.addVariables gurobipy s lp (variables lp)
                         (GUROBI.configured_model gurobipy s lp))).
Proof.
  unfold GUROBI.buildSolverModel.
  destruct (GUROBI.addVariables gurobipy s lp (variables lp) _)
    as [vars m1] eqn:E1.
  simpl.
  destruct (GUROBI.addConstraints vars (constraints lp) m1)
    as [[r cs] m2] eqn:E2.
  simpl. split; [reflexivity|]. exists m2. split; [reflexivity|].
  change m2 with (snd (r, cs, m2)). rewrite <- E2.
  apply addConstraints_gvars.
Qed.

(** C8: for every variable of the problem, [buildSolverModel] makes a
    native variable, held by the native model and attached to the
    variable as [solverVar] (the variable at that position of the
    problem afterwards carries it, and is otherwise as it was), whose
    lower bound is the variable's or
    minus the infinity of [GRB] when it has none, whose upper bound is
    the variable's or the infinity of [GRB], whose kind is [INTEGER]
    exactly when the category is [LpInteger] and [mip] is set and
    [CONTINUOUS] otherwise, and whose objective coefficient is the one
    of the objective, or [0.0] when the variable is not in it. *)
Theorem buildSolverModel_variables (i : nat) (var : LpVariable F) :
  variables lp !! i = Some var ->
  exists (g : GVar F) (m : GModel F) (var' : LpVariable F),
    variables (GUROBI.problem (GUROBI.buildSolverModel gurobipy s lp)) !! i
      = Some var'
    /\ solverVar var' = Some g
    /\ same_but_solverVar var var'
    /\ solverModel (GUROBI.problem (GUROBI.buildSolverModel gurobipy s lp))
       = Some m
    /\ g ∈ gvars m
    /\ gv_lb g = match lowBound var with
                 | Some b => b
                 | None => num_neg (INFINITY gurobipy)
                 end
    /\ gv_ub g = match upBound var with
                 | Some b => b
                 | None => INFINITY gurobipy
                 end
    /\ (gv_vtype g = INTEGER <-> cat var = LpInteger /\ GUROBI.mip s = true)
    /\ (gv_vtype g = CONTINUOUS <-> ~ (cat var = LpInteger /\ GUROBI.mip s = true))
    /\ gv_obj g = match objective lp !! name var with
                  | Some coef => coef
                  | None => num_zero
                  end
    /\ gv_name g = name var.
Proof.
  intros Hi.
  destruct buildSolverModel_problem as [Hvars (m & Hm & Hg)].
  destruct (addVariables_lookup (variables lp)
              (GUROBI.configured_model gurobipy s lp) i var Hi) as [Hl Hin].
  eexists _, m, _. rewrite Hvars. split; [exact Hl|].
  split; [reflexivity|]. split; [repeat split|]. split; [exact Hm|].
  split; [rewrite Hg; exact Hin|].
  simpl. unfold GUROBI.var_lowBound, GUROBI.var_upBound, GUROBI.var_obj,
    GUROBI.var_varType.
  split; [now destruct (lowBound var)|]. split; [now destruct (upBound var)|].
  assert (bool_decide (cat var = LpInteger) && GUROBI.mip s = true
          <-> cat var = LpInteger /\ GUROBI.mip s = true) as Hty
    by now rewrite andb_true_iff, bool_decide_eq_true.
  destruct (bool_decide (cat var = LpInteger) && GUROBI.mip s).
  - split; [split; [intros _; now apply Hty | reflexivity]|].
    split; [split; [discriminate | intros N; exfalso; now apply N, Hty]|].
    split; [now destruct (objective lp !! name var) | reflexivity].
  - split; [split; [discriminate | intros Hc; now apply Hty in Hc]|].
    split; [split; [intros _ Hc; now apply Hty in Hc | reflexivity]|].
    split; [now destruct (objective lp !! name var) | reflexivity].
Qed.
End BuildSolverModel.

(** ** The native model has the shape of the problem *)

Section BuiltShape.
Context {F : Type} `{PyNum F}.
Variable gurobipy : Gurobipy F.
Variable s : GUROBI.self F.
Variable lp : LpProblem F.

Lemma addVariables_shape (vars : list (LpVariable F)) (m : GModel F) :
  length (fst (GUROBI.addVariables gurobipy s lp vars m)) = length vars
  /\ length (gvars (snd (GUROBI.addVariables gurobipy s lp vars m)))
     = (length (gvars m) + length vars)%nat
  /\ gconstrs (snd (GUROBI.addVariables gurobipy s lp vars m)) = gconstrs m.
Proof.
  revert m. induction vars as [|var vars IH]; intros m.
  - simpl. repeat split. lia.
  - simpl.
    match goal with
    | |- context [GUROBI.addVariables gurobipy s lp vars ?m1] =>
        specialize (IH m1);
        destruct (GUROBI.addVariables gurobipy s lp vars m1) as [rest' m2]
    end.
    simpl in *. destruct IH as (Hl & Hg & Hc). rewrite length_app in Hg.
    simpl in Hg. repeat split; [lia | lia | exact Hc].
Qed.

Lemma addConstraints_shape (vars : list (LpVariable F))
    (cs cs' : list (string * LpConstraint F)) (m m' : GModel F) :
  GUROBI.addConstraints vars cs m = (Ok tt, cs', m') ->
  length cs' = length cs
  /\ length (gconstrs m') = (length (gconstrs m) + length cs)%nat.
Proof.
  revert m cs'. induction cs as [|[nm c] cs IH]; intros m cs' Hrun.
  - injection Hrun as <- <-. simpl. split; [reflexivity | lia].
  - simpl in Hrun.
    destruct (GUROBI.linExpr vars (coefficients c)); [|discriminate].
    destruct (sense c); try discriminate;
      match type of Hrun with
      | context [GUROBI.addConstraints vars cs ?m1] =>
          specialize (IH m1);
          destruct (GUROBI.addConstraints vars cs m1) as [[r rest'] m2]
      end;
      injection Hrun as -> <- <-;
      destruct (IH rest' eq_refl) as [Hl Hg];
      simpl in *; rewrite length_app in Hg; simpl in Hg; split; lia.
Qed.

Lemma configured_model_shape :
  gvars (GUROBI.configured_model gurobipy s lp)
    = gvars (Model gurobipy (lp_name lp))
  /\ gconstrs (GUROBI.configured_model gurobipy s lp)
     = gconstrs (Model gurobipy (lp_name lp)).
Proof.
  unfold GUROBI.configured_model.
  destruct (bool_decide (lp_sense lp = LpMaximize));
    destruct (GUROBI.timeLimit s) as [t|]; try destruct (num_truthy t);
    destruct (GUROBI.optionsDict s !! "gapRel") as [g|];
    try destruct (GUROBI.truthy g);
    destruct (GUROBI.optionsDict s !! "logPath") as [l|];
    try destruct (GUROBI.truthy l); split; reflexivity.
Qed.

(** X16: when the engine hands out empty models and [buildSolverModel]
    returns, the native model has one column per variable and one row
    per constraint: what [findSolutionValues] then zips is aligned. *)
Lemma buildSolverModel_shape :
  gvars (Model gurobipy (lp_name lp)) = [] ->
  gconstrs (Model gurobipy (lp_name lp)) = [] ->
  GUROBI.returned (GUROBI.buildSolverModel gurobipy s lp) = Ok tt ->
  exists m,
    solverModel (GUROBI.problem (GUROBI.buildSolverModel gurobipy s lp)) = Some m
    /\ length (gvars m)
       = length (variables (GUROBI.problem (GUROBI.buildSolverModel gurobipy s lp)))
    /\ length (gconstrs m)
       = length (constraints (GUROBI.problem (GUROBI.buildSolverModel gurobipy s lp))).
Proof.
  intros Hv Hc. unfold GUROBI.buildSolverModel.
  destruct configured_model_shape as [Hcv Hcc]. rewrite Hv in Hcv. rewrite Hc in Hcc.
  pose proof (addVariables_shape (variables lp)
                (GUROBI.configured_model gurobipy s lp)) as (Hl & Hg & Hk).
  destruct (GUROBI.addVariables gurobipy s lp (variables lp) _) as [vars m1].
  simpl in *.
  pose proof (addConstraints_gvars vars (constraints lp) m1) as Hsame.
  destruct (GUROBI.addConstraints vars (constraints lp) m1) as [[r cs] m2] eqn:E.
  simpl in *. intros ->. exists m2. split; [reflexivity|].
  destruct (addConstraints_shape _ _ _ _ _ E) as [Hcl Hcg].
  rewrite Hsame, Hg, Hcv, Hcg, Hk, Hcc, Hcl, Hl. simpl. split; reflexivity.
Qed.
End BuiltShape.

(** ** The command-line adapter: one solve *)

Section ActualSolve.
Context {F : Type} `{PyNum F}.
Variable sys : GUROBI_CMD.System F.
Variable s : GUROBI_CMD.self F.
Variable lp : LpProblem F.

Ltac unfold_m :=
  unfold GUROBI_CMD.actualSolve, GUROBI_CMD.writeLP, GUROBI_CMD.remove_quietly,
    GUROBI_CMD.writesol, GUROBI_CMD.subprocess_call, GUROBI_CMD.readsol_file,
    GUROBI_CMD.delete_tmp_files, GUROBI_CMD.assign, GUROBI_CMD.when, mbind,
    GUROBI_CMD.M_bind,
    GUROBI_CMD.bind, GUROBI_CMD.ret, GUROBI_CMD.raise, GUROBI_CMD.emit,
    GUROBI_CMD.with_files, GUROBI_CMD.with_pipes, GUROBI_CMD.get_files,
    GUROBI_CMD.initial.

Ltac step_status :=
  match goal with
  | |- context [bool_decide (?x <> LpStatusInfeasible)] =>
      destruct (bool_decide (x <> LpStatusInfeasible))
  end; simpl.

Ltac step_file :=
  match goal with
  | |- context [readsol ?t] =>
      destruct (readsol t) as [[[[[st values] rcs] sps] sls]|err] eqn:Eread
  end; simpl; [step_status | idtac].

Ltac step_code :=
  match goal with
  | |- context [bool_decide (is_Some (?m !! ?k))] =>
      destruct (m !! k) as [text|] eqn:Esol
  end; simpl;
  try match goal with
      | E : ?m !! ?k = _ |- context [?m !! ?k] => rewrite E
      end; simpl; [step_file | idtac].

Ltac step_run :=
  match goal with
  | |- context [GUROBI_CMD.run sys ?a ?f] =>
      destruct (GUROBI_CMD.run sys a f) as [rc fs'] eqn:Erun
  end; simpl;
  match goal with
  | |- context [(?code =? 0)] => destruct (code =? 0) eqn:Erc
  end; simpl; [step_code | idtac].

(** Each assign* call of the path returns or raises. *)
Ltac path_assign :=
  repeat match goal with
         | |- context [GUROBI_CMD.assign_raises sys lp ?e] =>
             destruct (GUROBI_CMD.assign_raises sys lp e) eqn:?; simpl
         end.

(** [actualSolve] from a fresh world is [solve_paths]: the method is run
    along each of its paths. *)
Lemma actualSolve_paths (fs : gmap string string) :
  GUROBI_CMD.actualSolve sys s lp (GUROBI_CMD.initial fs)
  = solve_paths sys s lp fs.
Proof.
  unfold solve_paths, finished, calls_for, world_after_call, files_at_call,
    command_text, logged, prelude, cannot_execute, execution_failed.
  unfold_m.
  destruct (GUROBI_CMD.executable sys (GUROBI_CMD.path s)) eqn:Eexe; simpl;
    [ destruct (GUROBI_CMD.create_tmp_files sys (lp_name lp))
        as [[tmpLp tmpSol] tmpMst];
      destruct (GUROBI_CMD.warmStart s), (isMIP lp), (GUROBI_CMD.mip s),
        (GUROBI_CMD.msg s); simpl; step_run
    | idtac ];
    path_assign; reflexivity.
Qed.

(** *** The end of a run: the temporary files deleted, then the calls *)

Lemma calls_for_assign (st : LpStatus) (values rc sp sl : option (gmap string F)) :
  Forall (fun e => GUROBI_CMD.is_assign e = true) (calls_for st values rc sp sl).
Proof.
  unfold calls_for. destruct (bool_decide (st <> LpStatusInfeasible));
    repeat constructor.
Qed.

Lemma assign_calls_world (calls : list (GUROBI_CMD.Event F))
    (w : GUROBI_CMD.World F) :
  exists k,
    snd (assign_calls sys lp calls w)
    = {| GUROBI_CMD.files := GUROBI_CMD.files w;
         GUROBI_CMD.open_pipes := GUROBI_CMD.open_pipes w;
         GUROBI_CMD.trace := (GUROBI_CMD.trace w ++ take k calls)%list |}.
Proof.
  revert w. induction calls as [|e calls IH]; intros w.
  - exists 0%nat. destruct w. simpl. now rewrite List.app_nil_r.
  - simpl. destruct (GUROBI_CMD.assign_raises sys lp e).
    + exists 1%nat. reflexivity.
    + destruct (IH (logged e w)) as [k Hk]. exists (S k).
      rewrite Hk. simpl. now rewrite <- List.app_assoc.
Qed.

Lemma assign_calls_Ok (calls : list (GUROBI_CMD.Event F))
    (w w' : GUROBI_CMD.World F) (u : unit) :
  assign_calls sys lp calls w = (Ok u, w') ->
  w' = {| GUROBI_CMD.files := GUROBI_CMD.files w;
          GUROBI_CMD.open_pipes := GUROBI_CMD.open_pipes w;
          GUROBI_CMD.trace := (GUROBI_CMD.trace w ++ calls)%list |}
  /\ Forall (fun e => GUROBI_CMD.assign_raises sys lp e = None) calls.
Proof.
  revert w. induction calls as [|e calls IH]; intros w; simpl.
  - intros [= <-]. destruct w. simpl. rewrite List.app_nil_r. now split.
  - destruct (GUROBI_CMD.assign_raises sys lp e) eqn:Ee; [discriminate|].
    intros Hr. destruct (IH _ Hr) as [-> Hall]. simpl.
    rewrite <- List.app_assoc. split; [reflexivity | now constructor].
Qed.

Lemma assign_calls_Raise (calls : list (GUROBI_CMD.Event F))
    (w w' : GUROBI_CMD.World F) (e : PyError) :
  assign_calls sys lp calls w = (Raise e, w') ->
  exists before call after f,
    calls = (before ++ call :: after)%list
    /\ Forall (fun ev => GUROBI_CMD.assign_raises sys lp ev = None) before
    /\ GUROBI_CMD.assign_raises sys lp call = Some f
    /\ e = GUROBI_CMD.raised f
    /\ w' = {| GUROBI_CMD.files := GUROBI_CMD.files w;
               GUROBI_CMD.open_pipes := GUROBI_CMD.open_pipes w;
               GUROBI_CMD.trace :=
                 (GUROBI_CMD.trace w ++ before ++ [call])%list |}.
Proof.
  revert w. induction calls as [|c calls IH]; intros w; simpl; [discriminate|].
  destruct (GUROBI_CMD.assign_raises sys lp c) as [f|] eqn:Ec.
  - intros [= <- <-]. exists [], c, calls, f. now repeat split.
  - intros Hr. destruct (IH _ Hr) as (before & call & after & f & -> & Hb & Hc & -> & ->).
    exists (c :: before), call, after, f. simpl.
    rewrite <- List.app_assoc. repeat split; try assumption. now constructor.
Qed.

Lemma finished_world (tmpLp tmpSol tmpMst : string) (st : LpStatus)
    (values rc sp sl : option (gmap string F)) (w : GUROBI_CMD.World F) :
  exists k,
    snd (finished sys lp tmpLp tmpSol tmpMst st values rc sp sl w)
    = {| GUROBI_CMD.files :=
           fold_left (fun fs f => delete f fs)
             [tmpLp; tmpMst; tmpSol; "gurobi.log"] (GUROBI_CMD.files w);
         GUROBI_CMD.open_pipes := GUROBI_CMD.open_pipes w;
         GUROBI_CMD.trace :=
           (GUROBI_CMD.trace w
            ++ GUROBI_CMD.DeleteTmpFiles [tmpLp; tmpMst; tmpSol; "gurobi.log"]
               :: take k (calls_for st values rc sp sl))%list |}.
Proof.
  unfold finished.
  match goal with
  | |- context [assign_calls sys lp ?c ?w0] =>
      destruct (assign_calls_world c w0) as [k Hk];
      destruct (assign_calls sys lp c w0) as [[u|e] w']
  end; exists k; simpl in *; subst w'; now rewrite <- List.app_assoc.
Qed.

Lemma finished_Ok (tmpLp tmpSol tmpMst : string) (st st' : LpStatus)
    (values rc sp sl : option (gmap string F)) (w w' : GUROBI_CMD.World F) :
  finished sys lp tmpLp tmpSol tmpMst st values rc sp sl w = (Ok st', w') ->
  st' = st
  /\ w' = {| GUROBI_CMD.files :=
               fold_left (fun fs f => delete f fs)
                 [tmpLp; tmpMst; tmpSol; "gurobi.log"] (GUROBI_CMD.files w);
             GUROBI_CMD.open_pipes := GUROBI_CMD.open_pipes w;
             GUROBI_CMD.trace :=
               (GUROBI_CMD.trace w
                ++ GUROBI_CMD.DeleteTmpFiles [tmpLp; tmpMst; tmpSol; "gurobi.log"]
                   :: calls_for st values rc sp sl)%list |}.
Proof.
  unfold finished.
  match goal with
  | |- context [assign_calls sys lp ?c ?w0] =>
      destruct (assign_calls sys lp c w0) as [[u|e] w1] eqn:Hc
  end; [|discriminate].
  intros [= <- <-]. apply assign_calls_Ok in Hc as [-> _]. simpl.
  now rewrite <- List.app_assoc.
Qed.

Lemma finished_Raise (tmpLp tmpSol tmpMst : string) (st : LpStatus)
    (values rc sp sl : option (gmap string F)) (w w' : GUROBI_CMD.World F)
    (e : PyError) :
  finished sys lp tmpLp tmpSol tmpMst st values rc sp sl w = (Raise e, w') ->
  exists before call after f,
    calls_for st values rc sp sl = (before ++ call :: after)%list
    /\ Forall (fun ev => GUROBI_CMD.assign_raises sys lp ev = None) before
    /\ GUROBI_CMD.assign_raises sys lp call = Some f
    /\ e = GUROBI_CMD.raised f
    /\ w' = {| GUROBI_CMD.files :=
                 fold_left (fun fs f => delete f fs)
                   [tmpLp; tmpMst; tmpSol; "gurobi.log"] (GUROBI_CMD.files w);
               GUROBI_CMD.open_pipes := GUROBI_CMD.open_pipes w;
               GUROBI_CMD.trace :=
                 (GUROBI_CMD.trace w
                  ++ GUROBI_CMD.DeleteTmpFiles
                       [tmpLp; tmpMst; tmpSol; "gurobi.log"]
                     :: before ++ [call])%list |}.
Proof.
  unfold finished.
  match goal with
  | |- context [assign_calls sys lp ?c ?w0] =>
      destruct (assign_calls sys lp c w0) as [[u|e0] w1] eqn:Hc
  end; [discriminate|].
  intros [= <- <-].
  apply assign_calls_Raise in Hc as (before & call & after & f & Hs & Hb & Hf & -> & ->).
  exists before, call, after, f. simpl.
  rewrite <- List.app_assoc. now repeat split.
Qed.

(** An event of the end of a run that is no assign* call is not there. *)
Lemma not_among_calls (e : GUROBI_CMD.Event F) (k : nat) (st : LpStatus)
    (values rc sp sl : option (gmap string F)) :
  e ∈ take k (calls_for st values rc sp sl) -> GUROBI_CMD.is_assign e = true.
Proof.
  intros Hin. apply elem_of_take in Hin as (i & Hi & _).
  pose proof (calls_for_assign st values rc sp sl) as Hall.
  exact (Forall_lookup_1 _ _ _ _ Hall Hi).
Qed.

Ltac unfold_paths :=
  cbv zeta; rewrite ?actualSolve_paths;
  unfold solve_paths, world_after_call, files_at_call,
    command_text, logged, prelude, GUROBI_CMD.initial.

(** The paths of [actualSolve] from a fresh world: not executable; exit
    code not zero; no solution file; solution file unreadable; solution
    file read. *)
Ltac path_read :=
  match goal with
  | E : readsol _ = Ok _ |- _ =>
      destruct (readsol_other_mappings _ _ _ _ _ _ E) as (-> & -> & ->)
  end.

Ltac path_file :=
  match goal with
  | |- context [readsol ?t] =>
      destruct (readsol t) as [[[[[st values] rcs] sps] sls]|err] eqn:Eread
  end; simpl; [path_read | idtac].

Ltac path_code :=
  match goal with
  | |- context [@lookup string string (gmap string string) _ ?k ?m] =>
      destruct (m !! k) as [text|] eqn:Esol
  end; simpl; [path_file | idtac].

Ltac path_run :=
  match goal with
  | |- context [GUROBI_CMD.run sys ?a ?f] =>
      destruct (GUROBI_CMD.run sys a f) as [rc fs'] eqn:Erun
  end; simpl;
  match goal with
  | |- context [(?code =? 0)] => destruct (code =? 0) eqn:Erc
  end; simpl; [path_code | idtac].

Ltac run_paths :=
  unfold_paths;
  destruct (GUROBI_CMD.executable sys (GUROBI_CMD.path s)) eqn:Eexe; simpl;
  [ destruct (GUROBI_CMD.create_tmp_files sys (lp_name lp))
      as [[tmpLp tmpSol] tmpMst];
    destruct (GUROBI_CMD.warmStart s), (isMIP lp), (GUROBI_CMD.mip s),
      (GUROBI_CMD.msg s); simpl; path_run
  | idtac ].

(** The world a run ends in, whichever assign* call was the last. *)
Ltac end_world Hin :=
  try match type of Hin with
      | context [finished sys lp ?a ?b ?c ?st ?v ?r ?p ?l ?w] =>
          let k := fresh "k" in
          let Hk := fresh "Hk" in
          destruct (finished_world a b c st v r p l w) as [k Hk];
          rewrite Hk in Hin; simpl in Hin
      end.

Ltac in_trace Hin :=
  repeat first
    [ apply elem_of_nil in Hin; contradiction
    | apply not_among_calls in Hin; discriminate Hin
    | apply elem_of_cons in Hin as [Hin|Hin]; [try discriminate Hin|] ].

(** C6: when the finished subprocess call gave a non-zero exit code,
    [actualSolve] raises [PulpSolverError] for the failed execution,
    and its run has read no solution file and made no assignment
    (values, reduced costs, duals, slacks, status) on the problem. *)
Theorem actualSolve_nonzero_exit (fs : gmap string string)
    (argv : list string) (silenced : bool) (code : Z) :
  let out := GUROBI_CMD.actualSolve sys s lp (GUROBI_CMD.initial fs) in
  GUROBI_CMD.SubprocessCall argv silenced code ∈ GUROBI_CMD.trace (snd out) ->
  code <> 0 ->
  fst out = Raise (PulpSolverError
                     ("PuLP: Error while trying to execute " +:+ GUROBI_CMD.path s))
  /\ existsb GUROBI_CMD.is_read (GUROBI_CMD.trace (snd out)) = false
  /\ existsb GUROBI_CMD.is_assign (GUROBI_CMD.trace (snd out)) = false.
Proof.
  run_paths; intros Hin Hcode;
    try (repeat split; reflexivity);
    exfalso; end_world Hin; in_trace Hin;
    injection Hin as _ _ ->; apply Z.eqb_eq in Erc; contradiction.
Qed.

(** On that path nothing is deleted either. *)
Lemma actualSolve_nonzero_exit_no_cleanup (fs : gmap string string)
    (argv : list string) (silenced : bool) (code : Z) :
  let out := GUROBI_CMD.actualSolve sys s lp (GUROBI_CMD.initial fs) in
  GUROBI_CMD.SubprocessCall argv silenced code ∈ GUROBI_CMD.trace (snd out) ->
  code <> 0 ->
  existsb GUROBI_CMD.is_delete (GUROBI_CMD.trace (snd out)) = false.
Proof.
  run_paths; intros Hin Hcode;
    try reflexivity;
    exfalso; end_world Hin; in_trace Hin;
    injection Hin as _ _ ->; apply Z.eqb_eq in Erc; contradiction.
Qed.

(** C9: the three other mappings [readsol] returns are empty whatever
    the file; so, when [actualSolve] returns, the reduced costs, duals
    and slacks it pushed are the empty mapping if the solution file
    was read, and [None] if there was no solution file. *)
Theorem readsol_pushes_nothing_but_values (fs : gmap string string) :
  (forall text st values rc sp sl,
      readsol text = Ok (st, values, rc, sp, sl) ->
      rc = ∅ /\ sp = ∅ /\ sl = ∅)
  /\ (forall st w',
         GUROBI_CMD.actualSolve sys s lp (GUROBI_CMD.initial fs) = (Ok st, w') ->
         forall m,
           GUROBI_CMD.AssignVarsDj m ∈ GUROBI_CMD.trace w'
           \/ GUROBI_CMD.AssignConsPi m ∈ GUROBI_CMD.trace w'
           \/ GUROBI_CMD.AssignConsSlack m ∈ GUROBI_CMD.trace w' ->
           if existsb GUROBI_CMD.is_read (GUROBI_CMD.trace w')
           then m = Some ∅ else m = None).
Proof.
  split; [apply readsol_other_mappings|].
  intros st0 w'. run_paths; intros Hrun; try discriminate Hrun;
    apply finished_Ok in Hrun as [-> ->]; unfold calls_for;
    match goal with
    | |- context [bool_decide (?x <> LpStatusInfeasible)] =>
        destruct (bool_decide (x <> LpStatusInfeasible))
    end; simpl;
    intros m [Hin | [Hin | Hin]]; in_trace Hin;
    now injection Hin as <-.
Qed.
End ActualSolve.

(** C7: a run in which the executable exits with code 1.  The adapter
    raises before it reaches [delete_tmp_files]: the problem file and
    the solution file are still on disk afterwards and nothing was
    deleted; the handle on the null device is closed. *)
Theorem actualSolve_failure_leaves_tmp_files :
  let out :=
    GUROBI_CMD.actualSolve (Examples.machine 1 (Some "# Objective value = 0"))
      Examples.gurobi_cl Examples.lp0 (GUROBI_CMD.initial ∅) in
  fst out = Raise (PulpSolverError "PuLP: Error while trying to execute gurobi_cl")
  /\ GUROBI_CMD.files (snd out) !! "demo-pulp.lp" = Some "\* demo *\"
  /\ GUROBI_CMD.files (snd out) !! "demo-pulp.sol" = Some "# Objective value = 0"
  /\ existsb GUROBI_CMD.is_delete (GUROBI_CMD.trace (snd out)) = false
  /\ GUROBI_CMD.open_pipes (snd out) = 0%nat.
Proof. vm_compute. repeat split. Qed.

(** ** The statements at concrete inputs *)

Import Examples.

Lemma listed_codes_distinct : NoDup (listed_codes gurobipy).
Proof. apply (bool_decide_unpack _). vm_compute. exact I. Qed.

Lemma findSolutionValues_status_table_witness :
  NoDup (listed_codes gurobipy)
  /\ solverModel lp0_infeasible = Some (model_of lp0_infeasible)
  /\ GUROBI.returned (GUROBI.findSolutionValues gurobipy (solver false) lp0_infeasible)
     = Ok LpStatusInfeasible.
Proof.
  split; [exact listed_codes_distinct|]. split; [reflexivity|].
  destruct (findSolutionValues_status_table gurobipy (solver false)
              lp0_infeasible (model_of lp0_infeasible)
              listed_codes_distinct eq_refl)
    as (st & Hr & _ & _ & Hinf & _).
  rewrite Hr. f_equal. apply Hinf. left. reflexivity.
Defined.

Lemma findSolutionValues_not_optimal_witness :
  solverModel lp0_infeasible = Some (model_of lp0_infeasible)
  /\ GUROBI.lookup_status gurobipy (Status (model_of lp0_infeasible))
     <> LpStatusOptimal
  /\ map varValue
       (variables (GUROBI.problem
          (GUROBI.findSolutionValues gurobipy (solver false) lp0_infeasible)))
     = [None; None].
Proof.
  assert (GUROBI.lookup_status gurobipy (Status (model_of lp0_infeasible))
          <> LpStatusOptimal) as Hst by (vm_compute; discriminate).
  split; [reflexivity|]. split; [exact Hst|].
  destruct (findSolutionValues_not_optimal gurobipy (solver false)
              lp0_infeasible (model_of lp0_infeasible) eq_refl Hst)
    as (_ & _ & _ & _ & Hval & _).
  rewrite Hval. reflexivity.
Defined.

Lemma findSolutionValues_optimal_witness :
  solverModel lp0_relaxed = Some (model_of lp0_relaxed)
  /\ GUROBI.lookup_status gurobipy (Status (model_of lp0_relaxed)) = LpStatusOptimal
  /\ length (gvars (model_of lp0_relaxed)) = length (variables lp0_relaxed)
  /\ length (gconstrs (model_of lp0_relaxed)) = length (constraints lp0_relaxed)
  /\ map dj
       (variables (GUROBI.problem
          (GUROBI.findSolutionValues gurobipy (solver false) lp0_relaxed)))
     = [Some 7; Some 7].
Proof.
  assert (GUROBI.lookup_status gurobipy (Status (model_of lp0_relaxed))
          = LpStatusOptimal) as Hst by (vm_compute; reflexivity).
  repeat (split; [first [exact Hst | reflexivity]|]).
  destruct (findSolutionValues_optimal gurobipy (solver false)
              lp0_relaxed (model_of lp0_relaxed) eq_refl Hst eq_refl eq_refl)
    as (_ & _ & Hlp & _).
  destruct (Hlp eq_refl) as [Hdj _]. rewrite Hdj. reflexivity.
Defined.

(** C3, as stated, fails: with an [Optimal] status, a variable the
    native model has no column for gets no value. *)
Lemma findSolutionValues_optimal_skips_variable :
  let o := GUROBI.findSolutionValues gurobipy (solver false)
             Scenarios.lp0_grown in
  GUROBI.returned o = Ok LpStatusOptimal
  /\ length (variables (GUROBI.problem o)) = 3%nat
  /\ map varValue (variables (GUROBI.problem o)) = [Some 1; Some 2; None].
Proof. vm_compute. repeat split. Qed.

Lemma buildSolverModel_variables_witness :
  variables lp0 !! 1%nat = Some (var "y" None None LpContinuous)
  /\ exists (g : GVar Z) (var' : LpVariable Z),
      variables (GUROBI.problem (GUROBI.buildSolverModel gurobipy (solver false) lp0))
        !! 1%nat
      = Some var'
      /\ solverVar var' = Some g /\ name var' = "y"
      /\ gv_lb g = - 10 ^ 100 /\ gv_ub g = 10 ^ 100
      /\ gv_vtype g = CONTINUOUS /\ gv_obj g = 0.
Proof.
  split; [reflexivity|].
  destruct (buildSolverModel_variables gurobipy (solver false) lp0 1%nat
              (var "y" None None LpContinuous) eq_refl)
    as (g & m & var' & Hl & Hatt & (Hname & _) & _ & _ & Hlb & Hub & _ & Hty
        & Hobj & _).
  exists g, var'. split; [exact Hl|]. split; [exact Hatt|].
  split; [exact Hname|]. split; [exact Hlb|]. split; [exact Hub|].
  split; [|exact Hobj].
  apply Hty. intros [Hcat _]. discriminate Hcat.
Defined.

Lemma portable_pairs :
  Forall portable [("x", 1); ("y", -2); ("z", 5)].
Proof. repeat (constructor; [vm_compute; repeat split|]). constructor. Qed.

Lemma writesol_readsol_tail_witness :
  Forall portable [("x", 1); ("y", -2); ("z", 5)]
  /\ exists st values,
      readsol (writesol_text (all_defined [("x", 1); ("y", -2); ("z", 5)]))
      = Ok (st, values, ∅, ∅, ∅)
      /\ values !! "x" = None /\ values !! "y" = Some (-2)
      /\ values !! "z" = Some 5.
Proof.
  split; [exact portable_pairs|].
  destruct (writesol_readsol_tail _ portable_pairs) as (st & values & Hr & -> & _).
  exists st, (dict_of_pairs [("y", -2); ("z", 5)]).
  split; [exact Hr|]. repeat split.
Defined.

(** C4, as stated, fails: the pair written first is not read back. *)
Lemma writesol_readsol_loses_first_pair :
  exists st values rc sp sl,
    readsol (writesol_text (all_defined [("x", 1); ("y", 2)]))
    = Ok (st, values, rc, sp, sl)
    /\ values !! "x" = None /\ values !! "y" = Some 2.
Proof.
  exists LpStatusOptimal, {[ "y" := 2 ]}, ∅, ∅, ∅.
  split; [vm_compute; reflexivity | split; reflexivity].
Qed.

Lemma sol_text_well_formed : well_formed sol_text.
Proof. apply well_formedb_spec. vm_compute. reflexivity. Qed.

Lemma bad_text_not_well_formed : ~ well_formed bad_text.
Proof. intros Hwf%well_formedb_spec. vm_compute in Hwf. discriminate. Qed.

Lemma readsol_empty_or_entries_witness :
  sol_text <> "" /\ well_formed sol_text
  /\ exists values,
      readsol sol_text = Ok (LpStatusOptimal, values, ∅, ∅, ∅)
      /\ values !! "x" = Some 3 /\ values !! "y" = Some 1.
Proof.
  assert (sol_text <> "") as Hne by discriminate.
  split; [exact Hne|]. split; [exact sol_text_well_formed|].
  exists (dict_of_pairs (entries sol_text)).
  split; [exact (proj2 (readsol_empty_or_entries sol_text) Hne sol_text_well_formed)|].
  split; vm_compute; reflexivity.
Defined.

(** C5, as stated, fails: a non-empty file need not give [Optimal]. *)
Lemma readsol_nonempty_not_optimal :
  bad_text <> "" /\ readsol (F := Z) bad_text = Raise ValueError.
Proof. split; [discriminate | vm_compute; reflexivity]. Qed.

Lemma readsol_returns_iff_well_formed_witness :
  ~ well_formed bad_text /\ readsol (F := Z) bad_text = Raise ValueError.
Proof.
  split; [exact bad_text_not_well_formed|].
  exact (proj2 (proj2 (readsol_returns_iff_well_formed bad_text)
                  bad_text_not_well_formed)).
Defined.

Lemma failed_call_in_trace :
  GUROBI_CMD.SubprocessCall argv0 true 1
  ∈ GUROBI_CMD.trace
      (snd (GUROBI_CMD.actualSolve (machine 1 None) gurobi_cl lp0
              (GUROBI_CMD.initial ∅))).
Proof. vm_compute. repeat constructor. Qed.

Lemma actualSolve_nonzero_exit_witness :
  GUROBI_CMD.SubprocessCall argv0 true 1
  ∈ GUROBI_CMD.trace
      (snd (GUROBI_CMD.actualSolve (machine 1 None) gurobi_cl lp0
              (GUROBI_CMD.initial ∅)))
  /\ 1 <> 0
  /\ fst (GUROBI_CMD.actualSolve (machine 1 None) gurobi_cl lp0
            (GUROBI_CMD.initial ∅))
     = Raise (PulpSolverError "PuLP: Error while trying to execute gurobi_cl").
Proof.
  assert (1 <> 0) as Hcode by discriminate.
  split; [exact failed_call_in_trace|]. split; [exact Hcode|].
  exact (proj1 (actualSolve_nonzero_exit (machine 1 None) gurobi_cl lp0 ∅
                  argv0 true 1 failed_call_in_trace Hcode)).
Defined.

Lemma readsol_pushes_nothing_but_values_witness :
  exists w',
    GUROBI_CMD.actualSolve (machine 0 (Some sol_text)) gurobi_cl lp0
      (GUROBI_CMD.initial ∅) = (Ok LpStatusOptimal, w')
    /\ GUROBI_CMD.AssignVarsDj (Some ∅) ∈ GUROBI_CMD.trace w'
    /\ forall m, GUROBI_CMD.AssignConsSlack m ∈ GUROBI_CMD.trace w' -> m = Some ∅.
Proof.
  destruct (GUROBI_CMD.actualSolve (machine 0 (Some sol_text)) gurobi_cl lp0
              (GUROBI_CMD.initial ∅)) as [r w'] eqn:E.
  assert (r = Ok LpStatusOptimal) as ->
    by (apply (f_equal fst) in E; vm_compute in E; congruence).
  exists w'. split; [reflexivity|].
  assert (existsb GUROBI_CMD.is_read (GUROBI_CMD.trace w') = true) as Hread
    by (apply (f_equal snd) in E; simpl in E; rewrite <- E; vm_compute; reflexivity).
  pose proof (proj2 (readsol_pushes_nothing_but_values (machine 0 (Some sol_text))
                       gurobi_cl lp0 ∅) LpStatusOptimal w' E) as P.
  rewrite Hread in P. split.
  - apply (f_equal snd) in E. simpl in E. rewrite <- E. vm_compute.
    repeat constructor.
  - intros m Hm. apply P. right. right. exact Hm.
Defined.

(** ** The definitions on small inputs *)

Example str_split_runs : str_split "  x   3.5 " = ["x"; "3.5"].
Proof. reflexivity. Qed.

Example str_split_blank : str_split newline = [].
Proof. reflexivity. Qed.

Example file_lines_keeps_newlines :
  file_lines ("a b" +:+ newline +:+ newline +:+ "c")
  = ["a b" +:+ newline; newline; "c"].
Proof. reflexivity. Qed.

Example writesol_text_skips_undefined :
  writesol_text [("x", Some 1); ("y", None); ("z", Some (-2))]
  = "x 1" +:+ newline +:+ "z -2".
Proof. reflexivity. Qed.

Example readsol_sol_text :
  readsol sol_text = Ok (LpStatusOptimal, {[ "x" := 3; "y" := 1 ]}, ∅, ∅, ∅).
Proof. vm_compute. reflexivity. Qed.

Example readsol_blank_line :
  readsol (F := Z) ("# Objective value = 0" +:+ newline +:+ newline)
  = Raise ValueError.
Proof. vm_compute. reflexivity. Qed.

Example getOptions_order :
  GUROBI_CMD.getOptions
    {| GUROBI_CMD.path := "gurobi_cl"; GUROBI_CMD.options := [];
       GUROBI_CMD.optionsDict :=
         {[ "threads" := PyNumber 4; "logPath" := PyString "g.log" ]};
       GUROBI_CMD.warmStart := false; GUROBI_CMD.mip := true;
       GUROBI_CMD.msg := true |}
  = [("LogFile", PyString "g.log"); ("Threads", PyNumber 4)].
Proof. vm_compute. reflexivity. Qed.

Example lp0_built_kinds :
  map (fun v => gv_vtype <$> solverVar v) (variables lp0_built)
  = [Some INTEGER; Some CONTINUOUS]
  /\ map (fun v => gv_vtype <$> solverVar v)
       (variables (GUROBI.problem (GUROBI.buildSolverModel gurobipy (solver true) lp0)))
     = [Some CONTINUOUS; Some CONTINUOUS].
Proof. split; vm_compute; reflexivity. Qed.

Example lp0_integer_solution :
  let lp' := GUROBI.problem
               (GUROBI.findSolutionValues gurobipy (solver false) lp0_integer) in
  map varValue (variables lp') = [Some 1; Some 2]
  /\ map dj (variables lp') = [None; None]
  /\ map slack_of (constraints lp') = [Some 5]
  /\ map pi_of (constraints lp') = [None].
Proof. vm_compute. repeat split. Qed.

Example lp0_relaxed_solution :
  let lp' := GUROBI.problem
               (GUROBI.findSolutionValues gurobipy (solver false) lp0_relaxed) in
  map varValue (variables lp') = [Some 1; Some 2]
  /\ map dj (variables lp') = [Some 7; Some 7]
  /\ map slack_of (constraints lp') = [Some 5]
  /\ map pi_of (constraints lp') = [Some 9].
Proof. vm_compute. repeat split. Qed.

Example actualSolve_reads_sol_text :
  let out := GUROBI_CMD.actualSolve (machine 0 (Some sol_text)) gurobi_cl lp0
               (GUROBI_CMD.initial ∅) in
  fst out = Ok LpStatusOptimal
  /\ GUROBI_CMD.files (snd out) = ∅
  /\ GUROBI_CMD.trace (snd out)
     = [ GUROBI_CMD.WriteLP "demo-pulp.lp"; GUROBI_CMD.Remove "demo-pulp.sol";
         GUROBI_CMD.OpenDevnull; GUROBI_CMD.SubprocessCall argv0 true 0;
         GUROBI_CMD.ClosePipe; GUROBI_CMD.ReadSol "demo-pulp.sol";
         GUROBI_CMD.DeleteTmpFiles
           ["demo-pulp.lp"; "demo-pulp.mst"; "demo-pulp.sol"; "gurobi.log"];
         GUROBI_CMD.AssignVarsVals (Some {[ "x" := 3; "y" := 1 ]});
         GUROBI_CMD.AssignVarsDj (Some ∅); GUROBI_CMD.AssignConsPi (Some ∅);
         GUROBI_CMD.AssignConsSlack (Some ∅);
         GUROBI_CMD.AssignStatus LpStatusOptimal ].
Proof. vm_compute. repeat split. Qed.

(** ** More on the solution file *)

Section SolutionFileMore.
Context {F : Type} `{PyNum F}.

Lemma readsol_loop_app (l1 l2 : list string) (values : gmap string F) :
  readsol_loop values (l1 ++ l2)
  = match readsol_loop values l1 with
    | Ok values' => readsol_loop values' l2
    | Raise e => Raise e
    end.
Proof.
  revert values. induction l1 as [|line l1 IH]; intros values; [reflexivity|].
  simpl. destruct (readsol_line values line); [apply IH | reflexivity].
Qed.

(** Text after a newline starts new lines. *)
Lemma lines_from_newline (a cur b : string) :
  lines_from cur (a +:+ newline +:+ b)
  = (lines_from cur (a +:+ newline) ++ lines_from "" b)%list.
Proof.
  revert cur. induction a as [|c a IH]; intros cur.
  - reflexivity.
  - rewrite !app_cons. simpl. destruct (is_newline c).
    + simpl. f_equal. apply IH.
    + apply IH.
Qed.

Lemma file_lines_newline (a b : string) :
  file_lines (a +:+ newline +:+ b)
  = (file_lines (a +:+ newline) ++ file_lines b)%list.
Proof. apply lines_from_newline. Qed.

Lemma file_lines_one (a : string) :
  str_all (fun c => negb (is_newline c)) a = true ->
  file_lines (a +:+ newline) = [a +:+ newline].
Proof.
  intros Ha. unfold file_lines. rewrite lines_from_run, app_empty_l by assumption.
  reflexivity.
Qed.

Lemma file_lines_closed_not_nil (a : string) : file_lines (a +:+ newline) <> [].
Proof.
  intros E%file_lines_nil. destruct a; discriminate.
Qed.

(** X1: a line beginning with ['#'] anywhere after the first line
    changes nothing: the file with the comment line and the file
    without it give the same result, values or exception. *)
Theorem readsol_ignores_comment_line (before comment after : string) :
  str_all (fun c => negb (is_newline c)) comment = true ->
  readsol (before +:+ newline +:+ ("#" +:+ comment) +:+ newline +:+ after)
  = readsol (before +:+ newline +:+ after).
Proof.
  intros Hc. unfold readsol.
  rewrite (file_lines_newline before after).
  rewrite (file_lines_newline before), (file_lines_newline ("#" +:+ comment)).
  rewrite (file_lines_one ("#" +:+ comment)) by exact Hc.
  pose proof (file_lines_closed_not_nil before) as Hne.
  destruct (file_lines (before +:+ newline)) as [|first rest]; [congruence|].
  simpl. rewrite !readsol_loop_app.
  destruct (readsol_loop ∅ rest) as [values|e]; [|reflexivity].
  reflexivity.
Qed.

Lemma fold_insert_app {K : Type} `{Countable K} {V : Type}
    (ps qs : list (K * V)) (acc : gmap K V) :
  fold_left (fun d nv => <[fst nv := snd nv]> d) (ps ++ qs) acc
  = fold_left (fun d nv => <[fst nv := snd nv]> d) qs
      (fold_left (fun d nv => <[fst nv := snd nv]> d) ps acc).
Proof. apply fold_left_app. Qed.

Lemma fold_insert_sound {K : Type} `{Countable K} {V : Type}
    (ps : list (K * V)) (acc : gmap K V) (n : K) (v : V) :
  fold_left (fun d nv => <[fst nv := snd nv]> d) ps acc !! n = Some v ->
  ((n, v) ∈ ps) \/ acc !! n = Some v.
Proof.
  revert acc. induction ps as [|[m x] ps IH]; intros acc Hl; [now right|].
  simpl in Hl. destruct (IH _ Hl) as [Hin | Hacc].
  - left. apply elem_of_cons. now right.
  - destruct (decide (m = n)) as [->|Hne].
    + rewrite lookup_insert_eq in Hacc. injection Hacc as ->.
      left. apply elem_of_cons. now left.
    + rewrite lookup_insert_ne in Hacc by assumption. now right.
Qed.

Lemma fold_insert_is_Some {K : Type} `{Countable K} {V : Type}
    (ps : list (K * V)) (acc : gmap K V) (n : K) :
  n ∈ map fst ps ->
  is_Some (fold_left (fun d nv => <[fst nv := snd nv]> d) ps acc !! n).
Proof.
  revert acc. induction ps as [|[m x] ps IH]; intros acc Hin.
  - now apply elem_of_nil in Hin.
  - change (map fst ((m, x) :: ps)) with (m :: map fst ps) in Hin. simpl.
    destruct (decide (n ∈ map fst ps)) as [Hps|Hps]; [now apply IH|].
    apply elem_of_cons in Hin as [->|Hin]; [|contradiction].
    rewrite fold_insert_lookup_None by assumption.
    rewrite lookup_insert_eq. eauto.
Qed.

Lemma readsol_ok_values (text : string) st values rc sp sl :
  readsol text = Ok (st, values, rc, sp, sl) ->
  values = dict_of_pairs (entries text).
Proof.
  intros Hr. pose proof (readsol_ok_well_formed text _ Hr) as Hwf.
  destruct (decide (text = "")) as [->|Hne].
  - injection Hr as <- <- <- <- <-. reflexivity.
  - rewrite (readsol_well_formed text Hne Hwf) in Hr. now injection Hr.
Qed.

(** X2: when a name occurs on several lines, the value [readsol]
    returns for it is the one of the last of those lines. *)
Theorem readsol_last_entry_wins (text : string)
    (ps qs : list (string * F)) (n : string) (v : F) :
  well_formed text ->
  entries text = (ps ++ (n, v) :: qs)%list ->
  n ∉ map fst qs ->
  exists values,
    readsol text = Ok (LpStatusOptimal, values, ∅, ∅, ∅)
    /\ values !! n = Some v.
Proof.
  intros Hwf He Hlast.
  assert (text <> "") as Hne.
  { intros ->. destruct ps; discriminate He. }
  exists (dict_of_pairs (entries text)).
  split; [now apply readsol_well_formed|].
  unfold dict_of_pairs. rewrite He, fold_insert_app. simpl.
  rewrite fold_insert_lookup_None by assumption. apply lookup_insert_eq.
Qed.

(** X3: [readsol] invents nothing: every (name, value) of the mapping
    it returns is the entry of a line of the file after the first, and a
    name has a value exactly when some such line names it. *)
Theorem readsol_values_in_file (text : string) st values rc sp sl :
  readsol text = Ok (st, values, rc, sp, sl) ->
  (forall n v, values !! n = Some v -> (n, v) ∈ entries text)
  /\ (forall n, is_Some (values !! n) <-> n ∈ map fst (entries text)).
Proof.
  intros Hr. rewrite (readsol_ok_values _ _ _ _ _ _ Hr). unfold dict_of_pairs.
  split.
  - intros n v Hl. destruct (fold_insert_sound _ _ _ _ Hl) as [Hin|Hemp];
      [exact Hin | now rewrite lookup_empty in Hemp].
  - intros n. split.
    + intros [v Hl]. destruct (fold_insert_sound _ _ _ _ Hl) as [Hin|Hemp];
        [|now rewrite lookup_empty in Hemp].
      apply list_elem_of_In, in_map_iff. exists (n, v).
      split; [reflexivity | now apply list_elem_of_In].
    + apply fold_insert_is_Some.
Qed.

Lemma file_lines_header (header rest : string) :
  str_all (fun c => negb (is_newline c)) header = true ->
  file_lines (header +:+ newline +:+ rest)
  = (header +:+ newline) :: file_lines rest.
Proof.
  intros Hh. rewrite file_lines_newline, file_lines_one by assumption.
  reflexivity.
Qed.

(** X4: behind one header line, what [writesol] writes is read back
    whole: [readsol] returns [Optimal] and exactly the pairs written. *)
Theorem writesol_readsol_behind_header (header : string)
    (ps : list (string * F)) :
  str_all (fun c => negb (is_newline c)) header = true ->
  Forall portable ps ->
  readsol (header +:+ newline +:+ writesol_text (all_defined ps))
  = Ok (LpStatusOptimal, dict_of_pairs ps, ∅, ∅, ∅).
Proof.
  intros Hh Hps. unfold readsol, writesol_text.
  rewrite defined_values_all_defined, file_lines_header by assumption.
  rewrite readsol_loop_rows by assumption. reflexivity.
Qed.

Lemma row_tokens (n : string) (x : F) (closing : string) :
  is_token n = true -> is_token (format_num x) = true ->
  closing = "" \/ closing = newline ->
  str_split (sol_row (n, x) +:+ closing) = [n; format_num x]
  /\ str_all (fun c => negb (is_newline c)) (sol_row (n, x)) = true
  /\ sol_row (n, x) <> "".
Proof.
  intros Hn Hv Hclosing. unfold sol_row. simpl. split; [|split].
  - unfold str_split.
    rewrite !app_assoc, split_from_token by now apply token_no_space.
    rewrite app_empty_l, app_cons. simpl.
    rewrite (token_not_empty _ Hn), app_empty_l.
    rewrite split_from_token, app_empty_l by now apply token_no_space.
    destruct Hclosing as [-> | ->]; simpl; now rewrite (token_not_empty _ Hv).
  - rewrite !str_all_app, (token_no_newline _ Hn), (token_no_newline _ Hv).
    reflexivity.
  - apply token_not_empty in Hn. destruct n; [discriminate|].
    now rewrite !app_cons.
Qed.

Lemma written_rows_defined (vs : list (string * option F)) :
  written_rows vs
  = map (fun nv => [fst nv; format_num (snd nv)]) (defined_values vs).
Proof.
  induction vs as [|[n [x|]] vs IH]; [reflexivity| |exact IH].
  unfold defined_values in *. simpl. now rewrite IH.
Qed.

Lemma printable_defined_values (vs : list (string * option F)) :
  printable vs ->
  Forall (fun nv => is_token (fst nv) = true
                    /\ is_token (format_num (snd nv)) = true)
         (defined_values vs).
Proof.
  induction 1 as [|[n [x|]] vs Hnv _ IH]; [constructor| |exact IH].
  unfold defined_values in *. simpl. constructor; [|exact IH].
  now apply Hnv.
Qed.

Lemma file_lines_single_row (n : string) (x : F) :
  is_token n = true -> is_token (format_num x) = true ->
  file_lines (sol_row (n, x)) = [sol_row (n, x)].
Proof.
  intros Hn Hv.
  destruct (row_tokens n x "" Hn Hv (or_introl eq_refl)) as (_ & Hline & Hne).
  unfold file_lines. rewrite <- (app_empty_r (sol_row (n, x))) at 1.
  rewrite lines_from_run, app_empty_l by exact Hline.
  simpl. destruct (sol_row (n, x)); [congruence | reflexivity].
Qed.

(** X5: [writesol] writes one line per variable that has a value, in
    the order of the variables, and the two tokens of that line are the
    name and the printed value; a variable without a value leaves no
    line, whatever its name. *)
Theorem writesol_lines (vs : list (string * option F)) :
  printable vs ->
  map str_split (file_lines (writesol_text vs)) = written_rows vs.
Proof.
  intros Hvs%printable_defined_values. rewrite written_rows_defined.
  unfold writesol_text. revert Hvs. generalize (defined_values vs). clear vs.
  intros ps Hps. induction Hps as [|[n x] ps [Hn Hv] Hps IH]; [reflexivity|].
  simpl in Hn, Hv.
  destruct ps as [|nv' ps].
  - simpl str_join. simpl map at 2.
    rewrite file_lines_single_row by assumption.
    simpl. rewrite <- (app_empty_r (sol_row (n, x))).
    now rewrite (proj1 (row_tokens n x "" Hn Hv (or_introl eq_refl))).
  - change (str_join newline (map sol_row ((n, x) :: nv' :: ps)))
      with (sol_row (n, x) +:+ newline
            +:+ str_join newline (map sol_row (nv' :: ps))).
    rewrite file_lines_header
      by exact (proj1 (proj2 (row_tokens n x "" Hn Hv (or_introl eq_refl)))).
    change (map str_split ((sol_row (n, x) +:+ newline) :: ?l))
      with (str_split (sol_row (n, x) +:+ newline) :: map str_split l).
    rewrite (proj1 (row_tokens n x newline Hn Hv (or_intror eq_refl))).
    simpl map. f_equal. exact IH.
Qed.
End SolutionFileMore.

(** ** The command line *)

Lemma split_from_space (sp : ascii) (a tok b : string) :
  isspace sp = true ->
  split_from tok (a +:+ String sp b)
  = (split_from tok a ++ split_from "" b)%list.
Proof.
  intros Hsp. revert tok. induction a as [|c a IH]; intros tok.
  - rewrite app_empty_l. simpl. rewrite Hsp. now destruct (is_empty tok).
  - rewrite app_cons. simpl. destruct (isspace c).
    + destruct (is_empty tok); simpl; now rewrite IH.
    + apply IH.
Qed.

(** Splitting what a blank joins. *)
Lemma str_split_space (a b : string) :
  str_split (a +:+ " " +:+ b) = (str_split a ++ str_split b)%list.
Proof. apply (split_from_space " "). reflexivity. Qed.

Lemma str_split_token (t : string) : is_token t = true -> str_split t = [t].
Proof.
  intros Ht. unfold str_split. rewrite <- (app_empty_r t) at 1.
  rewrite split_from_token, app_empty_l by now apply token_no_space.
  simpl. now rewrite (token_not_empty _ Ht).
Qed.

Lemma str_split_join (toks : list string) :
  Forall (fun t => is_token t = true) toks ->
  str_split (str_join " " toks) = toks.
Proof.
  induction 1 as [|t toks Ht Htoks IH]; [reflexivity|].
  destruct toks as [|t' toks].
  - now apply str_split_token.
  - change (str_join " " (t :: t' :: toks))
      with (t +:+ " " +:+ str_join " " (t' :: toks)).
    now rewrite str_split_space, str_split_token, IH.
Qed.

Lemma is_token_prefixed (key t : string) :
  is_token key = true -> no_space t = true -> is_token (key +:+ t) = true.
Proof.
  unfold is_token, no_space. intros [Hk Hs]%andb_true_iff Ht.
  rewrite str_all_app, Hs, Ht. destruct key; [discriminate | reflexivity].
Qed.

Section CommandLine.
Context {F : Type} `{PyNum F}.
Variable sys : GUROBI_CMD.System F.
Variable s : GUROBI_CMD.self F.
Variable lp : LpProblem F.

Lemma option_tokens :
  Forall (fun kv => is_token (GUROBI_CMD.option_text kv) = true)
         (GUROBI_CMD.options s ++ GUROBI_CMD.getOptions s) ->
  Forall (fun t => is_token t = true)
         (map GUROBI_CMD.option_text (GUROBI_CMD.options s ++ GUROBI_CMD.getOptions s)).
Proof.
  induction 1; simpl; constructor; assumption.
Qed.

(** The string [actualSolve] builds splits into the documented vector. *)
Lemma cmd_split (tmpLp tmpSol tmpMst : string) :
  is_token (GUROBI_CMD.path s) = true ->
  Forall (fun kv => is_token (GUROBI_CMD.option_text kv) = true)
         (GUROBI_CMD.options s ++ GUROBI_CMD.getOptions s) ->
  is_token tmpLp = true -> no_space tmpSol = true -> no_space tmpMst = true ->
  let cmd1 :=
    (GUROBI_CMD.path s +:+ " "
       +:+ str_join " " (map GUROBI_CMD.option_text
                           (GUROBI_CMD.options s ++ GUROBI_CMD.getOptions s)))
    +:+ " ResultFile=" +:+ tmpSol in
  str_split ((cmd1 +:+ " InputFile=" +:+ tmpMst) +:+ " " +:+ tmpLp)
  = ([GUROBI_CMD.path s]
     ++ map GUROBI_CMD.option_text (GUROBI_CMD.options s ++ GUROBI_CMD.getOptions s)
     ++ ["ResultFile=" +:+ tmpSol] ++ ["InputFile=" +:+ tmpMst] ++ [tmpLp])%list
  /\ str_split (cmd1 +:+ " " +:+ tmpLp)
     = ([GUROBI_CMD.path s]
        ++ map GUROBI_CMD.option_text (GUROBI_CMD.options s ++ GUROBI_CMD.getOptions s)
        ++ ["ResultFile=" +:+ tmpSol] ++ [tmpLp])%list.
Proof.
  intros Hp Ho Hl Hs Hm cmd1.
  assert (str_split cmd1
          = ([GUROBI_CMD.path s]
             ++ map GUROBI_CMD.option_text
                  (GUROBI_CMD.options s ++ GUROBI_CMD.getOptions s)
             ++ ["ResultFile=" +:+ tmpSol])%list) as H1.
  { unfold cmd1.
    change (" ResultFile=" +:+ tmpSol) with (" " +:+ "ResultFile=" +:+ tmpSol).
    rewrite !str_split_space, (str_split_token _ Hp).
    rewrite (str_split_join _ (option_tokens Ho)).
    rewrite str_split_token by now apply is_token_prefixed.
    now rewrite <- !List.app_assoc. }
  split.
  - change (" InputFile=" +:+ tmpMst) with (" " +:+ "InputFile=" +:+ tmpMst).
    rewrite !str_split_space, H1, (str_split_token _ Hl).
    rewrite str_split_token by now apply is_token_prefixed.
    now rewrite <- !List.app_assoc.
  - rewrite str_split_space, H1, (str_split_token _ Hl).
    now rewrite <- !List.app_assoc.
Qed.
End CommandLine.

(** ** The command-line adapter: every path of a solve *)

Section SolvePaths.
Context {F : Type} `{PyNum F}.
Variable sys : GUROBI_CMD.System F.
Variable s : GUROBI_CMD.self F.
Variable lp : LpProblem F.

Lemma readsol_status (text : string) st values rc sp sl :
  readsol text = Ok (st, values, rc, sp, sl) ->
  (st = LpStatusNotSolved /\ values = ∅) \/ st = LpStatusOptimal.
Proof.
  unfold readsol. destruct (file_lines text) as [|first rest].
  - intros [= <- <- <- <- <-]. now left.
  - simpl. destruct (readsol_loop ∅ rest); [|discriminate].
    intros [= <- <- <- <- <-]. now right.
Qed.

(** No handle is opened or closed at the end of a run. *)
Lemma no_pipe_among_calls (k : nat) (st : LpStatus)
    (values rc sp sl : option (gmap string F)) :
  List.filter is_pipe_open (take k (calls_for st values rc sp sl)) = []
  /\ List.filter is_pipe_close (take k (calls_for st values rc sp sl)) = [].
Proof.
  unfold calls_for. destruct (bool_decide (st <> LpStatusInfeasible));
    destruct k as [|[|[|[|[|[|k]]]]]]; split; reflexivity.
Qed.

Ltac cmd_unfold :=
  cbv zeta; rewrite ?(actualSolve_paths sys s lp);
  unfold solve_paths, world_after_call, files_at_call, command_text, logged,
    GUROBI_CMD.initial, available, command_line, prelude, epilogue,
    cannot_execute, execution_failed, last_events, events_before_last.

Ltac cmd_parsed :=
  match goal with
  | E : readsol _ = Ok _ |- _ =>
      destruct (readsol_other_mappings _ _ _ _ _ _ E) as (-> & -> & ->);
      destruct (readsol_status _ _ _ _ _ _ E) as [[-> ->] | ->]
  end; simpl.

Ltac cmd_unparsed :=
  match goal with
  | E : readsol _ = Raise ?e |- _ =>
      pose proof (readsol_raise _ _ E); subst e
  end.

Ltac cmd_file :=
  match goal with
  | |- context [readsol ?t] =>
      destruct (readsol t) as [[[[[st values] rcs] sps] sls]|err] eqn:Eread
  end; simpl; [cmd_parsed | cmd_unparsed].

Ltac cmd_code :=
  match goal with
  | |- context [@lookup string string (gmap string string) _ ?k ?m] =>
      destruct (m !! k) as [text|] eqn:Esol
  end; simpl; [cmd_file | idtac].

Ltac cmd_run :=
  match goal with
  | |- context [GUROBI_CMD.run sys ?a ?f] =>
      destruct (GUROBI_CMD.run sys a f) as [rc fs'] eqn:Erun
  end; simpl;
  match goal with
  | |- context [(?code =? 0)] => destruct (code =? 0) eqn:Erc
  end; simpl; [cmd_code | idtac].

(** The paths of [actualSolve] from a fresh world: executable missing;
    exit code not zero; no solution file; solution file empty, parsed,
    or malformed. *)
Ltac cmd_paths :=
  cmd_unfold;
  destruct (GUROBI_CMD.create_tmp_files sys (lp_name lp))
    as [[tmpLp tmpSol] tmpMst];
  destruct (GUROBI_CMD.executable sys (GUROBI_CMD.path s)) eqn:Eexe; simpl;
  [ destruct (GUROBI_CMD.warmStart s), (isMIP lp), (GUROBI_CMD.mip s),
      (GUROBI_CMD.msg s); simpl; cmd_run
  | idtac ].

(** The world a run ends in, whichever assign* call was the last. *)
Ltac cmd_end :=
  try match goal with
      | |- context [finished sys lp ?a ?b ?c ?st ?v ?r ?p ?l ?w] =>
          let k := fresh "k" in
          let Hk := fresh "Hk" in
          destruct (finished_world sys lp a b c st v r p l w) as [k Hk];
          rewrite ?Hk; simpl
      end.

Ltac cmd_in Hin :=
  repeat first
    [ apply elem_of_nil in Hin; contradiction
    | apply not_among_calls in Hin; discriminate Hin
    | apply elem_of_cons in Hin as [Hin|Hin]; [try discriminate Hin|] ].

(** X7: when the path of the executable, the options and the
    temporary names hold no whitespace, the vector passed to the
    subprocess is the executable, one [key=value] per option (the raw
    options, then the mapped ones), [ResultFile=] with the solution
    file, [InputFile=] with the warm-start file exactly when a warm
    start is asked for, and the problem file last; the output is
    silenced exactly when [msg] is off. *)
Theorem actualSolve_command_line (fs : gmap string string)
    (argv : list string) (silenced : bool) (code : Z) :
  let '(tmpLp, tmpSol, tmpMst) :=
    GUROBI_CMD.create_tmp_files sys (lp_name lp) in
  is_token (GUROBI_CMD.path s) = true ->
  Forall (fun kv => is_token (GUROBI_CMD.option_text kv) = true)
         (GUROBI_CMD.options s ++ GUROBI_CMD.getOptions s) ->
  is_token tmpLp = true -> no_space tmpSol = true -> no_space tmpMst = true ->
  GUROBI_CMD.SubprocessCall argv silenced code
    ∈ GUROBI_CMD.trace
        (snd (GUROBI_CMD.actualSolve sys s lp (GUROBI_CMD.initial fs))) ->
  argv = command_line s tmpLp tmpSol tmpMst
  /\ silenced = negb (GUROBI_CMD.msg s).
Proof.
  cmd_paths; cmd_end; intros Hp Ho Hl Hs Hm Hin; cmd_in Hin;
    injection Hin as -> -> ->; (split; [|reflexivity]);
    destruct (cmd_split s tmpLp tmpSol tmpMst Hp Ho Hl Hs Hm) as [Hwarm Hcold];
    first [exact Hwarm | exact Hcold].
Qed.

(** X8: when the executable is there, the adapter, before it calls it
    and in this order, writes the problem file, removes a stale
    solution file, writes the warm-start file if a warm start is asked
    for, warns if the problem is a MIP and [mip] is off, and opens the
    null device if [msg] is off. *)
Theorem actualSolve_before_the_call (fs : gmap string string) :
  let '(tmpLp, tmpSol, tmpMst) :=
    GUROBI_CMD.create_tmp_files sys (lp_name lp) in
  available sys s = true ->
  exists argv code rest,
    GUROBI_CMD.trace
      (snd (GUROBI_CMD.actualSolve sys s lp (GUROBI_CMD.initial fs)))
    = (prelude s lp tmpLp tmpSol tmpMst
       ++ GUROBI_CMD.SubprocessCall argv (negb (GUROBI_CMD.msg s)) code :: rest)%list.
Proof.
  cmd_paths; cmd_end; intros Hav; try discriminate Hav;
    eexists _, _, _; reflexivity.
Qed.

(** X9: [actualSolve] raises the error of a missing executable
    exactly when [available] is false, and then it has done nothing:
    no file written, no subprocess called, no event at all. *)
Theorem actualSolve_cannot_execute (fs : gmap string string) :
  let out := GUROBI_CMD.actualSolve sys s lp (GUROBI_CMD.initial fs) in
  (available sys s = false <-> fst out = Raise (cannot_execute s))
  /\ (available sys s = false -> snd out = GUROBI_CMD.initial fs).
Proof.
  cmd_paths; (split; [split|]); intros Hx; try reflexivity; try discriminate Hx.
  all: exfalso;
    try match type of Hx with
        | context [finished sys lp ?a ?b ?c ?st ?v ?r ?p ?l ?w] =>
            destruct (finished sys lp a b c st v r p l w) as [[st'|e] w'] eqn:Hf;
            [discriminate Hx|];
            apply finished_Raise in Hf as (_ & _ & _ & [|] & _ & _ & _ & -> & _);
            discriminate Hx
        end;
    injection Hx as Hx; revert Hx;
    rewrite !app_cons; intros Hx; discriminate Hx.
Qed.

(** X10: whatever happens after the call of the executable, the
    handle on the null device is closed when [actualSolve] ends: it is
    opened once when the executable is there and [msg] is off, never
    otherwise, and closed as often as opened. *)
Theorem actualSolve_pipe_closed (fs : gmap string string) :
  let out := GUROBI_CMD.actualSolve sys s lp (GUROBI_CMD.initial fs) in
  GUROBI_CMD.open_pipes (snd out) = 0%nat
  /\ length (List.filter is_pipe_open (GUROBI_CMD.trace (snd out)))
     = length (List.filter is_pipe_close (GUROBI_CMD.trace (snd out)))
  /\ length (List.filter is_pipe_open (GUROBI_CMD.trace (snd out)))
     = if available sys s && negb (GUROBI_CMD.msg s) then 1%nat else 0%nat.
Proof.
  cmd_paths; cmd_end;
    try match goal with
        | |- context [take ?k (calls_for ?st ?v ?r ?p ?l)] =>
            destruct (no_pipe_among_calls k st v r p l) as [-> ->]
        end;
    repeat split; try reflexivity;
    destruct (GUROBI_CMD.msg s); reflexivity.
Qed.

(** X11: when [actualSolve] returns, the status is [Optimal] or
    [NotSolved], never another one; the run ends with
    [delete_tmp_files] on the three temporary files and [gurobi.log],
    the four assignments and [assignStatus], in this order, and nothing
    was assigned or deleted before. *)
Theorem actualSolve_returns (fs : gmap string string) (status : LpStatus)
    (w' : GUROBI_CMD.World F) :
  let '(tmpLp, tmpSol, tmpMst) :=
    GUROBI_CMD.create_tmp_files sys (lp_name lp) in
  GUROBI_CMD.actualSolve sys s lp (GUROBI_CMD.initial fs) = (Ok status, w') ->
  (status = LpStatusOptimal \/ status = LpStatusNotSolved)
  /\ (exists values rc sp sl,
        last_events 6 (GUROBI_CMD.trace w')
        = epilogue tmpLp tmpSol tmpMst status values rc sp sl)
  /\ existsb GUROBI_CMD.is_assign (events_before_last 6 (GUROBI_CMD.trace w')) = false
  /\ existsb GUROBI_CMD.is_delete (events_before_last 6 (GUROBI_CMD.trace w')) = false.
Proof.
  cmd_paths; intros Hrun; try discriminate Hrun;
    apply finished_Ok in Hrun as [-> ->]; simpl;
    (split; [auto|]); (split; [|split; reflexivity]);
    eexists _, _, _, _; reflexivity.
Qed.

Lemma no_assign_Forall (P : GUROBI_CMD.Event F -> Prop)
    (tr : list (GUROBI_CMD.Event F)) :
  existsb GUROBI_CMD.is_assign tr = false ->
  Forall (fun ev => GUROBI_CMD.is_assign ev = true -> P ev) tr.
Proof.
  induction tr as [|ev tr IH]; simpl; [constructor|].
  intros Hno. apply orb_false_iff in Hno as [Hev Htr].
  constructor; [|now apply IH]. rewrite Hev. discriminate.
Qed.

Lemma events_before_last_snoc (tr : list (GUROBI_CMD.Event F))
    (e : GUROBI_CMD.Event F) :
  events_before_last 1 (tr ++ [e]) = tr.
Proof.
  unfold events_before_last. rewrite length_app. simpl.
  replace (length tr + 1 - 1)%nat with (length tr) by lia.
  apply take_app_length.
Qed.

(** A run that ends in an exception of an assign* call. *)
Lemma finished_Raise_trace (tmpLp tmpSol tmpMst : string) (st : LpStatus)
    (values rc sp sl : option (gmap string F)) (w w' : GUROBI_CMD.World F)
    (e : PyError) :
  finished sys lp tmpLp tmpSol tmpMst st values rc sp sl w = (Raise e, w') ->
  existsb GUROBI_CMD.is_assign (GUROBI_CMD.trace w) = false ->
  exists call f tail,
    GUROBI_CMD.trace w'
    = (GUROBI_CMD.trace w
       ++ GUROBI_CMD.DeleteTmpFiles [tmpLp; tmpMst; tmpSol; "gurobi.log"]
          :: tail)%list
    /\ last (GUROBI_CMD.trace w') = Some call
    /\ GUROBI_CMD.is_assign call = true
    /\ GUROBI_CMD.assign_raises sys lp call = Some f
    /\ e = GUROBI_CMD.raised f
    /\ Forall (fun ev => GUROBI_CMD.is_assign ev = true ->
                         GUROBI_CMD.assign_raises sys lp ev = None)
              (events_before_last 1 (GUROBI_CMD.trace w'))
    /\ (st <> LpStatusInfeasible -> GUROBI_CMD.AssignVarsVals values ∈ tail).
Proof.
  intros Hrun Hno.
  apply finished_Raise in Hrun
    as (before & call & after & f & Hs & Hb & Hf & -> & ->).
  exists call, f, (before ++ [call])%list. cbn [GUROBI_CMD.trace].
  pose proof (calls_for_assign st values rc sp sl) as Hall.
  rewrite Hs in Hall. apply Forall_app in Hall as [_ Hall].
  apply Forall_cons in Hall as [Hcall _].
  change (GUROBI_CMD.trace w
          ++ GUROBI_CMD.DeleteTmpFiles [tmpLp; tmpMst; tmpSol; "gurobi.log"]
             :: before ++ [call])%list
    with (GUROBI_CMD.trace w
          ++ (GUROBI_CMD.DeleteTmpFiles [tmpLp; tmpMst; tmpSol; "gurobi.log"]
              :: before) ++ [call])%list.
  rewrite List.app_assoc, last_snoc, events_before_last_snoc.
  repeat split; try assumption.
  - apply Forall_app. split; [now apply no_assign_Forall|].
    constructor; [discriminate|].
    eapply Forall_impl; [exact Hb|]. now intros ev Hev _.
  - intros Hst. unfold calls_for in Hs.
    rewrite (bool_decide_eq_true_2 _ Hst) in Hs.
    destruct before as [|b before]; simpl in Hs; injection Hs as <-.
    + now left.
    + now left.
Qed.

Ltac cmd_early :=
  left; (split; [reflexivity|]); (split; [reflexivity|]); (split; [auto|]);
  split; first [discriminate | reflexivity].

Ltac cmd_late Hrun :=
  let call := fresh "call" in
  let f := fresh "f" in
  let tail := fresh "tail" in
  let Htr := fresh "Htr" in
  let Hfirst := fresh "Hfirst" in
  apply finished_Raise_trace in Hrun
    as (call & f & tail & Htr & ? & ? & ? & ? & ? & Hfirst); [|reflexivity];
  right; exists call, f;
  repeat (split; [assumption|]);
  rewrite Htr;
  (split; [apply elem_of_app; right; left|]);
  first [ rewrite existsb_app; simpl; discriminate
        | intros _; apply elem_of_app; right; right; apply Hfirst; discriminate ].

(** X12: an exception of [actualSolve] is raised either before any
    assign* call or by one.  Before: it is the error of a missing
    executable, the error of a failed execution or the [ValueError] of
    the parser, the last one exactly when the solution file was read,
    and then nothing was assigned onto the problem and no temporary
    file was deleted.  By an assign* call: it is what that call, the
    last one made, raised, every earlier assign* call returned, and
    [delete_tmp_files] has been called on the three temporary files and
    [gurobi.log]; without a solution file read, [assignVarsVals] was
    called with [None]. *)
Theorem actualSolve_raises (fs : gmap string string) (e : PyError)
    (w' : GUROBI_CMD.World F) :
  let '(tmpLp, tmpSol, tmpMst) :=
    GUROBI_CMD.create_tmp_files sys (lp_name lp) in
  GUROBI_CMD.actualSolve sys s lp (GUROBI_CMD.initial fs) = (Raise e, w') ->
  (existsb GUROBI_CMD.is_assign (GUROBI_CMD.trace w') = false
   /\ existsb GUROBI_CMD.is_delete (GUROBI_CMD.trace w') = false
   /\ (e = cannot_execute s \/ e = execution_failed s \/ e = ValueError)
   /\ (e = ValueError <-> existsb GUROBI_CMD.is_read (GUROBI_CMD.trace w') = true))
  \/ (exists (call : GUROBI_CMD.Event F) (f : GUROBI_CMD.AssignError),
        last (GUROBI_CMD.trace w') = Some call
        /\ GUROBI_CMD.is_assign call = true
        /\ GUROBI_CMD.assign_raises sys lp call = Some f
        /\ e = GUROBI_CMD.raised f
        /\ Forall (fun ev => GUROBI_CMD.is_assign ev = true ->
                             GUROBI_CMD.assign_raises sys lp ev = None)
                  (events_before_last 1 (GUROBI_CMD.trace w'))
        /\ GUROBI_CMD.DeleteTmpFiles [tmpLp; tmpMst; tmpSol; "gurobi.log"]
             ∈ GUROBI_CMD.trace w'
        /\ (existsb GUROBI_CMD.is_read (GUROBI_CMD.trace w') = false ->
            GUROBI_CMD.AssignVarsVals None ∈ GUROBI_CMD.trace w')).
Proof.
  cmd_paths; intros Hrun;
    first [ injection Hrun as <- <-; simpl; cmd_early | cmd_late Hrun ].
Qed.
End SolvePaths.

(** ** The options of the command line *)

Section Options.
Context {F : Type} `{PyNum F}.

(** X6: [getOptions] emits, in this order, [LogFile] with the value of
    [logPath], [TimeLimit] with that of [timeLimit], [MIPGap] with that
    of [gapRel], [MIPGapAbs] with that of [gapAbs] and [Threads] with
    that of [threads], each one exactly when the configuration holds
    the key; nothing else, and no parameter twice. *)
Theorem getOptions_emitted (s : GUROBI_CMD.self F) :
  let emitted (key native : string) : list (string * PyVal F) :=
    match GUROBI_CMD.optionsDict s !! key with
    | Some v => [(native, v)]
    | None => []
    end in
  GUROBI_CMD.getOptions s
  = (emitted "logPath" "LogFile" ++ emitted "timeLimit" "TimeLimit"
     ++ emitted "gapRel" "MIPGap" ++ emitted "gapAbs" "MIPGapAbs"
     ++ emitted "threads" "Threads")%list
  /\ NoDup (map fst (GUROBI_CMD.getOptions s)).
Proof.
  unfold GUROBI_CMD.getOptions, GUROBI_CMD.params_eq. simpl.
  destruct (GUROBI_CMD.optionsDict s !! "logPath");
    destruct (GUROBI_CMD.optionsDict s !! "timeLimit");
    destruct (GUROBI_CMD.optionsDict s !! "gapRel");
    destruct (GUROBI_CMD.optionsDict s !! "gapAbs");
    destruct (GUROBI_CMD.optionsDict s !! "threads"); simpl;
    (split; [reflexivity|]);
    apply (bool_decide_unpack _); vm_compute; exact I.
Qed.
End Options.

(** ** The in-process adapter: more on reading the solution *)

Section ZipFacts.
Context {F : Type}.

Lemma assign_zip_lookup {A : Type} (write : A -> F -> A)
    (objs : list A) (values : list F) (i : nat) :
  assign_zip write objs values !! i
  = match objs !! i with
    | Some o => Some (match values !! i with
                      | Some x => write o x
                      | None => o
                      end)
    | None => None
    end.
Proof.
  revert values i. induction objs as [|o objs IH]; intros values i.
  - now destruct values.
  - destruct values as [|x values]; destruct i as [|i]; simpl; try reflexivity.
    + now destruct (objs !! i).
    + apply IH.
Qed.

Lemma lookup_map {A B : Type} (f : A -> B) (l : list A) (i : nat) :
  map f l !! i = f <$> l !! i.
Proof.
  revert i. induction l as [|x l IH]; intros [|i]; simpl; auto.
Qed.
End ZipFacts.

Section FindSolutionValuesMore.
Context {F : Type}.
Variable gurobipy : Gurobipy F.

(** X13: a variable beyond the columns of the native model (the zip
    of [findSolutionValues] stops at the shorter list) keeps the value
    and the reduced cost it had, whatever the status; its [isModified]
    flag is cleared all the same. *)
Theorem findSolutionValues_beyond_columns (s : GUROBI.self F)
    (lp : LpProblem F) (model : GModel F) (i : nat) (var : LpVariable F) :
  solverModel lp = Some model ->
  variables lp !! i = Some var ->
  (length (gvars model) <= i)%nat ->
  exists var',
    variables (GUROBI.problem (GUROBI.findSolutionValues gurobipy s lp)) !! i
      = Some var'
    /\ varValue var' = varValue var /\ dj var' = dj var
    /\ isModified var' = false.
Proof.
  intros Hm Hi Hshort. unfold GUROBI.findSolutionValues. rewrite Hm.
  assert (forall attr, getAttr_vars attr model !! i = None) as Hnone.
  { intros attr. apply lookup_ge_None. unfold getAttr_vars.
    now rewrite length_map. }
  destruct (bool_decide _); simpl.
  - exists (set_isModified false var). rewrite lookup_map, Hi. auto.
  - unfold GUROBI.populate. destruct (IsMIP model =? 0); simpl.
    + exists (set_isModified false var).
      rewrite !assign_zip_lookup, !Hnone, lookup_map, Hi. auto.
    + exists (set_isModified false var).
      rewrite !assign_zip_lookup, !Hnone, lookup_map, Hi. auto.
Qed.
End FindSolutionValuesMore.

(** ** The in-process adapter: the constraints of the native model *)

Section BuildConstraints.
Context {F : Type} `{PyNum F}.
Variable gurobipy : Gurobipy F.
Variable s : GUROBI.self F.
Variable lp : LpProblem F.

Lemma addVariables_attached (vars : list (LpVariable F)) (m : GModel F) :
  map name (fst (GUROBI.addVariables gurobipy s lp vars m)) = map name vars
  /\ Forall attached_var (fst (GUROBI.addVariables gurobipy s lp vars m)).
Proof.
  revert m. induction vars as [|var vars IH]; intros m.
  - split; [reflexivity | constructor].
  - simpl.
    match goal with
    | |- context [GUROBI.addVariables gurobipy s lp vars ?m1] =>
        specialize (IH m1);
        destruct (GUROBI.addVariables gurobipy s lp vars m1) as [rest' m2]
    end.
    simpl in *. destruct IH as [Hn Ha]. split; [now rewrite Hn|].
    constructor; [|exact Ha]. eexists. split; reflexivity.
Qed.

(** The columns added are the native variables of the variables, in order. *)
Lemma addVariables_columns (vars : list (LpVariable F)) (m : GModel F) :
  gvars (snd (GUROBI.addVariables gurobipy s lp vars m))
  = (gvars m
     ++ imap (fun i var => native_var gurobipy s lp (length (gvars m) + i) var)
          vars)%list.
Proof.
  revert m. induction vars as [|var vars IH]; intros m.
  - simpl. now rewrite List.app_nil_r.
  - simpl.
    match goal with
    | |- context [GUROBI.addVariables gurobipy s lp vars ?m1] =>
        specialize (IH m1);
        destruct (GUROBI.addVariables gurobipy s lp vars m1) as [rest' m2]
    end.
    simpl in *. rewrite IH, <- List.app_assoc. f_equal. simpl.
    rewrite Nat.add_0_r. f_equal. apply imap_ext. intros i v _. simpl.
    rewrite length_app. simpl. f_equal. lia.
Qed.

Lemma linExpr_names (vars : list (LpVariable F)) (coefs : list (string * F))
    (e : list (F * GVar F)) :
  Forall attached_var vars ->
  GUROBI.linExpr vars coefs = Ok e ->
  map fst e = map snd coefs
  /\ map (fun t => gv_name (snd t)) e = map fst coefs.
Proof.
  intros Hatt. revert e. induction coefs as [|[vname coef] coefs IH]; intros e He.
  - injection He as <-. split; reflexivity.
  - simpl in He.
    destruct (List.find _ vars) as [v|] eqn:Efind; [|discriminate].
    destruct (solverVar v) as [g|] eqn:Eg; [|discriminate].
    destruct (GUROBI.linExpr vars coefs) as [e'|]; [|discriminate].
    injection He as <-. destruct (IH e' eq_refl) as [H1 H2].
    apply find_some in Efind as [Hin Heq]. apply String.eqb_eq in Heq.
    rewrite Forall_forall in Hatt.
    destruct (Hatt v (proj2 (list_elem_of_In _ _) Hin)) as (g' & Hg' & Hname).
    rewrite Eg in Hg'. injection Hg' as <-.
    simpl. rewrite H1, H2, Hname, Heq. split; reflexivity.
Qed.

Lemma linExpr_known (vars : list (LpVariable F)) (coefs : list (string * F)) :
  Forall attached_var vars ->
  Forall (fun nc : string * F => fst nc ∈ map name vars) coefs ->
  exists e, GUROBI.linExpr vars coefs = Ok e.
Proof.
  intros Hatt. induction 1 as [|[vname coef] coefs Hin _ [e He]]; [now eexists|].
  simpl in *.
  destruct (List.find (fun v => String.eqb (name v) vname) vars) as [v|] eqn:Efind.
  - apply find_some in Efind as [Hv _].
    rewrite Forall_forall in Hatt.
    destruct (Hatt v (proj2 (list_elem_of_In _ _) Hv)) as (g & -> & _).
    rewrite He. eauto.
  - exfalso. apply list_elem_of_In, in_map_iff in Hin as (v & Hname & Hv).
    pose proof (find_none _ _ Efind v Hv) as Hfalse. simpl in Hfalse.
    rewrite Hname, String.eqb_refl in Hfalse. discriminate.
Qed.

(** The rows added on a successful loop, one per constraint, in order. *)
Lemma addConstraints_rows (vars : list (LpVariable F))
    (cs cs' : list (string * LpConstraint F)) (m m' : GModel F) :
  GUROBI.addConstraints vars cs m = (Ok tt, cs', m') ->
  exists rows,
    gconstrs m' = (gconstrs m ++ rows)%list
    /\ length rows = length cs
    /\ forall i nm c, cs !! i = Some (nm, c) ->
         exists expr rel,
           GUROBI.linExpr vars (coefficients c) = Ok expr
           /\ relation_of (sense c) = Some rel
           /\ cs' !! i
              = Some (nm, set_solverConstraint c
                            {| gc_index := length (gconstrs m) + i;
                               gc_expr := expr; gc_relation := rel;
                               gc_rhs := num_neg (constant c); gc_name := nm |})
           /\ rows !! i
              = Some {| gc_index := length (gconstrs m) + i;
                        gc_expr := expr; gc_relation := rel;
                        gc_rhs := num_neg (constant c); gc_name := nm |}.
Proof.
  revert m cs'. induction cs as [|[nm0 c0] cs IH]; intros m cs' Hrun.
  - injection Hrun as <- <-. exists []. rewrite List.app_nil_r.
    repeat split. intros i nm c Hi. discriminate.
  - simpl in Hrun.
    destruct (GUROBI.linExpr vars (coefficients c0)) as [expr0|] eqn:Eexpr;
      [|discriminate].
    assert (exists rel0, relation_of (sense c0) = Some rel0
              /\ exists rest' ,
                   GUROBI.addConstraints vars cs
                     (snd (GUROBI.addConstr expr0 rel0
                             (num_neg (constant c0)) nm0 m))
                   = (Ok tt, rest', m')
                   /\ cs' = (nm0, set_solverConstraint c0
                               (fst (GUROBI.addConstr expr0 rel0
                                       (num_neg (constant c0)) nm0 m))) :: rest')
      as (rel0 & Hrel & rest' & Hrest & ->).
    { destruct (sense c0); try discriminate;
        (eexists; split; [reflexivity|]);
        simpl in *;
        match type of Hrun with
        | context [GUROBI.addConstraints vars cs ?m1] =>
            destruct (GUROBI.addConstraints vars cs m1) as [[r rest'] m2]
        end;
        injection Hrun as -> <- <-; eauto. }
    destruct (IH _ _ Hrest) as (rows & Hrows & Hlen & Hat).
    simpl in Hrows, Hat. rewrite length_app in Hat. simpl in Hat.
    eexists (_ :: rows). split; [|split].
    + rewrite Hrows, <- List.app_assoc. reflexivity.
    + simpl. now rewrite Hlen.
    + intros [|i] nm c Hi; simpl in Hi.
      * injection Hi as <- <-. exists expr0, rel0.
        rewrite Nat.add_0_r. repeat split; assumption.
      * destruct (Hat i nm c Hi) as (expr & rel & He & Hr & Hc & Hrow).
        exists expr, rel.
        replace (length (gconstrs m) + S i)%nat
          with (length (gconstrs m) + 1 + i)%nat by lia.
        repeat split; assumption.
Qed.

(** The loop over the constraints ends well exactly when every sense
    is known, once every expression can be built. *)
Lemma addConstraints_returned (vars : list (LpVariable F))
    (cs : list (string * LpConstraint F)) (m : GModel F) :
  Forall (fun kc : string * LpConstraint F =>
            exists e, GUROBI.linExpr vars (coefficients (snd kc)) = Ok e) cs ->
  fst (fst (GUROBI.addConstraints vars cs m))
  = if forallb (fun kc : string * LpConstraint F =>
                  bool_decide (is_Some (relation_of (sense (snd kc))))) cs
    then Ok tt
    else Raise (PulpSolverError "Detected an invalid constraint type").
Proof.
  intros Hexpr. revert m.
  induction Hexpr as [|[nm c] cs [e He] _ IH]; intros m; [reflexivity|].
  simpl in *. rewrite He.
  destruct (sense c); simpl; try reflexivity;
    match goal with
    | |- context [GUROBI.addConstraints vars cs ?m1] =>
        specialize (IH m1);
        destruct (GUROBI.addConstraints vars cs m1) as [[r rest'] m2]
    end; exact IH.
Qed.

Lemma buildSolverModel_unfold :
  exists vars m1 r cs m2,
    GUROBI.addVariables gurobipy s lp (variables lp)
      (GUROBI.configured_model gurobipy s lp) = (vars, m1)
    /\ GUROBI.addConstraints vars (constraints lp) m1 = (r, cs, m2)
    /\ GUROBI.buildSolverModel gurobipy s lp
       = {| GUROBI.returned := r;
            GUROBI.problem :=
              set_solverModel m2 (set_constraints cs (set_variables vars lp));
            GUROBI.printed := [] |}.
Proof.
  unfold GUROBI.buildSolverModel.
  destruct (GUROBI.addVariables gurobipy s lp (variables lp) _) as [vars m1].
  simpl.
  destruct (GUROBI.addConstraints vars (constraints lp) m1) as [[r cs] m2] eqn:E.
  exists vars, m1, r, cs, m2. split; [reflexivity|]. split; [exact E | reflexivity].
Qed.

(** X14: when [buildSolverModel] returns, every constraint carries as
    [solverConstraint] (and is otherwise as it was) a native
    constraint held by the native model, of the constraint's name, with the relation of its sense, minus its constant as
    right-hand side, and an expression whose coefficients are the
    constraint's and whose native variables bear the names the
    constraint mentions. *)
Theorem buildSolverModel_constraints (i : nat) (nm : string)
    (c : LpConstraint F) :
  GUROBI.returned (GUROBI.buildSolverModel gurobipy s lp) = Ok tt ->
  constraints lp !! i = Some (nm, c) ->
  exists (g : GConstr F) (m : GModel F) (rel : GRB_relation)
         (c' : LpConstraint F),
    constraints (GUROBI.problem (GUROBI.buildSolverModel gurobipy s lp)) !! i
      = Some (nm, c')
    /\ solverConstraint c' = Some g
    /\ same_but_solverConstraint c c'
    /\ solverModel (GUROBI.problem (GUROBI.buildSolverModel gurobipy s lp))
       = Some m
    /\ g ∈ gconstrs m
    /\ relation_of (sense c) = Some rel /\ gc_relation g = rel
    /\ gc_rhs g = num_neg (constant c)
    /\ gc_name g = nm
    /\ map fst (gc_expr g) = map snd (coefficients c)
    /\ map (fun t => gv_name (snd t)) (gc_expr g) = map fst (coefficients c).
Proof.
  destruct buildSolverModel_unfold as (vars & m1 & r & cs & m2 & Hv & Hc & ->).
  simpl. intros -> Hi.
  destruct (addConstraints_rows _ _ _ _ _ Hc) as (rows & Hrows & _ & Hat).
  destruct (Hat i nm c Hi) as (expr & rel & He & Hr & Hcs & Hrow).
  pose proof (addVariables_attached (variables lp)
                (GUROBI.configured_model gurobipy s lp)) as [_ Hatt].
  rewrite Hv in Hatt. simpl in Hatt.
  destruct (linExpr_names _ _ _ Hatt He) as [Hcoef Hnames].
  eexists _, m2, rel, _. split; [exact Hcs|]. split; [reflexivity|].
  split; [repeat split|]. split; [reflexivity|].
  split.
  { rewrite Hrows. apply elem_of_app. right.
    eapply list_elem_of_lookup_2. exact Hrow. }
  simpl. repeat split; assumption.
Qed.

Lemma senses_known_spec (cs : list (string * LpConstraint F)) :
  senses_known cs = true
  <-> Forall (fun kc : string * LpConstraint F =>
                is_Some (relation_of (sense (snd kc)))) cs.
Proof.
  unfold senses_known. rewrite forallb_forall, Forall_forall. split.
  - intros Hb kc Hkc. eapply bool_decide_eq_true_1, Hb. now apply list_elem_of_In.
  - intros Hp kc Hkc. apply bool_decide_eq_true_2, Hp. now apply list_elem_of_In.
Qed.

Lemma buildSolverModel_returned :
  known_variables lp ->
  GUROBI.returned (GUROBI.buildSolverModel gurobipy s lp)
  = if senses_known (constraints lp) then Ok tt
    else Raise (PulpSolverError "Detected an invalid constraint type").
Proof.
  intros Hknown.
  destruct buildSolverModel_unfold as (vars & m1 & r & cs & m2 & Hv & Hc & ->).
  simpl.
  pose proof (addVariables_attached (variables lp)
                (GUROBI.configured_model gurobipy s lp)) as [Hnames Hatt].
  rewrite Hv in Hnames, Hatt. simpl in Hnames, Hatt.
  assert (Forall (fun kc : string * LpConstraint F =>
                    exists e, GUROBI.linExpr vars (coefficients (snd kc)) = Ok e)
                 (constraints lp)) as Hexpr.
  { unfold known_variables in Hknown. rewrite <- Hnames in Hknown.
    eapply Forall_impl; [exact Hknown|]. intros kc Hkc.
    now apply linExpr_known. }
  pose proof (addConstraints_returned vars (constraints lp) m1 Hexpr) as Hret.
  rewrite Hc in Hret. exact Hret.
Qed.

(** X15: when every variable the constraints mention is a variable of
    the problem, [buildSolverModel] returns exactly when every
    constraint has one of the three senses, and raises
    [PulpSolverError] for an invalid constraint type otherwise. *)
Theorem buildSolverModel_invalid_sense :
  known_variables lp ->
  (GUROBI.returned (GUROBI.buildSolverModel gurobipy s lp) = Ok tt
   <-> Forall (fun kc : string * LpConstraint F =>
                 is_Some (relation_of (sense (snd kc)))) (constraints lp))
  /\ (~ Forall (fun kc : string * LpConstraint F =>
                  is_Some (relation_of (sense (snd kc)))) (constraints lp) ->
      GUROBI.returned (GUROBI.buildSolverModel gurobipy s lp)
      = Raise (PulpSolverError "Detected an invalid constraint type")).
Proof.
  intros Hknown. rewrite (buildSolverModel_returned Hknown).
  pose proof (senses_known_spec (constraints lp)) as Hdec.
  destruct (senses_known (constraints lp)).
  - split; [split; [intros _; now apply Hdec | reflexivity]|].
    intros Hn. exfalso. now apply Hn, Hdec.
  - split; [split; [discriminate | intros Hall%Hdec; discriminate]|].
    reflexivity.
Qed.
End BuildConstraints.

(** ** The in-process adapter: a whole solve *)

(** Projections of the records built along the way, nothing deeper. *)
Ltac proj_simpl :=
  cbn [GUROBI.returned GUROBI.problem GUROBI.printed clear_modified
       set_constraints set_variables set_solverModel set_resolveOK
       assignStatus status variables constraints resolveOK solverModel
       lp_name lp_sense objective GUROBI_cycle.set_solverModel_opt fst snd].

Section Cycle.
Context {F : Type} `{PyNum F}.
Variable gurobipy : Gurobipy F.
Variable optimize : GModel F -> GUROBI_cycle.Answer F.
Variable s : GUROBI.self F.

Lemma assign_zip_Forall {A : Type} (P : A -> Prop) (write : A -> F -> A)
    (objs : list A) (values : list F) :
  (forall o x, P o -> P (write o x)) ->
  Forall P objs -> Forall P (assign_zip write objs values).
Proof.
  intros Hw Hobjs. revert values.
  induction Hobjs as [|o objs Ho Hobjs IH]; intros [|x values]; simpl;
    constructor; auto.
Qed.

(** What [findSolutionValues] keeps whatever the status. *)
Lemma findSolutionValues_kept (lp : LpProblem F) (model : GModel F) :
  solverModel lp = Some model ->
  let lp' := GUROBI.problem (GUROBI.findSolutionValues gurobipy s lp) in
  Forall (fun v => isModified v = false) (variables lp')
  /\ resolveOK lp' = true
  /\ solverModel lp' = Some model.
Proof.
  intros Hm. unfold GUROBI.findSolutionValues. rewrite Hm.
  assert (Forall (fun v : LpVariable F => isModified v = false)
                 (map (set_isModified false) (variables lp))) as Hclear
    by (induction (variables lp); constructor; auto).
  destruct (bool_decide _); simpl; [auto|].
  unfold GUROBI.populate. destruct (IsMIP model =? 0); simpl;
    (split; [|auto]).
  - apply assign_zip_Forall; [auto|]. apply assign_zip_Forall; auto.
  - apply assign_zip_Forall; auto.
Qed.

Lemma solve_and_extract_model (lp : LpProblem F) (m : GModel F) :
  solverModel lp = Some m ->
  let lp1 := set_solverModel (GUROBI_cycle.answered (optimize m) m) lp in
  GUROBI.returned (GUROBI_cycle.solve_and_extract gurobipy optimize s lp)
    = Ok (GUROBI.lookup_status gurobipy (GUROBI_cycle.ans_Status (optimize m)))
  /\ GUROBI.problem (GUROBI_cycle.solve_and_extract gurobipy optimize s lp)
     = clear_modified (GUROBI.problem (GUROBI.findSolutionValues gurobipy s lp1)).
Proof.
  intros Hm lp1.
  unfold GUROBI_cycle.solve_and_extract, GUROBI_cycle.callSolver,
    GUROBI_cycle.andThen.
  rewrite Hm. proj_simpl. fold lp1.
  destruct (findSolutionValues_returned gurobipy s lp1
              (GUROBI_cycle.answered (optimize m) m) eq_refl) as [Hr _].
  rewrite Hr. proj_simpl. split; reflexivity.
Qed.

Lemma solve_and_extract_flags (lp : LpProblem F) (m : GModel F) :
  solverModel lp = Some m ->
  flags_cleared
    (GUROBI.problem (GUROBI_cycle.solve_and_extract gurobipy optimize s lp))
  /\ status (GUROBI.problem (GUROBI_cycle.solve_and_extract gurobipy optimize s lp))
     = Some (GUROBI.lookup_status gurobipy (GUROBI_cycle.ans_Status (optimize m))).
Proof.
  intros Hm. destruct (solve_and_extract_model lp m Hm) as [_ ->].
  set (lp1 := set_solverModel (GUROBI_cycle.answered (optimize m) m) lp).
  destruct (findSolutionValues_kept lp1 _ eq_refl) as (Hmod & Hres & _).
  destruct (findSolutionValues_returned gurobipy s lp1 _ eq_refl) as [_ Hst].
  unfold flags_cleared. proj_simpl. repeat split.
  - revert Hmod. generalize (variables (GUROBI.problem
                               (GUROBI.findSolutionValues gurobipy s lp1))).
    induction 1; simpl; constructor; auto.
  - generalize (constraints (GUROBI.problem
                               (GUROBI.findSolutionValues gurobipy s lp1))).
    intros cs. induction cs; simpl; constructor; auto.
  - exact Hres.
  - exact Hst.
Qed.

Lemma push_modified_no_model (cs : list (string * LpConstraint F)) :
  exists r cs',
    GUROBI_cycle.push_modified cs None = (r, cs', None)
    /\ (r = Ok tt \/ r = Raise AttributeError).
Proof.
  induction cs as [|[nm c] cs (r & cs' & E & Hr)]; simpl.
  - eexists _, _. split; [reflexivity | now left].
  - destruct (cmodified c).
    + destruct (solverConstraint c) as [g|].
      * simpl. rewrite E. eexists _, _. split; [reflexivity | exact Hr].
      * eexists _, _. split; [reflexivity | now right].
    + rewrite E. eexists _, _. split; [reflexivity | exact Hr].
Qed.

(** X17: [actualResolve] on a problem that has no native model raises
    [AttributeError]; no status is assigned and no value written. *)
Theorem actualResolve_without_model (lp : LpProblem F) :
  solverModel lp = None ->
  GUROBI.returned (GUROBI_cycle.actualResolve gurobipy optimize s lp)
    = Raise AttributeError
  /\ status (GUROBI.problem (GUROBI_cycle.actualResolve gurobipy optimize s lp))
     = status lp
  /\ map varValue
       (variables (GUROBI.problem (GUROBI_cycle.actualResolve gurobipy optimize s lp)))
     = map varValue (variables lp).
Proof.
  intros Hm. unfold GUROBI_cycle.actualResolve. rewrite Hm.
  destruct (push_modified_no_model (constraints lp)) as (r & cs' & -> & [-> | ->]);
    proj_simpl; rewrite ?Hm; proj_simpl; auto.
Qed.

(** X18: whenever [actualSolve] or [actualResolve] returns a status,
    that status is assigned onto the problem, [resolveOK] is set, and
    every flag is cleared: [modified] and [isModified] on every
    variable, [modified] on every constraint. *)
Theorem solve_clears_flags (lp : LpProblem F) (st : LpStatus) :
  (GUROBI.returned (GUROBI_cycle.actualSolve gurobipy optimize s lp) = Ok st ->
   flags_cleared (GUROBI.problem (GUROBI_cycle.actualSolve gurobipy optimize s lp))
   /\ status (GUROBI.problem (GUROBI_cycle.actualSolve gurobipy optimize s lp))
      = Some st)
  /\ (GUROBI.returned (GUROBI_cycle.actualResolve gurobipy optimize s lp) = Ok st ->
      flags_cleared
        (GUROBI.problem (GUROBI_cycle.actualResolve gurobipy optimize s lp))
      /\ status (GUROBI.problem (GUROBI_cycle.actualResolve gurobipy optimize s lp))
         = Some st).
Proof.
  split.
  - unfold GUROBI_cycle.actualSolve, GUROBI_cycle.andThen.
    destruct (buildSolverModel_unfold gurobipy s lp)
      as (vars & m1 & r & cs & m2 & _ & _ & ->).
    proj_simpl. destruct r as [[]|e]; [|discriminate]. proj_simpl.
    set (lp1 := set_solverModel m2 _).
    destruct (solve_and_extract_model lp1 m2 eq_refl) as [Hr _].
    destruct (solve_and_extract_flags lp1 m2 eq_refl) as [Hf Hs].
    rewrite Hr. intros [= <-]. split; assumption.
  - unfold GUROBI_cycle.actualResolve.
    destruct (GUROBI_cycle.push_modified (constraints lp) (solverModel lp))
      as [[r cs] m].
    destruct r as [[]|e]; [|discriminate].
    set (lp1 := GUROBI_cycle.set_solverModel_opt m _).
    destruct (solverModel lp1) as [m1|] eqn:Em; [|discriminate].
    destruct (solve_and_extract_model lp1 m1 Em) as [Hr _].
    destruct (solve_and_extract_flags lp1 m1 Em) as [Hf Hs].
    rewrite Hr. intros [= <-]. split; assumption.
Qed.
End Cycle.

(** ** The in-process adapter: from the engine's answer to the problem *)

Section EndToEnd.
Context {F : Type} `{PyNum F}.
Variable gurobipy : Gurobipy F.
Variable optimize : GModel F -> GUROBI_cycle.Answer F.
Variable s : GUROBI.self F.

Lemma findSolutionValues_optimal_problem (lp : LpProblem F) (model : GModel F) :
  solverModel lp = Some model ->
  GUROBI.lookup_status gurobipy (Status model) = LpStatusOptimal ->
  GUROBI.problem (GUROBI.findSolutionValues gurobipy s lp)
  = GUROBI.populate model
      (assignStatus LpStatusOptimal
         (set_variables (map (set_isModified false) (variables lp))
            (set_resolveOK true lp))).
Proof.
  intros Hm Hst. unfold GUROBI.findSolutionValues. rewrite Hm, Hst. reflexivity.
Qed.

(** The variable and the constraint at a position after [populate]. *)
Lemma populate_variable (model : GModel F) (lp : LpProblem F) (i : nat)
    (v : LpVariable F) (x rc : F) :
  variables lp !! i = Some v ->
  getAttr_vars (X model) model !! i = Some x ->
  getAttr_vars (RC model) model !! i = Some rc ->
  variables (GUROBI.populate model lp) !! i
  = Some (if IsMIP model =? 0 then set_dj (set_varValue v x) rc
          else set_varValue v x).
Proof.
  intros Hv Hx Hrc. unfold GUROBI.populate.
  destruct (IsMIP model =? 0); proj_simpl;
    rewrite !assign_zip_lookup, Hv, Hx, ?Hrc; reflexivity.
Qed.

Lemma populate_constraint (model : GModel F) (lp : LpProblem F) (i : nat)
    (kc : string * LpConstraint F) (sl p : F) :
  constraints lp !! i = Some kc ->
  getAttr_constrs (Slack model) model !! i = Some sl ->
  getAttr_constrs (Pi model) model !! i = Some p ->
  constraints (GUROBI.populate model lp) !! i
  = Some (if IsMIP model =? 0 then on_snd set_pi (on_snd set_slack kc sl) p
          else on_snd set_slack kc sl).
Proof.
  intros Hc Hsl Hp. unfold GUROBI.populate.
  destruct (IsMIP model =? 0); proj_simpl;
    rewrite !assign_zip_lookup, Hc, Hsl, ?Hp; reflexivity.
Qed.

(** On an engine that hands out empty models, the columns and the rows
    of the built model stand at the positions of the variables and of
    the constraints. *)
Lemma built_positions (lp : LpProblem F) (m : GModel F) :
  gvars (Model gurobipy (lp_name lp)) = [] ->
  gconstrs (Model gurobipy (lp_name lp)) = [] ->
  GUROBI.returned (GUROBI.buildSolverModel gurobipy s lp) = Ok tt ->
  solverModel (GUROBI.problem (GUROBI.buildSolverModel gurobipy s lp)) = Some m ->
  (forall i var, variables lp !! i = Some var ->
     exists g, gvars m !! i = Some g /\ gv_index g = i
       /\ variables (GUROBI.problem (GUROBI.buildSolverModel gurobipy s lp)) !! i
          = Some (set_solverVar var g))
  /\ (forall i nm c, constraints lp !! i = Some (nm, c) ->
        exists g, gconstrs m !! i = Some g /\ gc_index g = i
          /\ gc_rhs g = num_neg (constant c)
          /\ constraints (GUROBI.problem (GUROBI.buildSolverModel gurobipy s lp)) !! i
             = Some (nm, set_solverConstraint c g))
  /\ length (gconstrs m) = length (constraints lp).
Proof.
  intros Hv0 Hc0.
  destruct (buildSolverModel_unfold gurobipy s lp)
    as (vars & m1 & r & cs & m2 & Hv & Hc & ->).
  proj_simpl. intros -> [= <-].
  destruct (configured_model_shape gurobipy s lp) as [Hcv Hcc].
  rewrite Hv0 in Hcv. rewrite Hc0 in Hcc.
  pose proof (addVariables_columns gurobipy s lp (variables lp)
                (GUROBI.configured_model gurobipy s lp)) as Hcols.
  pose proof (addVariables_shape gurobipy s lp (variables lp)
                (GUROBI.configured_model gurobipy s lp)) as (_ & _ & Hrows1).
  rewrite Hv in Hcols, Hrows1. cbn [fst snd] in Hcols, Hrows1.
  rewrite Hcv in Hcols. rewrite Hcc in Hrows1. simpl in Hcols.
  pose proof (addConstraints_gvars vars (constraints lp) m1) as Hsame.
  rewrite Hc in Hsame. cbn [snd] in Hsame.
  destruct (addConstraints_rows _ _ _ _ _ Hc) as (rows & Hrows & Hlen & Hat).
  rewrite Hrows1 in Hrows, Hat. simpl in Hrows, Hat.
  split; [|split].
  - intros i var Hi.
    exists (native_var gurobipy s lp i var). split; [|split; [reflexivity|]].
    + rewrite Hsame, Hcols, list_lookup_imap, Hi. reflexivity.
    + destruct (addVariables_lookup gurobipy s lp (variables lp)
                  (GUROBI.configured_model gurobipy s lp) i var Hi) as [Hl _].
      rewrite Hv, Hcv in Hl. exact Hl.
  - intros i nm c Hi.
    destruct (Hat i nm c Hi) as (expr & rel & _ & _ & Hcs & Hrow).
    eexists. rewrite Hrows. split; [exact Hrow|]. repeat split. exact Hcs.
  - now rewrite Hrows.
Qed.

(** X19: on an engine that hands out empty models, when the build
    returns and the engine's status maps to [Optimal], [actualSolve]
    returns [Optimal] and the variable at each position gets the value
    the engine gives for the column at that position, the constraint at
    each position the slack of the row at that position; reduced costs
    and duals come from the same column and row when the answer is not
    a MIP and stay as they were when it is. *)
Theorem actualSolve_end_to_end (lp : LpProblem F) (m : GModel F) :
  gvars (Model gurobipy (lp_name lp)) = [] ->
  gconstrs (Model gurobipy (lp_name lp)) = [] ->
  GUROBI.returned (GUROBI.buildSolverModel gurobipy s lp) = Ok tt ->
  solverModel (GUROBI.problem (GUROBI.buildSolverModel gurobipy s lp)) = Some m ->
  GUROBI.lookup_status gurobipy (GUROBI_cycle.ans_Status (optimize m))
    = LpStatusOptimal ->
  let a := optimize m in
  let o := GUROBI_cycle.actualSolve gurobipy optimize s lp in
  GUROBI.returned o = Ok LpStatusOptimal
  /\ (forall i var, variables lp !! i = Some var ->
        exists var',
          variables (GUROBI.problem o) !! i = Some var'
          /\ name var' = name var
          /\ varValue var' = Some (GUROBI_cycle.ans_X a i)
          /\ dj var' = (if GUROBI_cycle.ans_IsMIP a =? 0
                        then Some (GUROBI_cycle.ans_RC a i) else dj var))
  /\ (forall i nm c, constraints lp !! i = Some (nm, c) ->
        exists c',
          constraints (GUROBI.problem o) !! i = Some (nm, c')
          /\ slack c' = Some (GUROBI_cycle.ans_Slack a i)
          /\ pi c' = (if GUROBI_cycle.ans_IsMIP a =? 0
                      then Some (GUROBI_cycle.ans_Pi a i) else pi c)).
Proof.
  intros Hv0 Hc0 Hok Hm Hopt a o.
  destruct (built_positions lp m Hv0 Hc0 Hok Hm) as (Hvars & Hcons & _).
  assert (GUROBI.returned o
            = GUROBI.returned (GUROBI_cycle.solve_and_extract gurobipy optimize s
                (GUROBI.problem (GUROBI.buildSolverModel gurobipy s lp)))
          /\ GUROBI.problem o
             = GUROBI.problem (GUROBI_cycle.solve_and_extract gurobipy optimize s
                 (GUROBI.problem (GUROBI.buildSolverModel gurobipy s lp))))
    as [Hro Hpo].
  { unfold o, GUROBI_cycle.actualSolve, GUROBI_cycle.andThen. rewrite Hok.
    proj_simpl. split; reflexivity. }
  set (lpb := GUROBI.problem (GUROBI.buildSolverModel gurobipy s lp)) in *.
  destruct (solve_and_extract_model gurobipy optimize s lpb m Hm) as [Hr Hp].
  rewrite Hro, Hpo, Hr, Hp. fold a. unfold a at 1. rewrite Hopt.
  set (lp1 := set_solverModel (GUROBI_cycle.answered a m) lpb).
  rewrite (findSolutionValues_optimal_problem lp1 (GUROBI_cycle.answered a m)
             eq_refl Hopt).
  set (lp2 := assignStatus LpStatusOptimal
                (set_variables (map (set_isModified false) (variables lp1))
                   (set_resolveOK true lp1))).
  split; [reflexivity|]. split.
  - intros i var Hi. destruct (Hvars i var Hi) as (g & Hg & Hidx & Hb).
    set (v0 := set_isModified false (set_solverVar var g)).
    assert (forall attr, getAttr_vars attr (GUROBI_cycle.answered a m) !! i
                         = Some (attr i)) as Hattr.
    { intros attr. unfold getAttr_vars. rewrite lookup_map.
      change (gvars (GUROBI_cycle.answered a m)) with (gvars m).
      rewrite Hg. simpl. now rewrite Hidx. }
    proj_simpl. rewrite lookup_map.
    assert (variables lp2 !! i = Some v0) as Hv2.
    { unfold lp2. proj_simpl. rewrite lookup_map. unfold lp1. proj_simpl.
      rewrite Hb. reflexivity. }
    rewrite (populate_variable (GUROBI_cycle.answered a m) lp2 i v0 _ _
               Hv2 (Hattr _) (Hattr _)).
    eexists. split; [reflexivity|].
    change (IsMIP (GUROBI_cycle.answered a m)) with (GUROBI_cycle.ans_IsMIP a).
    destruct (GUROBI_cycle.ans_IsMIP a =? 0); repeat split.
  - intros i nm c Hi. destruct (Hcons i nm c Hi) as (g & Hg & Hidx & _ & Hb).
    assert (forall attr, getAttr_constrs attr (GUROBI_cycle.answered a m) !! i
                         = Some (attr i)) as Hattr.
    { intros attr. unfold getAttr_constrs. rewrite lookup_map.
      change (gconstrs (GUROBI_cycle.answered a m)) with (gconstrs m).
      rewrite Hg. simpl. now rewrite Hidx. }
    proj_simpl. rewrite lookup_map.
    assert (constraints lp2 !! i = Some (nm, set_solverConstraint c g)) as Hc2.
    { unfold lp2. proj_simpl. unfold lp1. proj_simpl. exact Hb. }
    rewrite (populate_constraint (GUROBI_cycle.answered a m) lp2 i
               (nm, set_solverConstraint c g) _ _ Hc2 (Hattr _) (Hattr _)).
    change (IsMIP (GUROBI_cycle.answered a m)) with (GUROBI_cycle.ans_IsMIP a).
    destruct (GUROBI_cycle.ans_IsMIP a =? 0); cbn [on_snd fst snd];
      eexists; (split; [reflexivity|]); split; reflexivity.
Qed.
End EndToEnd.

(** ** The in-process adapter: a failed build, and a resolve *)

Section FailAndResolve.
Context {F : Type} `{PyNum F}.
Variable gurobipy : Gurobipy F.
Variable optimize : GModel F -> GUROBI_cycle.Answer F.
Variable s : GUROBI.self F.

Lemma addVariables_kept {A : Type} (get : LpVariable F -> A)
    (lp : LpProblem F) (vars : list (LpVariable F)) (m : GModel F) :
  (forall v g, get (set_solverVar v g) = get v) ->
  map get (fst (GUROBI.addVariables gurobipy s lp vars m)) = map get vars.
Proof.
  intros Hget. revert m. induction vars as [|var vars IH]; intros m;
    [reflexivity|].
  simpl.
  match goal with
  | |- context [GUROBI.addVariables gurobipy s lp vars ?m1] =>
      specialize (IH m1);
      destruct (GUROBI.addVariables gurobipy s lp vars m1) as [rest' m2]
  end.
  simpl in *. now rewrite Hget, IH.
Qed.

(** X20: when a constraint has an invalid sense (and the constraints
    mention only variables of the problem), [actualSolve] raises the
    error of [buildSolverModel]: the engine's answer is never read, no
    status is assigned, no value written, no flag cleared; the
    variables nevertheless keep the native variables attached to them. *)
Theorem actualSolve_invalid_sense (lp : LpProblem F) :
  known_variables lp ->
  senses_known (constraints lp) = false ->
  let o := GUROBI_cycle.actualSolve gurobipy optimize s lp in
  GUROBI.returned o
    = Raise (PulpSolverError "Detected an invalid constraint type")
  /\ status (GUROBI.problem o) = status lp
  /\ resolveOK (GUROBI.problem o) = resolveOK lp
  /\ map varValue (variables (GUROBI.problem o)) = map varValue (variables lp)
  /\ map modified (variables (GUROBI.problem o)) = map modified (variables lp)
  /\ Forall attached_var (variables (GUROBI.problem o)).
Proof.
  intros Hknown Hbad o.
  pose proof (buildSolverModel_returned gurobipy s lp Hknown) as Hret.
  rewrite Hbad in Hret.
  unfold o, GUROBI_cycle.actualSolve, GUROBI_cycle.andThen. rewrite Hret.
  proj_simpl.
  destruct (buildSolverModel_unfold gurobipy s lp)
    as (vars & m1 & r & cs & m2 & Hv & _ & ->).
  proj_simpl.
  pose proof (addVariables_attached gurobipy s lp (variables lp)
                (GUROBI.configured_model gurobipy s lp)) as [_ Hatt].
  pose proof (addVariables_kept varValue lp (variables lp)
                (GUROBI.configured_model gurobipy s lp) (fun _ _ => eq_refl)) as Hval.
  pose proof (addVariables_kept modified lp (variables lp)
                (GUROBI.configured_model gurobipy s lp) (fun _ _ => eq_refl)) as Hmod.
  rewrite Hv in Hatt, Hval, Hmod. cbn [fst] in Hatt, Hval, Hmod.
  repeat split; assumption.
Qed.

Lemma set_gconstrs_own (m : GModel F) : set_gconstrs (gconstrs m) m = m.
Proof. now destruct m. Qed.

Lemma resolved_row_unmodified (kc : string * LpConstraint F) (g : GConstr F) :
  cmodified (snd kc) = false -> resolved_row kc g = g.
Proof. unfold resolved_row. intros ->. now destruct g. Qed.

Lemma resolved_row_modified (kc : string * LpConstraint F) (g : GConstr F) :
  cmodified (snd kc) = true ->
  resolved_row kc g = setAttr_RHS (num_neg (constant (snd kc))) g.
Proof. unfold resolved_row. now intros ->. Qed.

(** The loop of [actualResolve] over constraints whose handles are the
    rows from position [k] on: the model it leaves is [m] with other
    rows, as many, the ones below [k] unchanged and the one of each
    constraint with its right-hand side pushed. *)
Lemma push_modified_rows (cs : list (string * LpConstraint F)) (k : nat)
    (m : GModel F) :
  (forall j kc, cs !! j = Some kc ->
     exists g, solverConstraint (snd kc) = Some g /\ gc_index g = (k + j)%nat) ->
  exists cs' rows,
    GUROBI_cycle.push_modified cs (Some m)
    = (Ok tt, cs', Some (set_gconstrs rows m))
    /\ length rows = length (gconstrs m)
    /\ (forall i, (i < k)%nat -> rows !! i = gconstrs m !! i)
    /\ (forall j kc, cs !! j = Some kc ->
          rows !! (k + j)%nat
          = resolved_row kc <$> gconstrs m !! (k + j)%nat).
Proof.
  revert k m. induction cs as [|[nm c] cs IH]; intros k m Hatt.
  - exists [], (gconstrs m). rewrite set_gconstrs_own.
    repeat split. intros j kc Hj. discriminate.
  - assert (forall j kc, cs !! j = Some kc ->
              exists g, solverConstraint (snd kc) = Some g
                        /\ gc_index g = (S k + j)%nat) as Hrest.
    { intros j kc Hj. destruct (Hatt (S j) kc Hj) as (g & Hg & Hidx).
      exists g. split; [exact Hg | lia]. }
    destruct (Hatt 0%nat (nm, c) eq_refl) as (g0 & Hg0 & Hidx0).
    rewrite Nat.add_0_r in Hidx0. simpl in Hg0.
    simpl. destruct (cmodified c) eqn:Emod.
    + rewrite Hg0. simpl.
      destruct (IH (S k) (GUROBI_cycle.push_row g0 (num_neg (constant c)) m) Hrest)
        as (cs' & rows & -> & Hlen & Hlow & Hhigh).
      eexists _, rows. split; [reflexivity|].
      unfold GUROBI_cycle.push_row in Hlen, Hlow, Hhigh.
      simpl in Hlen, Hlow, Hhigh.
      rewrite Hidx0 in Hlen, Hlow, Hhigh. rewrite length_alter in Hlen.
      split; [exact Hlen|]. split.
      * intros i Hi. rewrite Hlow by lia. apply list_lookup_alter_ne. lia.
      * intros [|j] kc Hj; simpl in Hj.
        -- injection Hj as <-. rewrite Nat.add_0_r, Hlow by lia.
           rewrite list_lookup_alter_eq.
           destruct (gconstrs m !! k); [|reflexivity]. simpl.
           now rewrite resolved_row_modified.
        -- pose proof (Hhigh j kc Hj) as Hj'.
           change (S k + j)%nat with (S (k + j)) in Hj'.
           replace (k + S j)%nat with (S (k + j)) by lia.
           rewrite Hj'. f_equal. apply list_lookup_alter_ne. lia.
    + destruct (IH (S k) m Hrest) as (cs' & rows & -> & Hlen & Hlow & Hhigh).
      eexists _, rows. split; [reflexivity|]. split; [exact Hlen|]. split.
      * intros i Hi. apply Hlow. lia.
      * intros [|j] kc Hj; simpl in Hj.
        -- injection Hj as <-. rewrite Nat.add_0_r, Hlow by lia.
           destruct (gconstrs m !! k); [|reflexivity]. simpl.
           now rewrite resolved_row_unmodified.
        -- pose proof (Hhigh j kc Hj) as Hj'.
           change (S k + j)%nat with (S (k + j)) in Hj'.
           replace (k + S j)%nat with (S (k + j)) by lia.
           exact Hj'.
Qed.

(** On a problem whose constraints carry the rows of its model, that
    loop leaves [resolved_model]. *)
Lemma push_modified_resolved (lp : LpProblem F) (m : GModel F) :
  rows_attached lp m ->
  exists cs',
    GUROBI_cycle.push_modified (constraints lp) (Some m)
    = (Ok tt, cs', Some (resolved_model lp m)).
Proof.
  intros [Hlen Hatt].
  destruct (push_modified_rows (constraints lp) 0 m)
    as (cs' & rows & Hpush & Hrl & _ & Hrows).
  { intros j kc Hj. destruct (Hatt j kc Hj) as (g & Hg & Hidx & _). eauto. }
  exists cs'. rewrite Hpush. do 3 f_equal.
  change (resolved_model lp m)
    with (set_gconstrs (zip_with resolved_row (constraints lp) (gconstrs m)) m).
  f_equal. apply list_eq. intros i. rewrite lookup_zip_with.
  destruct (constraints lp !! i) as [kc|] eqn:Ei.
  - specialize (Hrows i kc Ei). simpl in Hrows. rewrite Hrows.
    now destruct (gconstrs m !! i).
  - simpl. apply lookup_ge_None. rewrite Hrl, Hlen.
    now apply lookup_ge_None.
Qed.

(** X21: on a problem whose constraints carry the rows of its native
    model, [actualResolve] has the engine solve [resolved_model]: the
    model of the problem in which the row of every modified constraint
    has minus the constraint's constant as right-hand side and is
    otherwise as it was, every other row, the columns, the name, the
    sense and the parameters being those of the model.  It returns the
    status of the engine's answer on that model, and that model,
    answered, stays attached to the problem. *)
Theorem actualResolve_pushes_rhs (lp : LpProblem F) (m : GModel F) :
  solverModel lp = Some m ->
  rows_attached lp m ->
  let m1 := resolved_model lp m in
  let o := GUROBI_cycle.actualResolve gurobipy optimize s lp in
  GUROBI.returned o
  = Ok (GUROBI.lookup_status gurobipy (GUROBI_cycle.ans_Status (optimize m1)))
  /\ solverModel (GUROBI.problem o)
     = Some (GUROBI_cycle.answered (optimize m1) m1).
Proof.
  intros Hm Hatt m1 o.
  destruct (push_modified_resolved lp m Hatt) as [cs' Hpush].
  unfold o, GUROBI_cycle.actualResolve. rewrite Hm, Hpush. proj_simpl.
  fold m1.
  set (lp1 := set_solverModel m1 (set_constraints cs' lp)).
  destruct (solve_and_extract_model gurobipy optimize s lp1 m1 eq_refl) as [Hr Hp].
  rewrite Hr, Hp. split; [reflexivity|].
  proj_simpl.
  destruct (findSolutionValues_kept gurobipy s
              (set_solverModel (GUROBI_cycle.answered (optimize m1) m1) lp1)
              _ eq_refl) as (_ & _ & Hkept).
  exact Hkept.
Qed.
End FailAndResolve.

(** ** The further statements at concrete inputs *)

Import Scenarios.

Lemma readsol_ignores_comment_line_witness :
  str_all (fun c => negb (is_newline c)) " y is free" = true
  /\ readsol (F := Z)
       (("# Objective value = 11" +:+ newline +:+ "x 3")
        +:+ newline +:+ ("#" +:+ " y is free") +:+ newline
        +:+ ("y 1" +:+ newline))
     = readsol
         (("# Objective value = 11" +:+ newline +:+ "x 3")
          +:+ newline +:+ ("y 1" +:+ newline)).
Proof.
  split; [reflexivity|].
  exact (readsol_ignores_comment_line
           ("# Objective value = 11" +:+ newline +:+ "x 3") " y is free"
           ("y 1" +:+ newline) eq_refl).
Defined.

Lemma twice_text_well_formed : well_formed twice_text.
Proof. apply well_formedb_spec. vm_compute. reflexivity. Qed.

Lemma readsol_last_entry_wins_witness :
  well_formed twice_text
  /\ entries twice_text = ([("x", 3); ("y", 1)] ++ ("x", 4) :: [])%list
  /\ ("x" ∉ map fst ([] : list (string * Z)))
  /\ exists values,
      readsol twice_text = Ok (LpStatusOptimal, values, ∅, ∅, ∅)
      /\ values !! "x" = Some 4.
Proof.
  assert (entries twice_text = ([("x", 3); ("y", 1)] ++ ("x", 4) :: [])%list)
    as He by (vm_compute; reflexivity).
  assert ("x" ∉ map fst ([] : list (string * Z))) as Hn by apply not_elem_of_nil.
  split; [exact twice_text_well_formed|]. split; [exact He|]. split; [exact Hn|].
  exact (readsol_last_entry_wins twice_text _ _ "x" 4
           twice_text_well_formed He Hn).
Defined.

Lemma readsol_sol_text_result :
  readsol sol_text = Ok (LpStatusOptimal, {[ "x" := 3; "y" := 1 ]}, ∅, ∅, ∅).
Proof. vm_compute. reflexivity. Qed.

Lemma readsol_values_in_file_witness :
  readsol sol_text = Ok (LpStatusOptimal, {[ "x" := 3; "y" := 1 ]}, ∅, ∅, ∅)
  /\ ("y", 1) ∈ entries sol_text.
Proof.
  split; [exact readsol_sol_text_result|].
  apply (proj1 (readsol_values_in_file sol_text _ _ _ _ _ readsol_sol_text_result)).
  reflexivity.
Defined.

Lemma writesol_readsol_behind_header_witness :
  str_all (fun c => negb (is_newline c)) "# MIP start" = true
  /\ Forall portable [("x", 1); ("y", -2); ("z", 5)]
  /\ readsol ("# MIP start" +:+ newline
              +:+ writesol_text (all_defined [("x", 1); ("y", -2); ("z", 5)]))
     = Ok (LpStatusOptimal, dict_of_pairs [("x", 1); ("y", -2); ("z", 5)],
           ∅, ∅, ∅).
Proof.
  split; [reflexivity|]. split; [exact portable_pairs|].
  exact (writesol_readsol_behind_header "# MIP start" _ eq_refl portable_pairs).
Defined.

Lemma printable_example :
  printable [("x", Some 1); ("not set", None); ("z", Some (-2))].
Proof.
  repeat (constructor;
          [intros x Hx; simpl in Hx;
           first [discriminate Hx
                 | injection Hx as <-; vm_compute; split; reflexivity]|]).
  constructor.
Qed.

Lemma writesol_lines_witness :
  printable [("x", Some 1); ("not set", None); ("z", Some (-2))]
  /\ map str_split
       (file_lines
          (writesol_text [("x", Some 1); ("not set", None); ("z", Some (-2))]))
     = [["x"; "1"]; ["z"; "-2"]].
Proof.
  split; [exact printable_example|].
  exact (writesol_lines _ printable_example).
Defined.

Lemma getOptions_emitted_witness :
  GUROBI_CMD.getOptions gurobi_cl_warm
  = [("LogFile", PyString "g.log"); ("Threads", PyNumber 4)].
Proof.
  rewrite (proj1 (getOptions_emitted gurobi_cl_warm)). reflexivity.
Defined.

Lemma warm_call_in_trace :
  GUROBI_CMD.SubprocessCall argv_warm true 1
  ∈ GUROBI_CMD.trace
      (snd (GUROBI_CMD.actualSolve (machine 1 None) gurobi_cl_warm lp0
              (GUROBI_CMD.initial ∅))).
Proof. vm_compute. repeat constructor. Qed.

Lemma warm_options_tokens :
  Forall (fun kv => is_token (GUROBI_CMD.option_text kv) = true)
         (GUROBI_CMD.options gurobi_cl_warm ++ GUROBI_CMD.getOptions gurobi_cl_warm).
Proof. vm_compute. repeat constructor. Qed.

Lemma actualSolve_command_line_witness :
  GUROBI_CMD.SubprocessCall argv_warm true 1
  ∈ GUROBI_CMD.trace
      (snd (GUROBI_CMD.actualSolve (machine 1 None) gurobi_cl_warm lp0
              (GUROBI_CMD.initial ∅)))
  /\ argv_warm
     = command_line gurobi_cl_warm "demo-pulp.lp" "demo-pulp.sol" "demo-pulp.mst".
Proof.
  split; [exact warm_call_in_trace|].
  exact (proj1 (actualSolve_command_line (machine 1 None) gurobi_cl_warm lp0 ∅
                  argv_warm true 1 eq_refl warm_options_tokens
                  eq_refl eq_refl eq_refl warm_call_in_trace)).
Defined.

Lemma actualSolve_before_the_call_witness :
  available (machine 0 None) gurobi_cl_warm = true
  /\ exists argv code rest,
      GUROBI_CMD.trace
        (snd (GUROBI_CMD.actualSolve (machine 0 None) gurobi_cl_warm lp0
                (GUROBI_CMD.initial ∅)))
      = ([ GUROBI_CMD.WriteLP "demo-pulp.lp"; GUROBI_CMD.Remove "demo-pulp.sol";
           GUROBI_CMD.WriteSol "demo-pulp.mst"; GUROBI_CMD.OpenDevnull ]
         ++ GUROBI_CMD.SubprocessCall argv true code :: rest)%list.
Proof.
  split; [reflexivity|].
  exact (actualSolve_before_the_call (machine 0 None) gurobi_cl_warm lp0 ∅ eq_refl).
Defined.

Lemma actualSolve_cannot_execute_witness :
  available no_machine gurobi_cl = false
  /\ GUROBI_CMD.actualSolve no_machine gurobi_cl lp0 (GUROBI_CMD.initial ∅)
     = (Raise (cannot_execute gurobi_cl), GUROBI_CMD.initial ∅).
Proof.
  split; [reflexivity|].
  destruct (actualSolve_cannot_execute no_machine gurobi_cl lp0 ∅) as [Hiff Hw].
  destruct (GUROBI_CMD.actualSolve no_machine gurobi_cl lp0 (GUROBI_CMD.initial ∅))
    as [r w]. simpl in *.
  rewrite (proj1 Hiff eq_refl), (Hw eq_refl). reflexivity.
Defined.

Lemma sol_run :
  { w' | GUROBI_CMD.actualSolve (machine 0 (Some sol_text)) gurobi_cl lp0
           (GUROBI_CMD.initial ∅) = (Ok LpStatusOptimal, w') }.
Proof. eexists. vm_compute. reflexivity. Defined.

Lemma actualSolve_returns_witness :
  GUROBI_CMD.actualSolve (machine 0 (Some sol_text)) gurobi_cl lp0
    (GUROBI_CMD.initial ∅) = (Ok LpStatusOptimal, proj1_sig sol_run)
  /\ existsb GUROBI_CMD.is_delete
       (events_before_last 6 (GUROBI_CMD.trace (proj1_sig sol_run))) = false.
Proof.
  split; [exact (proj2_sig sol_run)|].
  exact (proj2 (proj2 (proj2
           (actualSolve_returns (machine 0 (Some sol_text)) gurobi_cl lp0 ∅
              LpStatusOptimal (proj1_sig sol_run) (proj2_sig sol_run))))).
Defined.

Lemma lost_run :
  { w' | GUROBI_CMD.actualSolve (machine 0 None) gurobi_cl lp0
           (GUROBI_CMD.initial ∅) = (Raise TypeError, w') }.
Proof. eexists. vm_compute. reflexivity. Defined.

Lemma actualSolve_raises_witness :
  GUROBI_CMD.actualSolve (machine 0 None) gurobi_cl lp0
    (GUROBI_CMD.initial ∅) = (Raise TypeError, proj1_sig lost_run)
  /\ GUROBI_CMD.DeleteTmpFiles
       ["demo-pulp.lp"; "demo-pulp.mst"; "demo-pulp.sol"; "gurobi.log"]
     ∈ GUROBI_CMD.trace (proj1_sig lost_run)
  /\ GUROBI_CMD.AssignVarsVals None ∈ GUROBI_CMD.trace (proj1_sig lost_run).
Proof.
  split; [exact (proj2_sig lost_run)|].
  destruct (actualSolve_raises (machine 0 None) gurobi_cl lp0 ∅
              TypeError (proj1_sig lost_run) (proj2_sig lost_run))
    as [(Hno & _) | (call & f & _ & _ & _ & _ & _ & Hdel & Hnone)].
  - vm_compute in Hno. discriminate Hno.
  - split; [exact Hdel | apply Hnone; reflexivity].
Defined.

Lemma findSolutionValues_beyond_columns_witness :
  solverModel lp0_grown = Some (model_of lp0_grown)
  /\ variables lp0_grown !! 2%nat = Some (var "z" None None LpContinuous)
  /\ (length (gvars (model_of lp0_grown)) <= 2)%nat
  /\ exists var',
      variables (GUROBI.problem
                   (GUROBI.findSolutionValues gurobipy (solver false) lp0_grown))
        !! 2%nat = Some var'
      /\ varValue var' = None.
Proof.
  assert ((length (gvars (model_of lp0_grown)) <= 2)%nat) as Hlen
    by (vm_compute; reflexivity).
  split; [reflexivity|]. split; [reflexivity|]. split; [exact Hlen|].
  destruct (findSolutionValues_beyond_columns gurobipy (solver false) lp0_grown
              (model_of lp0_grown) 2 (var "z" None None LpContinuous)
              eq_refl eq_refl Hlen) as (var' & Hl & Hval & _).
  exists var'. split; [exact Hl | exact Hval].
Defined.

Lemma lp0_build_returns :
  GUROBI.returned (GUROBI.buildSolverModel gurobipy (solver false) lp0) = Ok tt.
Proof. vm_compute. reflexivity. Qed.

Lemma buildSolverModel_constraints_witness :
  GUROBI.returned (GUROBI.buildSolverModel gurobipy (solver false) lp0) = Ok tt
  /\ constraints lp0 !! 0%nat
     = Some ("c1", constr [("x", 1); ("y", 1)] LpConstraintLE (-4))
  /\ exists (g : GConstr Z) (c' : LpConstraint Z),
      constraints (GUROBI.problem (GUROBI.buildSolverModel gurobipy (solver false) lp0))
        !! 0%nat
      = Some ("c1", c')
      /\ solverConstraint c' = Some g /\ constant c' = -4
      /\ gc_relation g = LESS_EQUAL /\ gc_rhs g = 4 /\ gc_name g = "c1".
Proof.
  split; [exact lp0_build_returns|]. split; [reflexivity|].
  destruct (buildSolverModel_constraints gurobipy (solver false) lp0 0 "c1"
              (constr [("x", 1); ("y", 1)] LpConstraintLE (-4))
              lp0_build_returns eq_refl)
    as (g & m & rel & c' & Hl & Hatt & (_ & _ & Hconst & _) & _ & _ & Hrel & Hg
        & Hrhs & Hname & _).
  exists g, c'. split; [exact Hl|]. split; [exact Hatt|].
  split; [exact Hconst|]. split; [|split; [exact Hrhs | exact Hname]].
  rewrite Hg. simpl in Hrel. now injection Hrel.
Defined.

Lemma lp_bad_known : known_variables lp_bad.
Proof.
  unfold known_variables.
  repeat (constructor; [repeat (constructor; [vm_compute; set_solver|]); constructor|]).
  constructor.
Qed.

Lemma lp_bad_sense :
  ~ Forall (fun kc : string * LpConstraint Z =>
              is_Some (relation_of (sense (snd kc)))) (constraints lp_bad).
Proof.
  intros Hall. apply Forall_cons in Hall as [_ Hall].
  apply Forall_cons in Hall as [[rel Hrel] _]. discriminate Hrel.
Qed.

Lemma buildSolverModel_invalid_sense_witness :
  known_variables lp_bad
  /\ GUROBI.returned (GUROBI.buildSolverModel gurobipy (solver false) lp_bad)
     = Raise (PulpSolverError "Detected an invalid constraint type").
Proof.
  split; [exact lp_bad_known|].
  exact (proj2 (buildSolverModel_invalid_sense gurobipy (solver false) lp_bad
                  lp_bad_known) lp_bad_sense).
Defined.

Lemma buildSolverModel_shape_witness :
  gvars (Model gurobipy (lp_name lp0)) = []
  /\ gconstrs (Model gurobipy (lp_name lp0)) = []
  /\ GUROBI.returned (GUROBI.buildSolverModel gurobipy (solver false) lp0) = Ok tt
  /\ exists m,
      solverModel (GUROBI.problem (GUROBI.buildSolverModel gurobipy (solver false) lp0))
        = Some m
      /\ length (gvars m) = 2%nat /\ length (gconstrs m) = 1%nat.
Proof.
  split; [reflexivity|]. split; [reflexivity|]. split; [exact lp0_build_returns|].
  destruct (buildSolverModel_shape gurobipy (solver false) lp0
              eq_refl eq_refl lp0_build_returns) as (m & Hm & Hv & Hc).
  exists m. split; [exact Hm|]. split.
  - rewrite Hv. vm_compute. reflexivity.
  - rewrite Hc. vm_compute. reflexivity.
Defined.

Lemma actualResolve_without_model_witness :
  solverModel lp0 = None
  /\ GUROBI.returned
       (GUROBI_cycle.actualResolve gurobipy (engine 2 0) (solver false) lp0)
     = Raise AttributeError.
Proof.
  split; [reflexivity|].
  exact (proj1 (actualResolve_without_model gurobipy (engine 2 0) (solver false)
                  lp0 eq_refl)).
Defined.

Lemma lp0_solve_infeasible :
  GUROBI.returned
    (GUROBI_cycle.actualSolve gurobipy (engine 3 1) (solver false) lp0)
  = Ok LpStatusInfeasible.
Proof. vm_compute. reflexivity. Qed.

Lemma solve_clears_flags_witness :
  GUROBI.returned
    (GUROBI_cycle.actualSolve gurobipy (engine 3 1) (solver false) lp0)
  = Ok LpStatusInfeasible
  /\ flags_cleared
       (GUROBI.problem
          (GUROBI_cycle.actualSolve gurobipy (engine 3 1) (solver false) lp0)).
Proof.
  split; [exact lp0_solve_infeasible|].
  exact (proj1 (proj1 (solve_clears_flags gurobipy (engine 3 1) (solver false)
                         lp0 LpStatusInfeasible) lp0_solve_infeasible)).
Defined.

Lemma actualSolve_end_to_end_witness :
  GUROBI.returned
    (GUROBI_cycle.actualSolve gurobipy (engine 2 0) (solver false) lp0)
  = Ok LpStatusOptimal
  /\ exists var',
      variables (GUROBI.problem
        (GUROBI_cycle.actualSolve gurobipy (engine 2 0) (solver false) lp0))
        !! 1%nat = Some var'
      /\ name var' = "y" /\ varValue var' = Some 2 /\ dj var' = Some 7.
Proof.
  destruct (actualSolve_end_to_end gurobipy (engine 2 0) (solver false) lp0
              (model_of lp0_built) eq_refl eq_refl lp0_build_returns eq_refl
              eq_refl) as (Hr & Hvars & _).
  split; [exact Hr|].
  destruct (Hvars 1%nat (var "y" None None LpContinuous) eq_refl)
    as (var' & Hl & Hn & Hv & Hd).
  exists var'. split; [exact Hl|]. split; [exact Hn|]. split; [exact Hv | exact Hd].
Defined.

Lemma actualSolve_invalid_sense_witness :
  known_variables lp_bad
  /\ senses_known (constraints lp_bad) = false
  /\ GUROBI.returned
       (GUROBI_cycle.actualSolve gurobipy (engine 2 0) (solver false) lp_bad)
     = Raise (PulpSolverError "Detected an invalid constraint type")
  /\ status (GUROBI.problem
       (GUROBI_cycle.actualSolve gurobipy (engine 2 0) (solver false) lp_bad))
     = None.
Proof.
  split; [exact lp_bad_known|]. split; [reflexivity|].
  destruct (actualSolve_invalid_sense gurobipy (engine 2 0) (solver false) lp_bad
              lp_bad_known eq_refl) as (Hr & Hs & _).
  split; [exact Hr | exact Hs].
Defined.

Lemma lp0_changed_rows : rows_attached lp0_changed (model_of lp0_changed).
Proof.
  split; [reflexivity|].
  intros [|i] kc Hi; [|discriminate Hi].
  injection Hi as <-. eexists. repeat split.
Qed.

Lemma actualResolve_pushes_rhs_witness :
  solverModel lp0_changed = Some (model_of lp0_changed)
  /\ rows_attached lp0_changed (model_of lp0_changed)
  /\ map gc_rhs (gconstrs (resolved_model lp0_changed (model_of lp0_changed)))
     = [6]
  /\ solverModel
       (GUROBI.problem
          (GUROBI_cycle.actualResolve gurobipy (engine 2 0) (solver false)
             lp0_changed))
     = Some (GUROBI_cycle.answered
               (engine 2 0 (resolved_model lp0_changed (model_of lp0_changed)))
               (resolved_model lp0_changed (model_of lp0_changed))).
Proof.
  split; [reflexivity|]. split; [exact lp0_changed_rows|].
  split; [vm_compute; reflexivity|].
  exact (proj2 (actualResolve_pushes_rhs gurobipy (engine 2 0) (solver false)
                  lp0_changed (model_of lp0_changed) eq_refl lp0_changed_rows)).
Defined.

(** ** The further definitions on small inputs *)

Example actualSolve_without_solution_file :
  let out := GUROBI_CMD.actualSolve (machine 0 None) gurobi_cl lp0
               (GUROBI_CMD.initial ∅) in
  fst out = Raise TypeError
  /\ GUROBI_CMD.files (snd out) = ∅
  /\ GUROBI_CMD.trace (snd out)
     = [ GUROBI_CMD.WriteLP "demo-pulp.lp"; GUROBI_CMD.Remove "demo-pulp.sol";
         GUROBI_CMD.OpenDevnull; GUROBI_CMD.SubprocessCall argv0 true 0;
         GUROBI_CMD.ClosePipe;
         GUROBI_CMD.DeleteTmpFiles
           ["demo-pulp.lp"; "demo-pulp.mst"; "demo-pulp.sol"; "gurobi.log"];
         GUROBI_CMD.AssignVarsVals None ].
Proof. vm_compute. repeat split. Qed.

Example actualSolve_unknown_name :
  let out := GUROBI_CMD.actualSolve
               (machine 0 (Some ("# Objective value = 1" +:+ newline +:+ "w 1")))
               gurobi_cl lp0 (GUROBI_CMD.initial ∅) in
  fst out = Raise KeyError
  /\ last (GUROBI_CMD.trace (snd out))
     = Some (GUROBI_CMD.AssignVarsVals (Some {[ "w" := 1 ]}))
  /\ existsb GUROBI_CMD.is_delete (GUROBI_CMD.trace (snd out)) = true.
Proof. vm_compute. repeat split. Qed.

Example actualSolve_malformed_solution_file :
  let out := GUROBI_CMD.actualSolve (machine 0 (Some bad_text)) gurobi_cl lp0
               (GUROBI_CMD.initial ∅) in
  fst out = Raise ValueError
  /\ existsb GUROBI_CMD.is_delete (GUROBI_CMD.trace (snd out)) = false
  /\ existsb GUROBI_CMD.is_assign (GUROBI_CMD.trace (snd out)) = false.
Proof. vm_compute. repeat split. Qed.

Example argv_of_warm_start :
  command_line gurobi_cl_warm "demo-pulp.lp" "demo-pulp.sol" "demo-pulp.mst"
  = argv_warm.
Proof. vm_compute. reflexivity. Qed.

Example path_with_blank_is_split :
  str_split ("C:\Program Files\gurobi_cl" +:+ " " +:+ "ResultFile=a.sol")
  = ["C:\Program"; "Files\gurobi_cl"; "ResultFile=a.sol"].
Proof. reflexivity. Qed.

Example lp0_solved_relaxed :
  let o := GUROBI_cycle.actualSolve gurobipy (engine 2 0) (solver false) lp0 in
  GUROBI.returned o = Ok LpStatusOptimal
  /\ map varValue (variables (GUROBI.problem o)) = [Some 1; Some 2]
  /\ map dj (variables (GUROBI.problem o)) = [Some 7; Some 7]
  /\ map modified (variables (GUROBI.problem o)) = [false; false]
  /\ map slack_of (constraints (GUROBI.problem o)) = [Some 5]
  /\ map rhs_of (constraints (GUROBI.problem o)) = [Some 4].
Proof. vm_compute. repeat split. Qed.

Example lp0_changed_resolved :
  let o := GUROBI_cycle.actualResolve gurobipy (engine 2 1) (solver false)
             lp0_changed in
  GUROBI.returned o = Ok LpStatusOptimal
  /\ map rhs_of (constraints (GUROBI.problem o)) = [Some 6]
  /\ (gc_rhs <$> (solverModel (GUROBI.problem o) ≫= fun m => gconstrs m !! 0%nat))
     = Some 6.
Proof. vm_compute. repeat split. Qed.

Example lp_bad_keeps_first_handle :
  let o := GUROBI.buildSolverModel gurobipy (solver false) lp_bad in
  map rhs_of (constraints (GUROBI.problem o)) = [Some 4; None].
Proof. vm_compute. reflexivity. Qed.
